(** * Demo generator (Code.js): provisioning state machine and script pipeline

    A shallow embedding of the server-side logic of the Google Workspace demo
    generator.  [Code.js] holds three revisions of the same program:
      - lines 1-629     ([V1]): namespaced state keys, [getInitialAppState],
                                audit logging, credentials in script properties;
      - lines 630-1107  ([V2]): un-namespaced keys, the special requester;
      - lines 1107-1539 ([V3]): state functions without handlers, a token
                                provider that returns [null] instead of throwing.
    Each revision is a module; code that is textually the same in all of them
    is written once in [Shared].

    The Apps Script platform is not part of the repository.  Its services are
    an environment [env] (script properties, active user, OAuth2 outcome, the
    remote HTTP endpoints, [Math.random], [JSON.parse]/[JSON.stringify]) and a
    mutable [world] (user properties, logging sheet, HTTP request trace).
    [console.log]/[console.error] output is not observable and is left out. *)

From Stdlib Require Import ZArith QArith Qround String Ascii List Lia Permutation.
From stdpp Require Import gmap strings list pretty.
Import ListNotations.
Open Scope string_scope.
Open Scope Z_scope.
Set Warnings "-register-all".

(* ===================================================================== *)
(** ** JavaScript values *)
(* ===================================================================== *)

(** Values that flow through the program: what [JSON.parse] can return, plus
    [undefined].  Objects keep their fields in insertion order.  Numbers are
    integer-valued: the program only tests them for truthiness. *)
Inductive jsval : Type :=
  | VUndefined
  | VNull
  | VBool (b : bool)
  | VNum (n : Z)
  | VStr (s : string)
  | VArr (items : list jsval)
  | VObj (fields : list (string * jsval)).

(** A thrown JavaScript exception; only [e.message] is ever read. *)
Record exn : Type := Exn { message : string }.

Inductive result (A : Type) : Type :=
  | Ok (a : A)
  | Throw (e : exn).
Arguments Ok {A} a.
Arguments Throw {A} e.

(** The double quote character, for texts that contain it. *)
Definition dq : string := String "034"%char EmptyString.

(** ToBoolean: [!x] is [negb (truthy x)]. *)
Definition truthy (v : jsval) : bool :=
  match v with
  | VUndefined | VNull => false
  | VBool b => b
  | VNum n => negb (n =? 0)
  | VStr s => negb (String.eqb s "")
  | VArr _ | VObj _ => true
  end.

(** [s ? ... : ...] on the result of [getProperty], which is a string or null. *)
Definition truthy_opt (o : option string) : bool :=
  match o with
  | Some s => negb (String.eqb s "")
  | None => false
  end.

Fixpoint assoc_get (k : string) (fs : list (string * jsval)) : option jsval :=
  match fs with
  | [] => None
  | (k', v) :: r => if String.eqb k k' then Some v else assoc_get k r
  end.

(** [obj[k] = v]: an existing field keeps its position, a new one goes last. *)
Fixpoint assoc_set (k : string) (v : jsval) (fs : list (string * jsval))
  : list (string * jsval) :=
  match fs with
  | [] => [(k, v)]
  | (k', v') :: r =>
      if String.eqb k k' then (k, v) :: r else (k', v') :: assoc_set k v r
  end.

(** [delete obj[k]]. *)
Fixpoint assoc_del (k : string) (fs : list (string * jsval))
  : list (string * jsval) :=
  match fs with
  | [] => []
  | (k', v') :: r =>
      if String.eqb k k' then assoc_del k r else (k', v') :: assoc_del k r
  end.

(** [v.k] for the property names the program reads (none of them is a
    built-in of strings, numbers, booleans or arrays).  Reading a property of
    [undefined] or [null] throws a TypeError. *)
Definition getProp (v : jsval) (k : string) : result jsval :=
  match v with
  | VUndefined =>
      Throw (Exn ("Cannot read properties of undefined (reading '" +:+ k +:+ "')"))
  | VNull =>
      Throw (Exn ("Cannot read properties of null (reading '" +:+ k +:+ "')"))
  | VObj fs => Ok (match assoc_get k fs with Some x => x | None => VUndefined end)
  | _ => Ok VUndefined
  end.

(** [v.k = x] (sloppy mode: ignored on a primitive). *)
Definition setProp (v : jsval) (k : string) (x : jsval) : jsval :=
  match v with
  | VObj fs => VObj (assoc_set k x fs)
  | _ => v
  end.

Definition deleteProp (v : jsval) (k : string) : jsval :=
  match v with
  | VObj fs => VObj (assoc_del k fs)
  | _ => v
  end.

(** Whether an object has the field at all ([k in v]). *)
Definition hasField (v : jsval) (k : string) : bool :=
  match v with
  | VObj fs => match assoc_get k fs with Some _ => true | None => false end
  | _ => false
  end.

(** [v?.[0]]: optional chaining short-circuits to [undefined] on a nullish
    base; otherwise element 0 of an array, field "0" of an object, the first
    character of a string. *)
Definition optIndex0 (v : jsval) : jsval :=
  match v with
  | VArr (x :: _) => x
  | VObj fs => match assoc_get "0" fs with Some x => x | None => VUndefined end
  | VStr (String c _) => VStr (String c EmptyString)
  | _ => VUndefined
  end.

(** [v?.k]. *)
Definition optProp (v : jsval) (k : string) : jsval :=
  match v with
  | VObj fs => match assoc_get k fs with Some x => x | None => VUndefined end
  | _ => VUndefined
  end.

Definition isArray (v : jsval) : bool :=
  match v with VArr _ => true | _ => false end.

Fixpoint join_with (sep : string) (l : list string) : string :=
  match l with
  | [] => ""
  | [x] => x
  | x :: r => x +:+ sep +:+ join_with sep r
  end.

(** ToString, as used by template literals and string concatenation. *)
Fixpoint toStr (v : jsval) : string :=
  match v with
  | VUndefined => "undefined"
  | VNull => "null"
  | VBool true => "true"
  | VBool false => "false"
  | VNum n => pretty n
  | VStr s => s
  | VArr l =>
      join_with ","
        (map (fun x => match x with
                       | VUndefined | VNull => ""
                       | _ => toStr x
                       end) l)
  | VObj _ => "[object Object]"
  end.

(* ===================================================================== *)
(** ** Strings *)
(* ===================================================================== *)

(** A string is a sequence of code units below 256. *)

Definition char_code (c : ascii) : nat := nat_of_ascii c.

Definition in_range (lo hi : nat) (c : ascii) : bool :=
  (Nat.leb lo (char_code c) && Nat.leb (char_code c) hi)%bool.

Definition is_upper (c : ascii) : bool := in_range 65 90 c.
Definition is_lower (c : ascii) : bool := in_range 97 122 c.
Definition is_digit (c : ascii) : bool := in_range 48 57 c.

(** The class [[a-z0-9]] of the regular expression. *)
Definition is_az09 (c : ascii) : bool := (is_lower c || is_digit c)%bool.

(** [String.prototype.toLowerCase] on one code unit below 256: A-Z and the
    Latin-1 capitals (all of 192..222 but the multiplication sign 215). *)
Definition lower_char (c : ascii) : ascii :=
  if (is_upper c || (in_range 192 222 c && negb (Nat.eqb (char_code c) 215)))%bool
  then ascii_of_nat (char_code c + 32)
  else c.

Fixpoint toLowerCase (s : string) : string :=
  match s with
  | EmptyString => EmptyString
  | String c r => String (lower_char c) (toLowerCase r)
  end.

(** [s.replace(/[^a-z0-9]/g, '')]. *)
Fixpoint replace_non_az09 (s : string) : string :=
  match s with
  | EmptyString => EmptyString
  | String c r =>
      if is_az09 c then String c (replace_non_az09 r) else replace_non_az09 r
  end.

(** [s.split(sep)] for a one-character separator: the pieces between the
    separators, in order; never an empty array. *)
Fixpoint split (sep : ascii) (s : string) : list string :=
  match s with
  | EmptyString => [EmptyString]
  | String c r =>
      if Ascii.eqb c sep then EmptyString :: split sep r
      else match split sep r with
           | piece :: rest => String c piece :: rest
           | [] => [String c EmptyString]
           end
  end.

(** [arr[0]] of an array of strings. *)
Definition index0 (l : list string) : jsval :=
  match l with
  | [] => VUndefined
  | x :: _ => VStr x
  end.

(** [s.substring(0, n)]. *)
Fixpoint substring0 (n : nat) (s : string) : string :=
  match n, s with
  | S n', String c r => String c (substring0 n' r)
  | _, _ => EmptyString
  end.

(** [s[i]]: a one-character string, or [undefined] out of range. *)
Definition strAt (s : string) (i : Z) : jsval :=
  if i <? 0 then VUndefined
  else match String.get (Z.to_nat i) s with
       | Some c => VStr (String c EmptyString)
       | None => VUndefined
       end.

(* ===================================================================== *)
(** ** The platform: environment, world and the effect monad *)
(* ===================================================================== *)

(** One [UrlFetchApp.fetch] call.  Every call of the program sets
    [muteHttpExceptions], so a response of any status is returned and only a
    transport failure throws. *)
Record request : Type := Request {
  method : string;
  url : string;
  bearer : option string;      (* the Authorization header *)
  payload : option string
}.

Inductive fetch_outcome : Type :=
  | Response (status : Z) (body : string)
  | FetchFails (reason : string).

(** What the program reads but never writes. *)
Record env : Type := Env {
  scriptProps : gmap string string;  (* PropertiesService.getScriptProperties() *)
  activeUserEmail : string;          (* Session.getActiveUser().getEmail() *)
  oauthAccess : option string;       (* the OAuth2 service: its access token
                                        when hasAccess(), None otherwise *)
  remote : list request -> request -> fetch_outcome;
                                     (* the remote endpoints, given the
                                        requests made so far *)
  random : nat -> Q;                 (* the n-th value of Math.random() *)
  sheetOpens : bool;                 (* SpreadsheetApp.openById succeeds *)
  JSON_parse : string -> result jsval;
  JSON_stringify : jsval -> string
}.

(** What the program changes. *)
Record world : Type := World {
  userProps : gmap string string;    (* PropertiesService.getUserProperties() *)
  sheetRows : list (string * string);(* rows appended to the logging sheet *)
  requests : list request;           (* the fetch calls made, oldest first *)
  draws : nat                        (* Math.random() values consumed *)
}.

Definition with_userProps (f : gmap string string -> gmap string string)
  (w : world) : world :=
  World (f (userProps w)) (sheetRows w) (requests w) (draws w).

(** A computation may change the world and either returns or throws; what it
    changed before throwing stays changed. *)
Definition M (A : Type) : Type := world -> result A * world.

#[global] Instance M_ret : MRet M := fun A a w => (Ok a, w).

#[global] Instance M_bind : MBind M := fun A B f m w =>
  match m w with
  | (Ok a, w') => f a w'
  | (Throw e, w') => (Throw e, w')
  end.

Definition throw {A : Type} (e : exn) : M A := fun w => (Throw e, w).

(** [try { body } catch (e) { handler e }]. *)
Definition try_catch {A : Type} (body : M A) (handler : exn -> M A) : M A :=
  fun w =>
    match body w with
    | (Ok a, w') => (Ok a, w')
    | (Throw e, w') => handler e w'
    end.

Definition lift {A : Type} (r : result A) : M A := fun w => (r, w).

Definition getProperty (k : string) : M (option string) :=
  fun w => (Ok (userProps w !! k), w).

Definition setProperty (k v : string) : M unit :=
  fun w => (Ok tt, with_userProps (insert k v) w).

Definition deleteProperty (k : string) : M unit :=
  fun w => (Ok tt, with_userProps (delete k) w).


(** [sheet.appendRow([new Date(), prompt, output])]; the date is left out. *)
Definition appendRow (prompt output : string) : M unit :=
  fun w => (Ok tt, World (userProps w) (sheetRows w ++ [(prompt, output)])
                         (requests w) (draws w)).

Definition fetch (E : env) (req : request) : M (Z * string) :=
  fun w =>
    let w' := World (userProps w) (sheetRows w) (requests w ++ [req]) (draws w) in
    match remote E (requests w) req with
    | Response c b => (Ok (c, b), w')
    | FetchFails m => (Throw (Exn m), w')
    end.

Definition mathRandom (E : env) : M Q :=
  fun w => (Ok (random E (draws w)),
            World (userProps w) (sheetRows w) (requests w) (S (draws w))).

(** [Math.floor(Math.random() * n)]. *)
Definition randomBelow (E : env) (n : Z) : M Z :=
  r ← mathRandom E; mret (Qfloor (r * inject_Z n)).

(** [getProperty(k) || dflt] on the script properties. *)
Definition scriptPropertyOr (E : env) (k dflt : string) : string :=
  match scriptProps E !! k with
  | Some v => if String.eqb v "" then dflt else v
  | None => dflt
  end.

(** The result objects of the public operations. *)
Definition failure (msg : string) : jsval :=
  VObj [("success", VBool false); ("error", VStr msg)].

Definition isFailure (v : jsval) : Prop :=
  exists msg, v = failure msg.

Definition authHeader (token : jsval) : option string :=
  Some ("Bearer " +:+ toStr token).

Definition usersUrl : string :=
  "https://admin.googleapis.com/admin/directory/v1/users".

(* ===================================================================== *)
(** ** Code shared by the three revisions *)
(* ===================================================================== *)

(** The constants [upper], [lower], [digits], [symbols] and [all] of
    [generateRandomPassword_]. *)
Definition upperChars : string := "ABCDEFGHIJKLMNOPQRSTUVWXYZ".
Definition lowerChars : string := "abcdefghijklmnopqrstuvwxyz".
Definition digitChars : string := "0123456789".
Definition symbolChars : string := "!@#$%^&*()".
Definition allChars : string :=
  upperChars +:+ lowerChars +:+ digitChars +:+ symbolChars.

Definition is_symbol (c : ascii) : bool :=
  existsb (Ascii.eqb c) (list_ascii_of_string symbolChars).

(** [requestingUserEmail.split('@')[0].toLowerCase().replace(/[^a-z0-9]/g, '')]
    (lines 61, 439, 948, 1423). *)
Definition requestingUserPrefix (requestingUserEmail : string) : result string :=
  match index0 (split "@" requestingUserEmail) with
  | VStr part => Ok (replace_non_az09 (toLowerCase part))
  | _ => Throw (Exn "Cannot read properties of undefined (reading 'toLowerCase')")
  end.

Definition nl : string := String "010"%char EmptyString.

(** A piece of prompt text between double quotes. *)
Definition q (s : string) : string := dq +:+ s +:+ dq.

Module Shared.
Section Program.
Variable E : env.

(** [getScriptProperty_] (lines 622-629). *)
Definition getScriptProperty_ (key : string) : M string :=
  match scriptProps E !! key with
  | Some v =>
      if String.eqb v ""
      then throw (Exn ("Script property " +:+ key +:+
             " is missing. Please set it in Project Settings > Script Properties."))
      else mret v
  | None =>
      throw (Exn ("Script property " +:+ key +:+
             " is missing. Please set it in Project Settings > Script Properties."))
  end.

(** *** [generateRandomPassword_] (lines 531-546, 1044-1059, 1519-1534) *)

(** [chars[Math.floor(Math.random() * chars.length)]], as appended by [+=]:
    an index out of range would append the text of [undefined]. *)
Definition pick (chars : string) : M string :=
  i ← randomBelow E (Z.of_nat (String.length chars));
  mret (toStr (strAt chars i)).

(** The loop [for (let i = 4; i < length; i++) password += all[...]], with
    [n] iterations left. *)
Fixpoint fill (n : nat) (password : string) : M string :=
  match n with
  | O => mret password
  | S n' => c ← pick allChars; fill n' (password +:+ c)
  end.

(** The comparator [() => 0.5 - Math.random()]. *)
Definition shuffleCompare : M Q :=
  r ← mathRandom E; mret ((1 # 2) - r)%Q.

(** [Array.prototype.sort(cmp)] as an insertion sort: [x] is placed before
    the first element [y] for which [cmp(y, x) > 0].  The comparator here
    answers at random, so the order of the result is whatever the draws make
    it. *)
Fixpoint insertBy (cmp : M Q) (x : ascii) (sorted : list ascii)
  : M (list ascii) :=
  match sorted with
  | [] => mret [x]
  | y :: r =>
      c ← cmp;
      if Qle_bool c 0
      then r' ← insertBy cmp x r; mret (y :: r')
      else mret (x :: y :: r)
  end.

Fixpoint sortBy (cmp : M Q) (l : list ascii) : M (list ascii) :=
  match l with
  | [] => mret []
  | x :: r => s ← sortBy cmp r; insertBy cmp x s
  end.

Definition generateRandomPassword_ (length : Z) : M string :=
  c1 ← pick upperChars;
  c2 ← pick lowerChars;
  c3 ← pick digitChars;
  c4 ← pick symbolChars;
  password ← fill (Z.to_nat (length - 4)) (c1 +:+ c2 +:+ c3 +:+ c4);
  shuffled ← sortBy shuffleCompare (list_ascii_of_string password);
  mret (string_of_list_ascii shuffled).

(** *** [logPromptAndOutput] (lines 380-392): best effort, never throws *)
Definition logPromptAndOutput (prompt output : string) : M unit :=
  try_catch
    (if sheetOpens E then appendRow prompt output
     else throw (Exn "Unexpected error while getting the method or property openById on object SpreadsheetApp."))
    (fun _ => mret tt).

(** *** Code that revisions 2 and 3 share *)

(** Lines 948-952 and 1423-1427: one requester gets a random suffix. *)
Definition derivePrimaryEmailSpecial (requestingUserEmail : string) : M string :=
  requestingUserPrefix ← lift (requestingUserPrefix requestingUserEmail);
  requestingUserPrefix' ←
    (if String.eqb requestingUserEmail "mawi@google.com"
     then n ← randomBelow E 1000; mret ("mawi" +:+ pretty n)
     else mret requestingUserPrefix);
  mret (requestingUserPrefix' +:+ "@" +:+ "cymbal.se").

(** Lines 1011-1012 and 1486-1487. *)
Definition getApiKeyDirect : M string :=
  match scriptProps E !! "GEMINI_API_KEY" with
  | Some v =>
      if String.eqb v ""
      then throw (Exn "GEMINI_API_KEY not found in Script Properties.")
      else mret v
  | None => throw (Exn "GEMINI_API_KEY not found in Script Properties.")
  end.

(** Lines 841-846 and 1317-1322. *)
Definition clearDemoStatePlain : M unit :=
  deleteProperty "savedProvisionResult";;
  deleteProperty "savedDemoScript".

(** *** Functions whose text is the same in every revision *)

Variable getAdminAccessToken : M jsval.
Variable derivePrimaryEmail : string -> M string.
Variable saveDemoState : jsval -> jsval -> M unit.
Variable loadDemoState : M jsval.
Variable clearDemoState : M unit.
Variable getApiKey : M string.

(** [createDemoUserInRoot] (lines 435-494, 944-1006, 1419-1481);
    [derivePrimaryEmail] stands for the two or five lines that compute
    [primaryEmail] (439-440, 948-952, 1423-1427). *)
Definition createDemoUserInRoot (requestingUserEmail : string)
    (firstName lastName : jsval) : M jsval :=
  token ← getAdminAccessToken;
  if negb (truthy token)
  then mret (failure "Could not get authentication token to manage users.")
  else
    primaryEmail ← derivePrimaryEmail requestingUserEmail;
    try_catch
      ('(checkCode, checkBody) ←
          fetch E (Request "GET" (usersUrl +:+ "/" +:+ primaryEmail)
                           (authHeader token) None);
       if checkCode =? 200 then
         existingUser ← lift (JSON_parse E checkBody);
         name ← lift (getProp existingUser "name");
         givenName ← lift (getProp name "givenName");
         familyName ← lift (getProp name "familyName");
         mret (VObj [("success", VBool true);
                     ("email", VStr primaryEmail);
                     ("password", VNull);
                     ("firstName", givenName);
                     ("lastName", familyName)])
       else if checkCode =? 404 then
         password ← generateRandomPassword_ 14;
         let userPayload :=
           VObj [("primaryEmail", VStr primaryEmail);
                 ("password", VStr password);
                 ("name", VObj [("givenName", firstName);
                                ("familyName", lastName)]);
                 ("orgUnitPath", VStr "/");
                 ("changePasswordAtNextLogin", VBool false)] in
         '(createCode, _) ←
            fetch E (Request "POST" usersUrl (authHeader token)
                             (Some (JSON_stringify E userPayload)));
         if ((createCode =? 200) || (createCode =? 201))%bool
         then mret (VObj [("success", VBool true);
                          ("email", VStr primaryEmail);
                          ("password", VStr password);
                          ("firstName", firstName);
                          ("lastName", lastName)])
         else mret (failure ("Failed to create user. Admin API responded with code "
                             +:+ pretty createCode +:+ "."))
       else mret (failure ("An unexpected error occurred. Code: "
                           +:+ pretty checkCode)))
      (fun e => mret (failure ("A network exception occurred: " +:+ message e))).

(** [createUser] (lines 119-142, 659-682, 1139-1162). *)
Definition createUser (nameInfo : jsval) : M jsval :=
  firstName ← lift (getProp nameInfo "firstName");
  lastName ← lift (getProp nameInfo "lastName");
  let requestingUserEmail := activeUserEmail E in
  if String.eqb requestingUserEmail ""
  then mret (failure "Could not identify the requesting user.")
  else
    provisionResult ← createDemoUserInRoot requestingUserEmail firstName lastName;
    success ← lift (getProp provisionResult "success");
    if truthy success
    then clearDemoState;; saveDemoState provisionResult VNull;;
         mret provisionResult
    else mret provisionResult.

(** [resetPasswordForDemoUser] (lines 148-200, 688-740, 1168-1220). *)
Definition resetPasswordForDemoUser : M jsval :=
  let noUser :=
    failure "No active demo user found in the session to reset the password for." in
  savedState ← loadDemoState;
  if negb (truthy savedState) then mret noUser else
  provisionResult ← lift (getProp savedState "provisionResult");
  if negb (truthy provisionResult) then mret noUser else
  primaryEmail ← lift (getProp provisionResult "email");
  if negb (truthy primaryEmail) then mret noUser else
  token ← getAdminAccessToken;
  if negb (truthy token)
  then mret (failure "Authentication failed. Could not get token to reset password.")
  else
    newPassword ← generateRandomPassword_ 14;
    let updateUserPayload :=
      VObj [("password", VStr newPassword);
            ("changePasswordAtNextLogin", VBool false)] in
    try_catch
      ('(updateResponseCode, _) ←
          fetch E (Request "PUT" (usersUrl +:+ "/" +:+ toStr primaryEmail)
                           (authHeader token)
                           (Some (JSON_stringify E updateUserPayload)));
       if updateResponseCode =? 200 then
         let provisionResult' :=
           setProp provisionResult "password" (VStr newPassword) in
         demoScript ← lift (getProp savedState "demoScript");
         saveDemoState provisionResult' demoScript;;
         mret (VObj [("success", VBool true); ("password", VStr newPassword)])
       else mret (failure ("Failed to reset password. Admin API responded with code "
                           +:+ pretty updateResponseCode +:+ ".")))
      (fun _ => mret (failure "A network exception occurred during password reset.")).

(** [deleteDemoAccount] (lines 267-301, 867-901, 1338-1374). *)
Definition deleteDemoAccount (userEmail : jsval) : M jsval :=
  if negb (truthy userEmail)
  then mret (failure "No user email provided for deletion.")
  else
    token ← getAdminAccessToken;
    if negb (truthy token)
    then mret (failure "Authentication failed. Could not get token to delete user.")
    else
      try_catch
        ('(responseCode, _) ←
            fetch E (Request "DELETE" (usersUrl +:+ "/" +:+ toStr userEmail)
                             (authHeader token) None);
         if ((responseCode =? 204) || (responseCode =? 404))%bool
         then clearDemoState;; mret (VObj [("success", VBool true)])
         else mret (failure ("Failed to delete user. Admin API responded with code "
                             +:+ pretty responseCode +:+ ".")))
        (fun _ => mret (failure "A network exception occurred during deletion.")).

(** [callGeminiAPI] (lines 496-529, 1008-1042, 1483-1517); [getApiKey] is the
    body of the first [try], which differs between revisions. *)
Definition callGeminiAPI (prompt modelName : string) : M jsval :=
  key ← try_catch (k ← getApiKey; mret (inl k))
                  (fun e => mret (inr (failure (message e))));
  match key with
  | inr failed => mret failed
  | inl apiKey =>
      let url :=
        "https://generativelanguage.googleapis.com/v1beta/" +:+ modelName
        +:+ ":generateContent?key=" +:+ apiKey in
      let payload :=
        VObj [("contents",
               VArr [VObj [("parts", VArr [VObj [("text", VStr prompt)]])]]);
              ("generationConfig",
               VObj [("responseMimeType", VStr "application/json")])] in
      try_catch
        ('(responseCode, responseBody) ←
            fetch E (Request "POST" url None (Some (JSON_stringify E payload)));
         if responseCode =? 200 then
           jsonResponse ← lift (JSON_parse E responseBody);
           candidates ← lift (getProp jsonResponse "candidates");
           let aiText :=
             optProp (optIndex0 (optProp (optProp (optIndex0 candidates)
                                                  "content") "parts")) "text" in
           if truthy aiText
           then mret (VObj [("success", VBool true); ("text", aiText)])
           else mret (failure "AI content generation failed: No valid content received.")
         else mret (failure ("AI API request failed with status "
                             +:+ pretty responseCode +:+ ". Response: "
                             +:+ substring0 500 responseBody)))
        (fun e => mret (failure ("Exception during AI API call: " +:+ message e)))
  end.

(** The test of lines 239, 777 and 1258:
    [!o.title || !o.steps || !Array.isArray(o.steps)] is false. *)
Definition scriptShapeOk (title steps : jsval) : bool :=
  (truthy title && truthy steps && isArray steps)%bool.

End Program.
End Shared.

(* ===================================================================== *)
(** ** Revision 1 (lines 1-629) *)
(* ===================================================================== *)

Module V1.
Section Rev.
Variable E : env.

Definition getPrimaryDomain : string :=
  scriptPropertyOr E "PRIMARY_DOMAIN" "cymbal.se".

Definition getGeminiModel : string :=
  scriptPropertyOr E "GEMINI_MODEL" "models/gemini-1.5-flash-latest".

Definition getLoggingSheetId : string :=
  scriptPropertyOr E "LOGGING_SHEET_ID" "154d_7tRcMxkDrfPtmVFApY6W42a-Vv6RrnuzMUMxIHI".

(** Lines 61-62 and 439-440. *)
Definition derivePrimaryEmail (requestingUserEmail : string) : M string :=
  requestingUserPrefix ← lift (requestingUserPrefix requestingUserEmail);
  mret (requestingUserPrefix +:+ "@" +:+ getPrimaryDomain).

Definition getNamespacedKey_ (key : string) : string :=
  let userEmail := activeUserEmail E in
  if String.eqb userEmail "" then key else key +:+ "_" +:+ userEmail.

Definition saveDemoState (provisionResult demoScript : jsval) : M unit :=
  try_catch
    ((if truthy provisionResult
      then setProperty (getNamespacedKey_ "savedProvisionResult")
                       (JSON_stringify E provisionResult)
      else mret tt);;
     (if truthy demoScript
      then setProperty (getNamespacedKey_ "savedDemoScript")
                       (JSON_stringify E demoScript)
      else mret tt))
    (fun _ => mret tt).

Definition clearDemoState : M unit :=
  deleteProperty (getNamespacedKey_ "savedProvisionResult");;
  deleteProperty (getNamespacedKey_ "savedDemoScript").

Definition clearDemoScriptOnly : M unit :=
  deleteProperty (getNamespacedKey_ "savedDemoScript").

(** Lines 336-355: the parsed record is returned as stored. *)
Definition loadDemoState : M jsval :=
  try_catch
    (savedProvisionResult ← getProperty (getNamespacedKey_ "savedProvisionResult");
     match savedProvisionResult with
     | Some text =>
         if String.eqb text "" then mret VNull
         else
           savedDemoScript ← getProperty (getNamespacedKey_ "savedDemoScript");
           provisionResult ← lift (JSON_parse E text);
           demoScript ←
             match savedDemoScript with
             | Some script =>
                 if String.eqb script "" then mret VNull
                 else lift (JSON_parse E script)
             | None => mret VNull
             end;
           mret (VObj [("provisionResult", provisionResult);
                       ("demoScript", demoScript)])
     | None => mret VNull
     end)
    (fun _ => clearDemoState;; mret VNull).

(** Lines 557-603: the three credentials come from the script properties;
    without access the token provider throws. *)
Definition getOAuthService_ : M unit :=
  Shared.getScriptProperty_ E "PRIVATE_KEY";;
  Shared.getScriptProperty_ E "CLIENT_EMAIL";;
  Shared.getScriptProperty_ E "IMPERSONATED_USER";;
  mret tt.

Definition getService_ : M (option string) :=
  getOAuthService_;; mret (oauthAccess E).

Definition getAdminAccessToken : M jsval :=
  service ← getService_;
  match service with
  | Some token => mret (VStr token)
  | None =>
      throw (Exn "Could not get a valid OAuth2 service object. Check server logs for details.")
  end.

Definition constructDemoScriptPrompt_
    (demoContext demoUserFirstName demoUserLastName demoUserEmail : jsval)
  : string :=
  join_with nl [
    "";
    "    You are an expert demo script writer for Google Workspace. Your task is to generate a step-by-step demo script based on user context.";
    "";
    "    Return ONLY a valid JSON object. Do not include any other text, Markdown formatting, or code fences like ```json.";
    "";
    "    The JSON Schema must be:";
    "    {";
    "      " +:+ q "summary" +:+ ": " +:+ q "A concise, one-paragraph summary of the demo flow, scenario, and goals based on the user context." +:+ ",";
    "      " +:+ q "title" +:+ ": " +:+ q "A creative and professional title for the demo." +:+ ",";
    "      " +:+ q "introduction" +:+ ": " +:+ q "A brief, welcoming presenter talking script to kick off the demo. Use placeholders like ${demoUserFirstName}." +:+ ",";
    "      " +:+ q "prerequisites" +:+ ": [" +:+ q "A clear, concise instruction for a prerequisite step. For example, 'Ensure an email with the subject 'Q3 Project Proposal' is in the user's inbox.'" +:+ "],";
    "      " +:+ q "steps" +:+ ": [";
    "        {";
    "          " +:+ q "step_title" +:+ ": " +:+ q "Concise title for this step (e.g., 'Step 1: Drafting a Response in Gmail')" +:+ ",";
    "          " +:+ q "action" +:+ ": " +:+ q "A direct, imperative instruction for the presenter to perform (e.g., 'Open a new Incognito browser window.')." +:+ ",";
    "          " +:+ q "ui_interaction" +:+ ": " +:+ q "Detailed, step-by-step instructions on how to perform the actions in the UI (e.g., 'Click the 'Compose' button. In the 'To' field, enter the recipient's email. Use Gemini to help you draft the email body.')." +:+ ",";
    "          " +:+ q "presenter_script" +:+ ": " +:+ q "The presenter's talking points for this step. This should explain the 'why' behind the actions.";
    "        }";
    "      ]";
    "    }";
    "";
    "    CRITICAL RULES:";
    "    - The entire output MUST be a single, valid JSON object.";
    "    - Do NOT use markdown like asterisks or backticks.";
    "    - If there are no specific prerequisites, provide one generic one like " +:+ q "Practice the script before the live demo.";
    "    - The " +:+ q "prerequisites" +:+ " field MUST be a top-level key and its value must be an array of strings.";
    "";
    "    Demo User & Context:";
    "    * First Name: " +:+ toStr demoUserFirstName;
    "    * Last Name: " +:+ toStr demoUserLastName;
    "    * Email: " +:+ toStr demoUserEmail;
    "    * Customer Needs: " +:+ q (toStr demoContext);
    "";
    "    Generate the JSON object now.";
    "  "
  ].

Definition createDemoUserInRoot :=
  Shared.createDemoUserInRoot E getAdminAccessToken derivePrimaryEmail.

Definition createUser :=
  Shared.createUser E getAdminAccessToken derivePrimaryEmail
                    saveDemoState clearDemoState.

Definition resetPasswordForDemoUser :=
  Shared.resetPasswordForDemoUser E getAdminAccessToken saveDemoState loadDemoState.

Definition deleteDemoAccount :=
  Shared.deleteDemoAccount E getAdminAccessToken clearDemoState.

Definition callGeminiAPI :=
  Shared.callGeminiAPI E (Shared.getScriptProperty_ E "GEMINI_API_KEY").

(** Lines 53-111. *)
Definition getInitialAppState : M jsval :=
  let requestingUserEmail := activeUserEmail E in
  if String.eqb requestingUserEmail ""
  then mret (failure "Could not identify the requesting user.")
  else
    primaryEmail ← derivePrimaryEmail requestingUserEmail;
    token ← getAdminAccessToken;
    if negb (truthy token)
    then mret (failure "Authentication failed. Could not get admin token.")
    else
      try_catch
        ('(checkCode, checkBody) ←
            fetch E (Request "GET" (usersUrl +:+ "/" +:+ primaryEmail)
                             (authHeader token) None);
         if checkCode =? 200 then
           existingUser ← lift (JSON_parse E checkBody);
           name ← lift (getProp existingUser "name");
           givenName ← lift (getProp name "givenName");
           familyName ← lift (getProp name "familyName");
           let provisionResult :=
             VObj [("email", VStr primaryEmail);
                   ("password", VNull);
                   ("firstName", givenName);
                   ("lastName", familyName)] in
           saveDemoState provisionResult VNull;;
           savedState ← loadDemoState;
           demoScript ←
             (if truthy savedState
              then lift (getProp savedState "demoScript")
              else mret VNull);
           mret (VObj [("success", VBool true);
                       ("provisionResult", provisionResult);
                       ("demoScript", demoScript)])
         else
           clearDemoState;; mret (VObj [("success", VBool false)]))
        (fun e => mret (failure
           ("A network exception occurred during the initial check: "
            +:+ message e))).

(** The [try] block of [generateDemoScript] (lines 235-259): parse the
    model's text, test its shape, store and log it; any exception is
    answered with the same failure. *)
Definition parseAndStoreScript (provisionResult : jsval)
    (demoScriptPrompt : string) (text : jsval) : M jsval :=
  try_catch
    (scriptObject ← lift (JSON_parse E (toStr text));
     title ← lift (getProp scriptObject "title");
     steps ← lift (getProp scriptObject "steps");
     if negb (Shared.scriptShapeOk title steps)
     then throw (Exn "AI response was missing required 'title' or 'steps' fields.")
     else
       saveDemoState provisionResult scriptObject;;
       Shared.logPromptAndOutput E demoScriptPrompt (JSON_stringify E scriptObject);;
       mret (VObj [("success", VBool true); ("demoScript", scriptObject)]))
    (fun _ =>
       Shared.logPromptAndOutput E demoScriptPrompt
         ("Malformed AI response: " +:+ toStr text);;
       mret (failure
         "The AI returned malformed data that could not be read. Please try again.")).

(** Lines 208-260. *)
Definition generateDemoScript (demoContext : jsval) : M jsval :=
  let noUser :=
    failure "No demo user found. Please create a demo account first." in
  savedState ← loadDemoState;
  if negb (truthy savedState) then mret noUser else
  provisionResult ← lift (getProp savedState "provisionResult");
  if negb (truthy provisionResult) then mret noUser else
  newUserEmail ← lift (getProp provisionResult "email");
  newUserFirstName ← lift (getProp provisionResult "firstName");
  newUserLastName ← lift (getProp provisionResult "lastName");
  let demoScriptPrompt :=
    constructDemoScriptPrompt_ demoContext newUserFirstName newUserLastName
                               newUserEmail in
  scriptGenerationResult ← callGeminiAPI demoScriptPrompt getGeminiModel;
  success ← lift (getProp scriptGenerationResult "success");
  text ← lift (getProp scriptGenerationResult "text");
  if (negb (truthy success) || negb (truthy text))%bool then
    error ← lift (getProp scriptGenerationResult "error");
    Shared.logPromptAndOutput E demoScriptPrompt
      ("Script generation failed: " +:+ toStr error);;
    mret (failure ("Demo script generation failed: " +:+ toStr error))
  else parseAndStoreScript provisionResult demoScriptPrompt text.

End Rev.
End V1.

(* ===================================================================== *)
(** ** Revision 2 (lines 630-1107) *)
(* ===================================================================== *)

Module V2.
Section Rev.
Variable E : env.

Definition PRIMARY_DOMAIN_CONFIG : string := "cymbal.se".
Definition DEMO_SCRIPT_GEMINI_MODEL_CONFIG : string :=
  "models/gemini-1.5-flash-latest".

Definition derivePrimaryEmail := Shared.derivePrimaryEmailSpecial E.

Definition saveDemoState (provisionResult demoScript : jsval) : M unit :=
  try_catch
    ((if truthy provisionResult
      then setProperty "savedProvisionResult" (JSON_stringify E provisionResult)
      else mret tt);;
     (if truthy demoScript
      then setProperty "savedDemoScript" (JSON_stringify E demoScript)
      else mret tt))
    (fun _ => mret tt).

Definition clearDemoState : M unit := Shared.clearDemoStatePlain.

(** Lines 852-855. *)
Definition clearDemoScriptOnly : M unit := deleteProperty "savedDemoScript".

(** Lines 813-836: a truthy password is deleted from the loaded record. *)
Definition loadDemoState : M jsval :=
  try_catch
    (savedProvisionResult ← getProperty "savedProvisionResult";
     match savedProvisionResult with
     | Some text =>
         if String.eqb text "" then mret VNull
         else
           savedDemoScript ← getProperty "savedDemoScript";
           provisionResult ← lift (JSON_parse E text);
           demoScript ←
             match savedDemoScript with
             | Some script =>
                 if String.eqb script "" then mret VNull
                 else lift (JSON_parse E script)
             | None => mret VNull
             end;
           password ← lift (getProp provisionResult "password");
           let provisionResult' :=
             if truthy password then deleteProp provisionResult "password"
             else provisionResult in
           mret (VObj [("provisionResult", provisionResult');
                       ("demoScript", demoScript)])
     | None => mret VNull
     end)
    (fun _ => clearDemoState;; mret VNull).

(** Lines 1076-1098: credentials are literals; without access the token
    provider throws. *)
Definition getService_ : M (option string) := mret (oauthAccess E).

Definition getAdminAccessToken : M jsval :=
  service ← getService_;
  match service with
  | Some token => mret (VStr token)
  | None =>
      throw (Exn "Could not get a valid OAuth2 service object. Check server logs for details.")
  end.

Definition constructDemoScriptPrompt_
    (demoContext demoUserFirstName demoUserLastName demoUserEmail : jsval)
  : string :=
  join_with nl [
    "";
    "    You are an expert demo script writer for Google Workspace. Your task is to generate a step-by-step demo script based on user context.";
    "    ";
    "    Return ONLY a valid JSON object. Do not include any other text, Markdown formatting, or code fences like ```json.";
    "    ";
    "    The JSON Schema must be:";
    "    {";
    "      " +:+ q "summary" +:+ ": " +:+ q "A concise, one-paragraph summary of the demo flow, scenario, and goals based on the user context." +:+ ",";
    "      " +:+ q "title" +:+ ": " +:+ q "A creative and professional title for the demo." +:+ ",";
    "      " +:+ q "introduction" +:+ ": " +:+ q "A brief, welcoming presenter talking script to kick off the demo. Use placeholders like ${demoUserFirstName}." +:+ ",";
    "      " +:+ q "prerequisites" +:+ ": [" +:+ q "A clear, concise instruction for a prerequisite step. For example, 'Ensure an email with the subject 'Q3 Project Proposal' is in the user's inbox.'" +:+ "],";
    "      " +:+ q "steps" +:+ ": [";
    "        {";
    "          " +:+ q "step_title" +:+ ": " +:+ q "Concise title for this step (e.g., 'Step 1: Drafting a Response in Gmail')" +:+ ",";
    "          " +:+ q "action" +:+ ": " +:+ q "A direct, imperative instruction for the presenter to perform (e.g., 'Open a new Incognito browser window.')." +:+ ",";
    "          " +:+ q "ui_interaction" +:+ ": " +:+ q "Detailed, step-by-step instructions on how to perform the actions in the UI (e.g., 'Click the 'Compose' button. In the 'To' field, enter the recipient's email. Use Gemini to help you draft the email body.')." +:+ ",";
    "          " +:+ q "presenter_script" +:+ ": " +:+ q "The presenter's talking points for this step. This should explain the 'why' behind the actions.";
    "        }";
    "      ]";
    "    }";
    "    ";
    "    CRITICAL RULES:";
    "    - The entire output MUST be a single, valid JSON object.";
    "    - Do NOT use markdown like asterisks or backticks.";
    "    - If there are no specific prerequisites, provide one generic one like " +:+ q "Practice the script before the live demo.";
    "    - The " +:+ q "prerequisites" +:+ " field MUST be a top-level key and its value must be an array of strings.";
    "";
    "    Demo User & Context:";
    "    * First Name: " +:+ toStr demoUserFirstName;
    "    * Last Name: " +:+ toStr demoUserLastName;
    "    * Email: " +:+ toStr demoUserEmail;
    "    * Customer Needs: " +:+ q (toStr demoContext);
    "";
    "    Generate the JSON object now.";
    "  "
  ].

Definition createDemoUserInRoot :=
  Shared.createDemoUserInRoot E getAdminAccessToken derivePrimaryEmail.

Definition createUser :=
  Shared.createUser E getAdminAccessToken derivePrimaryEmail
                    saveDemoState clearDemoState.

Definition resetPasswordForDemoUser :=
  Shared.resetPasswordForDemoUser E getAdminAccessToken saveDemoState loadDemoState.

Definition deleteDemoAccount :=
  Shared.deleteDemoAccount E getAdminAccessToken clearDemoState.

Definition callGeminiAPI := Shared.callGeminiAPI E (Shared.getApiKeyDirect E).

(** The [try] block of [generateDemoScript] (lines 773-793). *)
Definition parseAndStoreScript (provisionResult : jsval) (text : jsval)
  : M jsval :=
  try_catch
    (scriptObject ← lift (JSON_parse E (toStr text));
     title ← lift (getProp scriptObject "title");
     steps ← lift (getProp scriptObject "steps");
     if negb (Shared.scriptShapeOk title steps)
     then throw (Exn "AI response was missing required 'title' or 'steps' fields.")
     else
       saveDemoState provisionResult scriptObject;;
       mret (VObj [("success", VBool true); ("demoScript", scriptObject)]))
    (fun _ =>
       mret (failure
         "The AI returned malformed data that could not be read. Please try again.")).

(** Lines 748-794. *)
Definition generateDemoScript (demoContext : jsval) : M jsval :=
  let noUser :=
    failure "No demo user found. Please create a demo account first." in
  savedState ← loadDemoState;
  if negb (truthy savedState) then mret noUser else
  provisionResult ← lift (getProp savedState "provisionResult");
  if negb (truthy provisionResult) then mret noUser else
  newUserEmail ← lift (getProp provisionResult "email");
  newUserFirstName ← lift (getProp provisionResult "firstName");
  newUserLastName ← lift (getProp provisionResult "lastName");
  let demoScriptPrompt :=
    constructDemoScriptPrompt_ demoContext newUserFirstName newUserLastName
                               newUserEmail in
  scriptGenerationResult ←
    callGeminiAPI demoScriptPrompt DEMO_SCRIPT_GEMINI_MODEL_CONFIG;
  success ← lift (getProp scriptGenerationResult "success");
  text ← lift (getProp scriptGenerationResult "text");
  if (negb (truthy success) || negb (truthy text))%bool then
    error ← lift (getProp scriptGenerationResult "error");
    mret (failure ("Demo script generation failed: " +:+ toStr error))
  else parseAndStoreScript provisionResult text.

End Rev.
End V2.

(* ===================================================================== *)
(** ** Revision 3 (lines 1107-1539) *)
(* ===================================================================== *)

Module V3.
Section Rev.
Variable E : env.

Definition PRIMARY_DOMAIN_CONFIG : string := "cymbal.se".
Definition DEMO_SCRIPT_GEMINI_MODEL_CONFIG : string :=
  "models/gemini-1.5-flash-latest".

Definition derivePrimaryEmail := Shared.derivePrimaryEmailSpecial E.

(** Lines 1285-1293: no handler. *)
Definition saveDemoState (provisionResult demoScript : jsval) : M unit :=
  (if truthy provisionResult
   then setProperty "savedProvisionResult" (JSON_stringify E provisionResult)
   else mret tt);;
  (if truthy demoScript
   then setProperty "savedDemoScript" (JSON_stringify E demoScript)
   else mret tt).

Definition clearDemoState : M unit := Shared.clearDemoStatePlain.


(** Lines 1295-1312: no handler; a truthy password is deleted from the
    loaded record. *)
Definition loadDemoState : M jsval :=
  savedProvisionResult ← getProperty "savedProvisionResult";
  savedDemoScript ← getProperty "savedDemoScript";
  match savedProvisionResult with
  | Some text =>
      if String.eqb text "" then mret VNull
      else
        provisionResult ← lift (JSON_parse E text);
        demoScript ←
          match savedDemoScript with
          | Some script =>
              if String.eqb script "" then mret VNull
              else lift (JSON_parse E script)
          | None => mret VNull
          end;
        password ← lift (getProp provisionResult "password");
        let provisionResult' :=
          if truthy password then deleteProp provisionResult "password"
          else provisionResult in
        mret (VObj [("provisionResult", provisionResult');
                    ("demoScript", demoScript)])
  | None => mret VNull
  end.

(** Lines 1537-1539: credentials are literals; every failure of the token
    provider is caught and answered with [null]. *)
Definition getService_ : M (option string) := mret (oauthAccess E).

Definition getAdminAccessToken : M jsval :=
  try_catch
    (service ← getService_;
     match service with
     | Some token => mret (VStr token)
     | None => throw (Exn "Could not get a valid OAuth2 service object.")
     end)
    (fun _ => mret VNull).

Definition constructDemoScriptPrompt_
    (demoContext demoUserFirstName demoUserLastName demoUserEmail : jsval)
  : string :=
  join_with nl [
    "";
    "    You are an expert demo script writer for Google Workspace. Your task is to generate a step-by-step demo script based on user context.";
    "    ";
    "    **Output Format:**";
    "    Return ONLY a valid JSON object. Do not include any other text, Markdown formatting, or code fences like ```json.";
    "    ";
    "    **JSON Schema:**";
    "    {";
    "      " +:+ q "summary" +:+ ": " +:+ q "A concise, one-paragraph summary of the demo flow, scenario, and goals based on the user context." +:+ ",";
    "      " +:+ q "title" +:+ ": " +:+ q "A creative and professional title for the demo." +:+ ",";
    "      " +:+ q "introduction" +:+ ": " +:+ q "A brief, welcoming presenter talking script to kick off the demo. Use placeholders like ${demoUserFirstName}." +:+ ",";
    "      " +:+ q "prerequisites" +:+ ": [" +:+ q "A clear, concise instruction for a prerequisite step. For example, 'Ensure an email with the subject 'Q3 Project Proposal' is in the user's inbox.'" +:+ "],";
    "      " +:+ q "steps" +:+ ": [";
    "        {";
    "          " +:+ q "step_title" +:+ ": " +:+ q "Concise title for this step (e.g., 'Step 1: Drafting a Response in Gmail')" +:+ ",";
    "          " +:+ q "action" +:+ ": " +:+ q "A direct, imperative instruction for the presenter to perform (e.g., 'Open a new Incognito browser window.')." +:+ ",";
    "          " +:+ q "ui_interaction" +:+ ": " +:+ q "Detailed, step-by-step instructions on how to perform the actions in the UI (e.g., 'Click the 'Compose' button. In the 'To' field, enter the recipient's email. Use Gemini to help you draft the email body.')." +:+ ",";
    "          " +:+ q "presenter_script" +:+ ": " +:+ q "The presenter's talking points for this step. This should explain the 'why' behind the actions.";
    "        }";
    "      ]";
    "    }";
    "    ";
    "    **CRITICAL RULES:**";
    "    - The entire output MUST be a single, valid JSON object.";
    "    - Do NOT include any unescaped quotation marks (single or double) within string values.";
    "    - Do NOT use markdown like asterisks or backticks. Provide only raw text.";
    "    - If there are no specific prerequisites for the demo, provide one generic one like " +:+ q "Practice the script before the live demo.";
    "    - The " +:+ q "prerequisites" +:+ " field must be a top-level key and its value must be an array of strings.";
    "";
    "    **Demo User & Context:**";
    "    * First Name: " +:+ toStr demoUserFirstName;
    "    * Last Name: " +:+ toStr demoUserLastName;
    "    * Email: " +:+ toStr demoUserEmail;
    "    * Customer Needs: " +:+ q (toStr demoContext);
    "";
    "    Generate the JSON object now.";
    "  "
  ].

Definition createDemoUserInRoot :=
  Shared.createDemoUserInRoot E getAdminAccessToken derivePrimaryEmail.

Definition createUser :=
  Shared.createUser E getAdminAccessToken derivePrimaryEmail
                    saveDemoState clearDemoState.

Definition resetPasswordForDemoUser :=
  Shared.resetPasswordForDemoUser E getAdminAccessToken saveDemoState loadDemoState.

Definition deleteDemoAccount :=
  Shared.deleteDemoAccount E getAdminAccessToken clearDemoState.

Definition callGeminiAPI := Shared.callGeminiAPI E (Shared.getApiKeyDirect E).

(** The [try] block of [generateDemoScript] (lines 1253-1279): a parsed
    payload of the wrong shape is answered with its own message. *)
Definition parseAndStoreScript (provisionResult : jsval) (text : jsval)
  : M jsval :=
  try_catch
    (scriptObject ← lift (JSON_parse E (toStr text));
     title ← lift (getProp scriptObject "title");
     steps ← lift (getProp scriptObject "steps");
     if negb (Shared.scriptShapeOk title steps)
     then mret (failure
       "The AI's response was missing the required 'title' or 'steps' fields. Please try generating the script again.")
     else
       saveDemoState provisionResult scriptObject;;
       mret (VObj [("success", VBool true); ("demoScript", scriptObject)]))
    (fun _ =>
       mret (failure
         "The AI returned malformed data that could not be read. Please try again.")).

(** Lines 1228-1280. *)
Definition generateDemoScript (demoContext : jsval) : M jsval :=
  let noUser :=
    failure "No demo user found. Please create a demo account first." in
  savedState ← loadDemoState;
  if negb (truthy savedState) then mret noUser else
  provisionResult ← lift (getProp savedState "provisionResult");
  if negb (truthy provisionResult) then mret noUser else
  newUserEmail ← lift (getProp provisionResult "email");
  newUserFirstName ← lift (getProp provisionResult "firstName");
  newUserLastName ← lift (getProp provisionResult "lastName");
  let demoScriptPrompt :=
    constructDemoScriptPrompt_ demoContext newUserFirstName newUserLastName
                               newUserEmail in
  scriptGenerationResult ←
    callGeminiAPI demoScriptPrompt DEMO_SCRIPT_GEMINI_MODEL_CONFIG;
  success ← lift (getProp scriptGenerationResult "success");
  text ← lift (getProp scriptGenerationResult "text");
  if (negb (truthy success) || negb (truthy text))%bool then
    error ← lift (getProp scriptGenerationResult "error");
    mret (failure ("Demo script generation failed: " +:+ toStr error))
  else parseAndStoreScript provisionResult text.

End Rev.
End V3.

(* ===================================================================== *)
(** ** A concrete [JSON.parse] / [JSON.stringify] *)
(* ===================================================================== *)

(** The theorems below hold for whatever [JSON_parse] and [JSON_stringify]
    the environment provides.  This module is one such pair, used to run the
    program on concrete texts.  It covers the value model: strings of code
    units below 256 and integer numbers (a fraction or an exponent is
    rejected). *)
Module Json.

Definition hex_digit (n : nat) : ascii :=
  if Nat.ltb n 10 then ascii_of_nat (48 + n) else ascii_of_nat (87 + n).

Definition escape_char (c : ascii) : string :=
  let n := char_code c in
  if Nat.eqb n 34 then "\" +:+ dq
  else if Nat.eqb n 92 then "\\"
  else if Nat.eqb n 10 then "\n"
  else if Nat.eqb n 13 then "\r"
  else if Nat.eqb n 9 then "\t"
  else if Nat.eqb n 8 then "\b"
  else if Nat.eqb n 12 then "\f"
  else if Nat.ltb n 32
       then "\u00" +:+ String (hex_digit (n / 16)) (String (hex_digit (n mod 16)) "")
  else String c "".

Fixpoint escape (s : string) : string :=
  match s with
  | EmptyString => ""
  | String c r => escape_char c +:+ escape r
  end.

Definition quote (s : string) : string := dq +:+ escape s +:+ dq.

(** Fields whose value is [undefined] are left out of an object; in an
    array [undefined] is written [null]. *)
Fixpoint stringify (v : jsval) : string :=
  match v with
  | VUndefined => "undefined"
  | VNull => "null"
  | VBool true => "true"
  | VBool false => "false"
  | VNum n => pretty n
  | VStr s => quote s
  | VArr l =>
      "[" +:+ join_with ","
                (map (fun x => match x with
                               | VUndefined => "null"
                               | _ => stringify x
                               end) l) +:+ "]"
  | VObj fs =>
      "{" +:+ join_with ","
                ((fix members (fs : list (string * jsval)) : list string :=
                    match fs with
                    | [] => []
                    | (_, VUndefined) :: r => members r
                    | (k, x) :: r => (quote k +:+ ":" +:+ stringify x) :: members r
                    end) fs) +:+ "}"
  end.

Definition is_ws (c : ascii) : bool :=
  let n := char_code c in
  (Nat.eqb n 32 || Nat.eqb n 9 || Nat.eqb n 10 || Nat.eqb n 13)%bool.

Fixpoint skip_ws (s : string) : string :=
  match s with
  | String c r => if is_ws c then skip_ws r else s
  | EmptyString => s
  end.

Definition hex_value (c : ascii) : option nat :=
  let n := char_code c in
  if is_digit c then Some (n - 48)%nat
  else if in_range 97 102 c then Some (n - 87)%nat
  else if in_range 65 70 c then Some (n - 55)%nat
  else None.

(** The characters of a string literal after its opening quote, up to and
    including the closing one; [acc] is the text read so far, reversed. *)
Fixpoint parse_chars (s : string) (acc : string) : option (string * string) :=
  match s with
  | EmptyString => None
  | String c r =>
      if Nat.eqb (char_code c) 34 then Some (String.rev acc, r)
      else if Nat.ltb (char_code c) 32 then None
      else if Nat.eqb (char_code c) 92 then
        match r with
        | String e r' =>
            let unescaped (x : ascii) := parse_chars r' (String x acc) in
            match char_code e with
            | 34%nat => unescaped "034"%char
            | 92%nat => unescaped "092"%char
            | 47%nat => unescaped "/"%char
            | 98%nat => unescaped "008"%char
            | 102%nat => unescaped "012"%char
            | 110%nat => unescaped "010"%char
            | 114%nat => unescaped "013"%char
            | 116%nat => unescaped "009"%char
            | 117%nat =>
                match r' with
                | String "0" (String "0" (String h (String l r''))) =>
                    match hex_value h, hex_value l with
                    | Some a, Some b =>
                        parse_chars r'' (String (ascii_of_nat (16 * a + b)) acc)
                    | _, _ => None
                    end
                | _ => None
                end
            | _ => None
            end
        | EmptyString => None
        end
      else parse_chars r (String c acc)
  end.

Fixpoint parse_digits (s : string) (acc : Z) : Z * string :=
  match s with
  | String c r =>
      if is_digit c
      then parse_digits r (10 * acc + Z.of_nat (char_code c - 48))
      else (acc, s)
  | EmptyString => (acc, s)
  end.

(** An integer literal without its sign: no leading zero, and nothing that
    would continue it as a fraction or an exponent. *)
Definition parse_int (s : string) : option (Z * string) :=
  match s with
  | String c r =>
      if is_digit c then
        let '(n, rest) := parse_digits s 0 in
        let leading_zero :=
          match s with
          | String "0" (String d _) => is_digit d
          | _ => false
          end in
        let continued :=
          match rest with
          | String x _ =>
              existsb (Ascii.eqb x) (list_ascii_of_string ".eE")
          | EmptyString => false
          end in
        if (leading_zero || continued)%bool then None else Some (n, rest)
      else None
  | EmptyString => None
  end.

Definition build_object (members : list (string * jsval)) : jsval :=
  VObj (fold_left (fun acc kv => assoc_set (fst kv) (snd kv) acc) members []).

(** Recursive descent; every call consumes a character, so the length of
    the text is enough fuel. *)
Fixpoint parse_value (fuel : nat) (s : string) : option (jsval * string) :=
  match fuel with
  | O => None
  | S fuel' =>
      match skip_ws s with
      | String "n" (String "u" (String "l" (String "l" r))) => Some (VNull, r)
      | String "t" (String "r" (String "u" (String "e" r))) => Some (VBool true, r)
      | String "f" (String "a" (String "l" (String "s" (String "e" r)))) =>
          Some (VBool false, r)
      | String "[" r =>
          match skip_ws r with
          | String "]" r' => Some (VArr [], r')
          | _ =>
              match parse_elements fuel' r with
              | Some (vs, r') => Some (VArr vs, r')
              | None => None
              end
          end
      | String "{" r =>
          match skip_ws r with
          | String "}" r' => Some (VObj [], r')
          | _ =>
              match parse_members fuel' r with
              | Some (ms, r') => Some (build_object ms, r')
              | None => None
              end
          end
      | String "-" r =>
          match parse_int r with
          | Some (n, r') => Some (VNum (- n), r')
          | None => None
          end
      | String c r =>
          if Nat.eqb (char_code c) 34 then
            match parse_chars r "" with
            | Some (str, r') => Some (VStr str, r')
            | None => None
            end
          else
            match parse_int (String c r) with
            | Some (n, r') => Some (VNum n, r')
            | None => None
            end
      | EmptyString => None
      end
  end
with parse_elements (fuel : nat) (s : string) : option (list jsval * string) :=
  match fuel with
  | O => None
  | S fuel' =>
      match parse_value fuel' s with
      | Some (v, r) =>
          match skip_ws r with
          | String "," r' =>
              match parse_elements fuel' r' with
              | Some (vs, r'') => Some (v :: vs, r'')
              | None => None
              end
          | String "]" r' => Some ([v], r')
          | _ => None
          end
      | None => None
      end
  end
with parse_members (fuel : nat) (s : string)
  : option (list (string * jsval) * string) :=
  match fuel with
  | O => None
  | S fuel' =>
      match skip_ws s with
      | String c r =>
          if Nat.eqb (char_code c) 34 then
            match parse_chars r "" with
            | Some (k, r1) =>
                match skip_ws r1 with
                | String ":" r2 =>
                    match parse_value fuel' r2 with
                    | Some (v, r3) =>
                        match skip_ws r3 with
                        | String "," r4 =>
                            match parse_members fuel' r4 with
                            | Some (ms, r5) => Some ((k, v) :: ms, r5)
                            | None => None
                            end
                        | String "}" r4 => Some ([(k, v)], r4)
                        | _ => None
                        end
                    | None => None
                    end
                | _ => None
                end
            | None => None
            end
          else None
      | EmptyString => None
      end
  end.

Definition parse (text : string) : result jsval :=
  match parse_value (S (String.length text)) text with
  | Some (v, rest) =>
      match skip_ws rest with
      | EmptyString => Ok v
      | _ => Throw (Exn "Unexpected non-whitespace character after JSON")
      end
  | None => Throw (Exn "Unexpected token in JSON")
  end.

End Json.
(* ===================================================================== *)
(** ** The derived address in the words of the specification *)
(* ===================================================================== *)

(** The local part of an address: the text before its first [@]. *)
Fixpoint spec_localpart (s : string) : string :=
  match s with
  | EmptyString => EmptyString
  | String c r => if Ascii.eqb c "@" then EmptyString else String c (spec_localpart r)
  end.

(** "localpart(requester) lower-cased, stripped of every character outside
    [a-z0-9], concatenated with a fixed domain suffix". *)
Definition spec_demo_address (domain requester : string) : string :=
  string_of_list_ascii
    (List.filter is_az09
       (map lower_char (list_ascii_of_string (spec_localpart requester))))
  +:+ "@" +:+ domain.


(* ===================================================================== *)
(** ** Concrete environments *)
(* ===================================================================== *)

Definition demoScriptProps : gmap string string :=
  list_to_map [("PRIVATE_KEY", "private-key");
               ("CLIENT_EMAIL", "service@project.iam.gserviceaccount.com");
               ("IMPERSONATED_USER", "admin@cymbal.se");
               ("GEMINI_API_KEY", "api-key")].

(** An environment with the concrete JSON functions, the requester
    [jane.doe@example.com] and all script properties set. *)
Definition demoEnv (access : option string)
    (net : list request -> request -> fetch_outcome) (rnd : nat -> Q) : env :=
  Env demoScriptProps "jane.doe@example.com" access net rnd true
      Json.parse Json.stringify.

(** A remote end that answers every request with the same outcome. *)
Definition always (o : fetch_outcome) : list request -> request -> fetch_outcome :=
  fun _ _ => o.

(** Draws 0, 1/5, 2/5, 3/5, 4/5, 0, ... *)
Definition fifths (n : nat) : Q := Z.of_nat (n mod 5) # 5.

Definition emptyWorld : world := World ∅ [] [] 0.

Definition worldWith (props : list (string * string)) : world :=
  World (list_to_map props) [] [] 0.

(** No token, no network, draws in fifths. *)
Definition offlineEnv : env := demoEnv None (always (FetchFails "down")) fifths.

(** A token and a directory that answers every request with [status]. *)
Definition directoryEnv (status : Z) (body : string) : env :=
  demoEnv (Some "token-1") (always (Response status body)) fifths.

(** A directory that deletes on the first request and has nothing left to
    delete afterwards. *)
Definition deleteOnce : list request -> request -> fetch_outcome :=
  fun history _ =>
    match history with
    | [] => Response 204 ""
    | _ => Response 404 "{}"
    end.

Definition deleteOnceEnv : env := demoEnv (Some "token-1") deleteOnce fifths.

(** A directory that does not know the account at the lookup and creates it
    at the next request. *)
Definition createOnMiss : list request -> request -> fetch_outcome :=
  fun history _ =>
    match history with
    | [] => Response 404 "{}"
    | _ => Response 201 "{}"
    end.

Definition createEnv : env := demoEnv (Some "token-1") createOnMiss fifths.

(** A token, and a directory that cannot be reached. *)
Definition timeoutEnv : env :=
  demoEnv (Some "token-1") (always (FetchFails "timeout")) fifths.

(** The script properties without the client email. *)
Definition noClientEmailEnv : env :=
  Env (delete "CLIENT_EMAIL" demoScriptProps) "jane.doe@example.com"
      (Some "token-1") (always (Response 200 "{}")) fifths true
      Json.parse Json.stringify.

(** Jane's persisted records (revision 1 keys). *)
Definition janeState (provisionResult demoScript : string) : world :=
  worldWith [("savedProvisionResult_jane.doe@example.com", provisionResult);
             ("savedDemoScript_jane.doe@example.com", demoScript)].

Definition janeRecord (password : jsval) : jsval :=
  VObj [("email", VStr "janedoe@cymbal.se"); ("password", password);
        ("firstName", VStr "Jane"); ("lastName", VStr "Doe")].

Definition minimalScript : jsval := VObj [("title", VStr "T"); ("steps", VArr [])].

(** The directory's answer for Jane's existing demo account. *)
Definition janeDirectoryRecord : string :=
  Json.stringify
    (VObj [("primaryEmail", VStr "janedoe@cymbal.se");
           ("name", VObj [("givenName", VStr "Jane");
                          ("familyName", VStr "Doe");
                          ("fullName", VStr "Jane Doe")]);
           ("isAdmin", VBool false)]).

Definition foundEnv : env := directoryEnv 200 janeDirectoryRecord.

(* ===================================================================== *)
(** ** Vocabulary of the statements *)
(* ===================================================================== *)

(** The draws of [Math.random()] lie in the unit interval [0, 1). *)
Definition unit_draws (E : env) : Prop :=
  forall n : nat, (0 <= random E n)%Q /\ (random E n < 1)%Q.

(** The world after [k] more draws. *)
Definition advance (k : nat) (w : world) : world :=
  World (userProps w) (sheetRows w) (requests w) (k + draws w).

Definition has_class (p : ascii -> bool) (s : string) : bool :=
  existsb p (list_ascii_of_string s).

(** The world once [req] has been sent. *)
Definition sent (req : request) (w : world) : world :=
  World (userProps w) (sheetRows w) (requests w ++ [req]) (draws w).

(** The request of [deleteDemoAccount] (lines 277-285). *)
Definition deleteRequest (userEmail : jsval) (token : string) : request :=
  Request "DELETE" (usersUrl +:+ "/" +:+ toStr userEmail)
          (authHeader (VStr token)) None.

(** The request of a directory lookup (lines 70-76, 443-449). *)
Definition lookupRequest (primaryEmail : string) (token : string) : request :=
  Request "GET" (usersUrl +:+ "/" +:+ primaryEmail) (authHeader (VStr token)) None.

(** Revision 1 after [clearDemoState]: both records of the requester gone. *)
Definition cleared (E : env) (w : world) : world :=
  with_userProps
    (fun m => delete (V1.getNamespacedKey_ E "savedDemoScript")
                (delete (V1.getNamespacedKey_ E "savedProvisionResult") m)) w.

(** Revisions 2 and 3 after [clearDemoState]. *)
Definition clearedPlain (w : world) : world :=
  with_userProps
    (fun m => delete "savedDemoScript" (delete "savedProvisionResult" m)) w.

(** What [loadDemoState] makes of the stored script: [null] when there is
    none, its parse otherwise. *)
Definition storedScript (E : env) (o : option string) : result jsval :=
  match o with
  | Some script => if String.eqb script "" then Ok VNull else JSON_parse E script
  | None => Ok VNull
  end.

(** The object [loadDemoState] returns. *)
Definition loaded (provisionResult demoScript : jsval) : jsval :=
  VObj [("provisionResult", provisionResult); ("demoScript", demoScript)].

(** [existingUser.name.givenName] and [existingUser.name.familyName] of a
    directory answer (lines 81-87, 453-459). *)
Definition foundNames (E : env) (body : string) : result (jsval * jsval) :=
  match JSON_parse E body with
  | Ok existingUser =>
      match getProp existingUser "name" with
      | Ok name =>
          match getProp name "givenName", getProp name "familyName" with
          | Ok givenName, Ok familyName => Ok (givenName, familyName)
          | Throw e, _ | _, Throw e => Throw e
          end
      | Throw e => Throw e
      end
  | Throw e => Throw e
  end.

(** The password test of lines 825-827 and 1306-1308. *)
Definition stripPassword (provisionResult password : jsval) : jsval :=
  if truthy password then deleteProp provisionResult "password"
  else provisionResult.

(** A persisted record that is corrupted, next to a valid script. *)
Definition corruptedV1 : world :=
  janeState "{bad" (Json.stringify minimalScript).

Definition corruptedPlain : world :=
  worldWith [("savedProvisionResult", "{bad");
             ("savedDemoScript", Json.stringify minimalScript)].

Definition storedPlain (provisionResult : jsval) : world :=
  worldWith [("savedProvisionResult", Json.stringify provisionResult)].

(** The answers of the [try] block of [generateDemoScript]. *)
Definition malformed : jsval :=
  failure "The AI returned malformed data that could not be read. Please try again.".


Definition accepted (scriptObject : jsval) : jsval :=
  VObj [("success", VBool true); ("demoScript", scriptObject)].


(** What the [try] block of [generateDemoScript] lets through: the parsed
    payload when it passes the test of lines 239, 777 and 1258. *)
Definition shapeChecked (E : env) (text : jsval) : option jsval :=
  match JSON_parse E (toStr text) with
  | Ok o =>
      match getProp o "title", getProp o "steps" with
      | Ok title, Ok steps =>
          if Shared.scriptShapeOk title steps then Some o else None
      | _, _ => None
      end
  | Throw _ => None
  end.


(** The persisted records of revision 1 can be read: a stored provision
    result parses, and so does the script stored next to it. *)
Definition recordReadable (E : env) (w : world) : Prop :=
  forall text,
    userProps w !! V1.getNamespacedKey_ E "savedProvisionResult" = Some text ->
    text <> "" ->
    (exists pr, JSON_parse E text = Ok pr)
    /\ (exists ds,
          storedScript E (userProps w !! V1.getNamespacedKey_ E "savedDemoScript")
          = Ok ds).

(** The two keys under which revision 1 keeps a requester's records. *)
Abbreviation provisionKey E := (V1.getNamespacedKey_ E "savedProvisionResult").
Abbreviation scriptKey E := (V1.getNamespacedKey_ E "savedDemoScript").

(** The environment as another requester sees it. *)
Definition asUser (user : string) (E : env) : env :=
  Env (scriptProps E) user (oauthAccess E) (remote E) (random E)
      (sheetOpens E) (JSON_parse E) (JSON_stringify E).

(** [JSON.parse] gives back what [JSON.stringify] was given, and the text is
    not empty. *)
Definition roundTrips (E : env) (v : jsval) : Prop :=
  JSON_parse E (JSON_stringify E v) = Ok v /\ JSON_stringify E v <> "".

(** What [saveDemoState] of revision 1 leaves in the user properties. *)
Definition savedProps (E : env) (provisionResult demoScript : jsval)
    (m : gmap string string) : gmap string string :=
  let m1 :=
    if truthy provisionResult
    then <[provisionKey E := JSON_stringify E provisionResult]> m else m in
  if truthy demoScript
  then <[scriptKey E := JSON_stringify E demoScript]> m1 else m1.

(** The body of the account creation request (lines 466-480). *)
Definition createPayload (E : env) (primaryEmail password : string)
    (firstName lastName : jsval) : string :=
  JSON_stringify E
    (VObj [("primaryEmail", VStr primaryEmail);
           ("password", VStr password);
           ("name", VObj [("givenName", firstName); ("familyName", lastName)]);
           ("orgUnitPath", VStr "/");
           ("changePasswordAtNextLogin", VBool false)]).

Definition createRequest (E : env) (primaryEmail password : string)
    (firstName lastName : jsval) (token : string) : request :=
  Request "POST" usersUrl (authHeader (VStr token))
          (Some (createPayload E primaryEmail password firstName lastName)).

(** The request of [resetPasswordForDemoUser] (lines 167-179). *)
Definition resetRequest (E : env) (primaryEmail : jsval) (newPassword token : string)
  : request :=
  Request "PUT" (usersUrl +:+ "/" +:+ toStr primaryEmail) (authHeader (VStr token))
          (Some (JSON_stringify E
                   (VObj [("password", VStr newPassword);
                          ("changePasswordAtNextLogin", VBool false)]))).

(** The provision result with or without the wrapper of a result object. *)
Definition provisioned (primaryEmail : string) (password firstName lastName : jsval)
  : jsval :=
  VObj [("success", VBool true); ("email", VStr primaryEmail);
        ("password", password); ("firstName", firstName); ("lastName", lastName)].

(** The token provider of revision 1 hands out [token]. *)
Definition token_acquired (E : env) (token : string) : Prop :=
  forall w, V1.getAdminAccessToken E w = (Ok (VStr token), w).

Definition succeeded : jsval := VObj [("success", VBool true)].

(** A script property that [getScriptProperty_] takes as missing: not set,
    or set to the empty string (line 625). *)
Definition unset (E : env) (key : string) : Prop :=
  scriptProps E !! key = None \/ scriptProps E !! key = Some "".

(** The exception of [getScriptProperty_] (line 626). *)
Definition missingProperty (key : string) : exn :=
  Exn ("Script property " +:+ key +:+
       " is missing. Please set it in Project Settings > Script Properties.").

(** The request of [callGeminiAPI] (lines 500-509). *)
Definition geminiRequest (E : env) (modelName apiKey prompt : string) : request :=
  Request "POST"
    ("https://generativelanguage.googleapis.com/v1beta/" +:+ modelName
     +:+ ":generateContent?key=" +:+ apiKey)
    None
    (Some (JSON_stringify E
       (VObj [("contents",
               VArr [VObj [("parts", VArr [VObj [("text", VStr prompt)]])]]);
              ("generationConfig",
               VObj [("responseMimeType", VStr "application/json")])]))).

(** [candidates?.[0]?.content?.parts?.[0]?.text] (line 517). *)
Definition answerText (candidates : jsval) : jsval :=
  optProp (optIndex0 (optProp (optProp (optIndex0 candidates) "content") "parts"))
          "text".

(** The world once [logPromptAndOutput] has run: a row more when the sheet
    opens, nothing otherwise. *)
Definition logged (E : env) (prompt output : string) (w : world) : world :=
  if sheetOpens E
  then World (userProps w) (sheetRows w ++ [(prompt, output)]) (requests w) (draws w)
  else w.

(** A model answer that carries [text]. *)
Definition geminiAnswer (text : string) : string :=
  Json.stringify
    (VObj [("candidates",
            VArr [VObj [("content",
                         VObj [("parts", VArr [VObj [("text", VStr text)]])])]])]).

(* ===================================================================== *)
(** ** Reasoning about computations *)
(* ===================================================================== *)

Ltac unfold_monad :=
  unfold mbind, M_bind, mret, M_ret, try_catch, lift, throw in *.

(** Reduce the matches on results that are now decided. *)
Ltac mstep := cbv beta iota.

Lemma getProp_obj (fs : list (string * jsval)) (k : string) :
  getProp (VObj fs) k
  = Ok (match assoc_get k fs with Some x => x | None => VUndefined end).
Proof. reflexivity. Qed.

Lemma truthy_str (s : string) : truthy (VStr s) = negb (String.eqb s "").
Proof. reflexivity. Qed.

Lemma truthy_obj (fs : list (string * jsval)) : truthy (VObj fs) = true.
Proof. reflexivity. Qed.

Lemma truthy_null : truthy VNull = false.
Proof. reflexivity. Qed.

Lemma truthy_bool (b : bool) : truthy (VBool b) = b.
Proof. reflexivity. Qed.

Lemma assoc_get_here (k : string) (v : jsval) (r : list (string * jsval)) :
  assoc_get k ((k, v) :: r) = Some v.
Proof. simpl. rewrite String.eqb_refl. reflexivity. Qed.

(** Decide the tests on values whose head is known. *)
Ltac js_step :=
  rewrite ?getProp_obj, ?assoc_get_here,
    ?truthy_str, ?truthy_obj, ?truthy_null, ?truthy_bool;
  cbn [negb andb orb]; cbv beta iota.

Lemma advance_advance j k w : advance j (advance k w) = advance (j + k) w.
Proof. unfold advance. simpl. f_equal. lia. Qed.

Lemma floor_scaled_range (r : Q) (n : Z) :
  (0 <= r)%Q -> (r < 1)%Q -> 0 < n -> 0 <= Qfloor (r * inject_Z n) < n.
Proof.
  intros H0 H1 Hn.
  assert (Hpos : (0 < inject_Z n)%Q) by (change (inject_Z 0 < inject_Z n)%Q; rewrite <- Zlt_Qlt; exact Hn).
  split.
  - change 0 with (Qfloor (inject_Z 0)). apply Qfloor_resp_le.
    apply Qmult_le_0_compat; [exact H0 | apply Qlt_le_weak; exact Hpos].
  - rewrite Zlt_Qlt. eapply Qle_lt_trans; [apply Qfloor_le |].
    eapply Qlt_le_trans; [apply Qmult_lt_compat_r; eassumption |].
    rewrite Qmult_1_l. apply Qle_refl.
Qed.

Lemma string_app_cons (c : ascii) (a b : string) :
  String c a +:+ b = String c (a +:+ b).
Proof. reflexivity. Qed.

Lemma string_app_nil_r (s : string) : s +:+ "" = s.
Proof.
  induction s as [| c s IH]; [reflexivity |].
  rewrite string_app_cons, IH. reflexivity.
Qed.

Lemma string_app_assoc (a b c : string) : (a +:+ b) +:+ c = a +:+ (b +:+ c).
Proof.
  induction a as [| x a IH]; [reflexivity |].
  rewrite !string_app_cons, IH. reflexivity.
Qed.

Lemma string_length_app (a b : string) :
  String.length (a +:+ b) = (String.length a + String.length b)%nat.
Proof.
  induction a as [| x a IH]; [reflexivity |].
  rewrite string_app_cons. simpl. rewrite IH. reflexivity.
Qed.

Lemma list_ascii_app (a b : string) :
  list_ascii_of_string (a +:+ b)
  = (list_ascii_of_string a ++ list_ascii_of_string b)%list.
Proof.
  induction a as [| x a IH]; [reflexivity |].
  rewrite string_app_cons. simpl. rewrite IH. reflexivity.
Qed.

Lemma length_list_ascii (s : string) :
  length (list_ascii_of_string s) = String.length s.
Proof. induction s; simpl; congruence. Qed.

Lemma get_some_of_lt (s : string) (n : nat) :
  (n < String.length s)%nat -> exists c, String.get n s = Some c.
Proof.
  revert n. induction s as [| a s IH]; intros n Hn; simpl in *; [lia |].
  destruct n as [| n]; [eauto | apply IH; lia].
Qed.

Lemma get_in (s : string) (n : nat) (c : ascii) :
  String.get n s = Some c -> In c (list_ascii_of_string s).
Proof.
  revert n. induction s as [| a s IH]; intros n H; simpl in *; [discriminate |].
  destruct n as [| n]; [left; congruence | right; eauto].
Qed.

Section PasswordFacts.
Variable E : env.
Hypothesis draws_ok : unit_draws E.

Lemma randomBelow_range (n : Z) (w : world) :
  0 < n ->
  exists i, randomBelow E n w = (Ok i, advance 1 w) /\ 0 <= i < n.
Proof.
  intros Hn. destruct (draws_ok (draws w)) as [H0 H1].
  exists (Qfloor (random E (draws w) * inject_Z n)). split.
  - reflexivity.
  - apply floor_scaled_range; assumption.
Qed.

Lemma pick_in (chars : string) (w : world) :
  chars <> "" ->
  exists c, Shared.pick E chars w = (Ok (String c ""), advance 1 w)
            /\ In c (list_ascii_of_string chars).
Proof.
  intros Hne.
  assert (Hlen : 0 < Z.of_nat (String.length chars)).
  { destruct chars; [congruence | simpl; lia]. }
  destruct (randomBelow_range _ w Hlen) as (i & Hi & Hrange).
  destruct (get_some_of_lt chars (Z.to_nat i)) as [c Hc]; [lia |].
  exists c. split; [| eapply get_in; eassumption].
  unfold Shared.pick. unfold_monad. rewrite Hi. unfold strAt.
  destruct (i <? 0) eqn:Hneg; [lia |]. rewrite Hc. reflexivity.
Qed.

Lemma fill_spec (n : nat) (password : string) (w : world) :
  exists extra,
    Shared.fill E n password w = (Ok (password +:+ extra), advance n w)
    /\ String.length extra = n.
Proof.
  revert password w. induction n as [| n IH]; intros password w.
  - exists "". split; [| reflexivity]. simpl. unfold_monad.
    rewrite string_app_nil_r. destruct w; reflexivity.
  - destruct (pick_in allChars w) as (c & Hc & _); [discriminate |].
    destruct (IH (password +:+ String c "") (advance 1 w)) as (extra & He & Hl).
    exists (String c extra). split.
    + simpl. unfold_monad. rewrite Hc. rewrite He.
      rewrite advance_advance. rewrite string_app_assoc. simpl.
      do 2 f_equal. unfold advance; f_equal; lia.
    + simpl. congruence.
Qed.

Lemma shuffleCompare_total (w : world) :
  exists c, Shared.shuffleCompare E w = (Ok c, advance 1 w).
Proof. eexists. reflexivity. Qed.

End PasswordFacts.

(** Whatever the comparator answers, as long as it answers, the sort returns
    a rearrangement of its input. *)
Lemma insertBy_perm (cmp : M Q) (x : ascii) (l : list ascii) (w : world) :
  (forall w0, exists c w1, cmp w0 = (Ok c, w1)) ->
  exists l' w', Shared.insertBy cmp x l w = (Ok l', w') /\ Permutation (x :: l) l'.
Proof.
  intros Hcmp. revert w. induction l as [| y r IH]; intros w.
  - exists [x], w. split; [reflexivity | apply Permutation_refl].
  - destruct (Hcmp w) as (c & w1 & Hc). simpl. unfold_monad. rewrite Hc.
    destruct (Qle_bool c 0).
    + destruct (IH w1) as (r' & w2 & Hr & Hp). rewrite Hr.
      exists (y :: r'), w2. split; [reflexivity |].
      eapply Permutation_trans; [apply perm_swap | apply perm_skip; exact Hp].
    + exists (x :: y :: r), w1. split; [reflexivity | apply Permutation_refl].
Qed.

Lemma sortBy_perm (cmp : M Q) (l : list ascii) (w : world) :
  (forall w0, exists c w1, cmp w0 = (Ok c, w1)) ->
  exists l' w', Shared.sortBy cmp l w = (Ok l', w') /\ Permutation l l'.
Proof.
  intros Hcmp. revert w. induction l as [| x r IH]; intros w.
  - exists [], w. split; [reflexivity | apply Permutation_refl].
  - destruct (IH w) as (s & w1 & Hs & Hp).
    destruct (insertBy_perm cmp x s w1 Hcmp) as (l' & w2 & Hi & Hp').
    exists l', w2. split.
    + simpl. unfold_monad. rewrite Hs. exact Hi.
    + eapply Permutation_trans; [apply perm_skip; exact Hp | exact Hp'].
Qed.

(* ===================================================================== *)
(** ** C9: the generated password *)
(* ===================================================================== *)

Lemma class_of_member (p : ascii -> bool) (chars : string) (c : ascii) :
  forallb p (list_ascii_of_string chars) = true ->
  In c (list_ascii_of_string chars) -> p c = true.
Proof. intros Hall Hin. rewrite forallb_forall in Hall. auto. Qed.

Lemma has_class_perm (p : ascii -> bool) (l l' : list ascii) :
  Permutation l l' -> existsb p l = true -> existsb p l' = true.
Proof.
  intros Hp H. apply existsb_exists in H as (c & Hin & Hc).
  apply existsb_exists. exists c. split; [| exact Hc].
  eapply Permutation_in; eassumption.
Qed.

(** C9. With draws in the unit interval, [generateRandomPassword_(14)]
    returns a password of exactly 14 characters that holds at least one
    uppercase letter, one lowercase letter, one digit and one of the symbols
    [!@#$%^&*()]: it is a rearrangement of one character drawn from each of
    the four classes followed by ten characters drawn from all of them. *)
Theorem password_length_and_classes (E : env) (w : world) :
  unit_draws E ->
  exists (password : string) (w' : world),
    Shared.generateRandomPassword_ E 14 w = (Ok password, w')
    /\ String.length password = 14%nat
    /\ has_class is_upper password = true
    /\ has_class is_lower password = true
    /\ has_class is_digit password = true
    /\ has_class is_symbol password = true
    /\ exists c1 c2 c3 c4 extra,
         is_upper c1 = true /\ is_lower c2 = true
         /\ is_digit c3 = true /\ is_symbol c4 = true
         /\ String.length extra = 10%nat
         /\ Permutation (c1 :: c2 :: c3 :: c4 :: list_ascii_of_string extra)
                        (list_ascii_of_string password).
Proof.
  intros Hd.
  destruct (pick_in E Hd upperChars w) as (c1 & H1 & I1); [discriminate |].
  destruct (pick_in E Hd lowerChars (advance 1 w)) as (c2 & H2 & I2); [discriminate |].
  destruct (pick_in E Hd digitChars (advance 1 (advance 1 w)))
    as (c3 & H3 & I3); [discriminate |].
  destruct (pick_in E Hd symbolChars (advance 1 (advance 1 (advance 1 w))))
    as (c4 & H4 & I4); [discriminate |].
  apply (class_of_member is_upper upperChars c1 eq_refl) in I1.
  apply (class_of_member is_lower lowerChars c2 eq_refl) in I2.
  apply (class_of_member is_digit digitChars c3 eq_refl) in I3.
  apply (class_of_member is_symbol symbolChars c4 eq_refl) in I4.
  set (w4 := advance 1 (advance 1 (advance 1 (advance 1 w)))) in *.
  set (first4 := String c1 "" +:+ String c2 "" +:+ String c3 "" +:+ String c4 "").
  destruct (fill_spec E Hd (Z.to_nat (14 - 4)) first4 w4) as (extra & Hf & Hlen).
  destruct (sortBy_perm (Shared.shuffleCompare E)
              (list_ascii_of_string (first4 +:+ extra)) (advance (Z.to_nat (14 - 4)) w4))
    as (shuffled & w' & Hs & Hperm).
  { intros w0. eexists _, _. reflexivity. }
  change (list_ascii_of_string (first4 +:+ extra))
    with (c1 :: c2 :: c3 :: c4 :: list_ascii_of_string extra) in Hperm.
  exists (string_of_list_ascii shuffled), w'.
  split.
  { unfold Shared.generateRandomPassword_. unfold_monad.
    rewrite H1, H2, H3, H4. fold first4. fold w4. rewrite Hf, Hs. reflexivity. }
  assert (Hmem : forall p c, In c [c1; c2; c3; c4] -> p c = true ->
                 has_class p (string_of_list_ascii shuffled) = true).
  { intros p c Hin Hp. unfold has_class.
    rewrite list_ascii_of_string_of_list_ascii.
    eapply has_class_perm; [exact Hperm |].
    apply existsb_exists. exists c. split; [| exact Hp].
    simpl in Hin. simpl. tauto. }
  split.
  { rewrite <- length_list_ascii, list_ascii_of_string_of_list_ascii.
    rewrite <- (Permutation_length Hperm). simpl.
    rewrite length_list_ascii, Hlen. reflexivity. }
  split; [apply (Hmem _ c1); [simpl; auto | exact I1] |].
  split; [apply (Hmem _ c2); [simpl; auto | exact I2] |].
  split; [apply (Hmem _ c3); [simpl; auto | exact I3] |].
  split; [apply (Hmem _ c4); [simpl; auto | exact I4] |].
  exists c1, c2, c3, c4, extra.
  rewrite list_ascii_of_string_of_list_ascii.
  repeat split; assumption.
Qed.

Example password_of_fifths :
  fst (Shared.generateRandomPassword_ offlineEnv 14 emptyWorld)
  = Ok "Af&54OcA5ArOrc".
Proof. vm_compute. reflexivity. Qed.

Lemma fifths_in_unit_interval (n : nat) : (0 <= fifths n)%Q /\ (fifths n < 1)%Q.
Proof.
  unfold fifths, Qle, Qlt. simpl.
  pose proof (Nat.mod_upper_bound n 5 ltac:(discriminate)). lia.
Qed.

Lemma password_length_and_classes_witness :
  unit_draws offlineEnv
  /\ exists (password : string) (w' : world),
       Shared.generateRandomPassword_ offlineEnv 14 emptyWorld = (Ok password, w')
       /\ String.length password = 14%nat
       /\ has_class is_upper password = true
       /\ has_class is_lower password = true
       /\ has_class is_digit password = true
       /\ has_class is_symbol password = true.
Proof.
  assert (Hd : unit_draws offlineEnv) by (intros n; apply fifths_in_unit_interval).
  split; [exact Hd |].
  destruct (password_length_and_classes offlineEnv emptyWorld Hd)
    as (password & w' & Hrun & Hlen & Hu & Hl & Hdg & Hsy & _).
  exists password, w'. repeat split; assumption.
Defined.

(* ===================================================================== *)
(** ** C3: the derived demo address *)
(* ===================================================================== *)

Lemma index0_split (s : string) : index0 (split "@" s) = VStr (spec_localpart s).
Proof.
  induction s as [| c r IH]; [reflexivity |].
  simpl. destruct (Ascii.eqb c "@"); [reflexivity |].
  destruct (split "@" r) as [| piece rest]; simpl in IH; [discriminate |].
  simpl. congruence.
Qed.

Lemma strip_lower_as_filter (s : string) :
  replace_non_az09 (toLowerCase s)
  = string_of_list_ascii
      (List.filter is_az09 (map lower_char (list_ascii_of_string s))).
Proof.
  induction s as [| c r IH]; [reflexivity |].
  simpl. rewrite IH. destruct (is_az09 (lower_char c)); reflexivity.
Qed.

Lemma requestingUserPrefix_spec (email : string) :
  requestingUserPrefix email
  = Ok (string_of_list_ascii
          (List.filter is_az09
             (map lower_char (list_ascii_of_string (spec_localpart email))))).
Proof.
  unfold requestingUserPrefix. rewrite index0_split, strip_lower_as_filter.
  reflexivity.
Qed.

Lemma V1_derivePrimaryEmail_eq (E : env) (requester : string) (w : world) :
  V1.derivePrimaryEmail E requester w
  = (Ok (spec_demo_address (V1.getPrimaryDomain E) requester), w).
Proof.
  unfold V1.derivePrimaryEmail. unfold_monad.
  rewrite requestingUserPrefix_spec. reflexivity.
Qed.




(* ===================================================================== *)
(** ** C6 and C10: deleting the demo account *)
(* ===================================================================== *)

Lemma V1_clearDemoState (E : env) (w : world) :
  V1.clearDemoState E w = (Ok tt, cleared E w).
Proof. reflexivity. Qed.

(** What the common text of [deleteDemoAccount] does once the directory has
    answered. *)
Lemma delete_after_response (E : env) (getToken : M jsval) (clear : M unit)
    (userEmail : jsval) (token : string) (w : world) (status : Z) (body : string) :
  truthy userEmail = true ->
  getToken w = (Ok (VStr token), w) ->
  token <> "" ->
  remote E (requests w) (deleteRequest userEmail token) = Response status body ->
  Shared.deleteDemoAccount E getToken clear userEmail w
  = if ((status =? 204) || (status =? 404))%bool
    then match clear (sent (deleteRequest userEmail token) w) with
         | (Ok _, w') => (Ok succeeded, w')
         | (Throw _, w') =>
             (Ok (failure "A network exception occurred during deletion."), w')
         end
    else (Ok (failure ("Failed to delete user. Admin API responded with code "
                       +:+ pretty status +:+ ".")),
          sent (deleteRequest userEmail token) w).
Proof.
  intros Hemail Htok Hne Hresp.
  unfold Shared.deleteDemoAccount. rewrite Hemail. simpl. unfold_monad.
  rewrite Htok. simpl.
  assert (Ht : String.eqb token "" = false) by (apply String.eqb_neq; exact Hne).
  rewrite Ht. simpl. unfold fetch.
  change (Request "DELETE" (usersUrl +:+ "/" +:+ toStr userEmail)
            (authHeader (VStr token)) None) with (deleteRequest userEmail token).
  rewrite Hresp.
  destruct ((status =? 204) || (status =? 404))%bool; [| reflexivity].
  destruct (clear _) as [[[] | e] w']; reflexivity.
Qed.

(** C6. Once the token is acquired and a non-empty email is given,
    [deleteDemoAccount] reports success when the directory answers 204 and
    when it answers 404, and in both cases removes both persisted records of
    the requester; every other status gives a failure result that names the
    status and leaves the persisted state as it was.  So a deletion answered
    204 followed by a deletion of the same email answered 404 both report
    success. *)
Theorem deletion_is_idempotent (E : env) (userEmail : jsval) (token : string) :
  truthy userEmail = true ->
  token <> "" ->
  token_acquired E token ->
  let req := deleteRequest userEmail token in
  (forall w status body,
      remote E (requests w) req = Response status body ->
      (status = 204 \/ status = 404 ->
       V1.deleteDemoAccount E userEmail w = (Ok succeeded, cleared E (sent req w)))
      /\ (status <> 204 -> status <> 404 ->
          V1.deleteDemoAccount E userEmail w
          = (Ok (failure ("Failed to delete user. Admin API responded with code "
                          +:+ pretty status +:+ ".")), sent req w)))
  /\ (forall w body1 body2,
        remote E (requests w) req = Response 204 body1 ->
        remote E (requests w ++ [req]) req = Response 404 body2 ->
        exists w1 w2,
          V1.deleteDemoAccount E userEmail w = (Ok succeeded, w1)
          /\ V1.deleteDemoAccount E userEmail w1 = (Ok succeeded, w2)
          /\ userProps w1 = userProps (cleared E w)
          /\ userProps w2 = userProps (cleared E w)).
Proof.
  intros Hemail Hne Htok req.
  assert (Hrun : forall w status body,
             remote E (requests w) req = Response status body ->
             V1.deleteDemoAccount E userEmail w
             = if ((status =? 204) || (status =? 404))%bool
               then (Ok succeeded, cleared E (sent req w))
               else (Ok (failure ("Failed to delete user. Admin API responded with code "
                                  +:+ pretty status +:+ ".")), sent req w)).
  { intros w status body Hresp. unfold V1.deleteDemoAccount.
    rewrite (delete_after_response E _ _ userEmail token w status body
               Hemail (Htok w) Hne Hresp).
    rewrite V1_clearDemoState. reflexivity. }
  split.
  - intros w status body Hresp. rewrite (Hrun w status body Hresp). split.
    + intros [-> | ->]; reflexivity.
    + intros H204 H404.
      apply Z.eqb_neq in H204. apply Z.eqb_neq in H404.
      rewrite H204, H404. reflexivity.
  - intros w body1 body2 H1 H2.
    exists (cleared E (sent req w)), (cleared E (sent req (cleared E (sent req w)))).
    split; [rewrite (Hrun w 204 body1 H1); reflexivity |].
    split; [rewrite (Hrun (cleared E (sent req w)) 404 body2 H2); reflexivity |].
    split; [reflexivity |]. simpl.
    rewrite (delete_id (delete _ (delete _ (userProps w)))
               (V1.getNamespacedKey_ E "savedProvisionResult")).
    + rewrite (delete_id _ (V1.getNamespacedKey_ E "savedDemoScript")); [reflexivity |].
      apply lookup_delete_eq.
    + destruct (decide (V1.getNamespacedKey_ E "savedDemoScript"
                        = V1.getNamespacedKey_ E "savedProvisionResult")) as [Heq | Hneq].
      * rewrite Heq. apply lookup_delete_eq.
      * rewrite lookup_delete_ne by exact Hneq. apply lookup_delete_eq.
Qed.

Lemma deletion_is_idempotent_witness :
  truthy (VStr "janedoe@cymbal.se") = true
  /\ "token-1" <> ""
  /\ token_acquired deleteOnceEnv "token-1"
  /\ exists w1 w2,
       V1.deleteDemoAccount deleteOnceEnv (VStr "janedoe@cymbal.se")
         (janeState (Json.stringify (janeRecord VNull)) (Json.stringify minimalScript))
       = (Ok succeeded, w1)
       /\ V1.deleteDemoAccount deleteOnceEnv (VStr "janedoe@cymbal.se") w1
          = (Ok succeeded, w2)
       /\ userProps w1 = ∅
       /\ userProps w2 = ∅.
Proof.
  assert (Hacq : token_acquired deleteOnceEnv "token-1")
    by (intros w; reflexivity).
  split; [reflexivity |]. split; [discriminate |]. split; [exact Hacq |].
  destruct (deletion_is_idempotent deleteOnceEnv (VStr "janedoe@cymbal.se")
              "token-1" eq_refl ltac:(discriminate) Hacq) as [_ Htwice].
  destruct (Htwice (janeState (Json.stringify (janeRecord VNull))
                              (Json.stringify minimalScript)) "" "{}"
              eq_refl eq_refl) as (w1 & w2 & H1 & H2 & Hp1 & Hp2).
  exists w1, w2. repeat split; assumption.
Defined.

(** C10. For every falsy [userEmail] (the empty string, [null],
    [undefined]) [deleteDemoAccount] returns the failure
    "No user email provided for deletion." and leaves the world as it was: no
    token is asked for, no request is sent, no property is written.  The
    text is the same in the three revisions. *)
Theorem delete_without_email (E : env) (userEmail : jsval) (w : world) :
  truthy userEmail = false ->
  V1.deleteDemoAccount E userEmail w
    = (Ok (failure "No user email provided for deletion."), w)
  /\ V2.deleteDemoAccount E userEmail w
    = (Ok (failure "No user email provided for deletion."), w)
  /\ V3.deleteDemoAccount E userEmail w
    = (Ok (failure "No user email provided for deletion."), w).
Proof.
  intros Hfalsy.
  unfold V1.deleteDemoAccount, V2.deleteDemoAccount, V3.deleteDemoAccount,
    Shared.deleteDemoAccount.
  rewrite Hfalsy. repeat split; reflexivity.
Qed.

Lemma delete_without_email_witness :
  (truthy (VStr "") = false /\ truthy VNull = false /\ truthy VUndefined = false)
  /\ V1.deleteDemoAccount deleteOnceEnv (VStr "") emptyWorld
     = (Ok (failure "No user email provided for deletion."), emptyWorld)
  /\ V1.deleteDemoAccount deleteOnceEnv VNull emptyWorld
     = (Ok (failure "No user email provided for deletion."), emptyWorld)
  /\ V3.deleteDemoAccount deleteOnceEnv VUndefined emptyWorld
     = (Ok (failure "No user email provided for deletion."), emptyWorld).
Proof.
  split; [repeat split |].
  split; [apply (delete_without_email deleteOnceEnv (VStr "") emptyWorld eq_refl) |].
  split; [apply (delete_without_email deleteOnceEnv VNull emptyWorld eq_refl) |].
  apply (delete_without_email deleteOnceEnv VUndefined emptyWorld eq_refl).
Defined.

(* ===================================================================== *)
(** ** C1 and C8: loading the persisted state *)
(* ===================================================================== *)

Lemma V1_load_cases (E : env) (w : world) :
  V1.loadDemoState E w
  = match userProps w !! V1.getNamespacedKey_ E "savedProvisionResult" with
    | Some text =>
        if String.eqb text "" then (Ok VNull, w)
        else match JSON_parse E text,
                   storedScript E (userProps w !! V1.getNamespacedKey_ E "savedDemoScript")
             with
             | Ok pr, Ok ds => (Ok (loaded pr ds), w)
             | _, _ => (Ok VNull, cleared E w)
             end
    | None => (Ok VNull, w)
    end.
Proof.
  unfold V1.loadDemoState, getProperty, storedScript. unfold_monad.
  destruct (userProps w !! _) as [text |]; [| reflexivity].
  destruct (String.eqb text ""); [reflexivity |].
  destruct (JSON_parse E text) as [pr | e]; [| reflexivity].
  destruct (userProps w !! _) as [script |]; [| reflexivity].
  destruct (String.eqb script ""); [reflexivity |].
  destruct (JSON_parse E script); reflexivity.
Qed.

Lemma V2_load_cases (E : env) (w : world) :
  V2.loadDemoState E w
  = match userProps w !! "savedProvisionResult" with
    | Some text =>
        if String.eqb text "" then (Ok VNull, w)
        else match JSON_parse E text,
                   storedScript E (userProps w !! "savedDemoScript")
             with
             | Ok pr, Ok ds =>
                 match getProp pr "password" with
                 | Ok password => (Ok (loaded (stripPassword pr password) ds), w)
                 | Throw _ => (Ok VNull, clearedPlain w)
                 end
             | _, _ => (Ok VNull, clearedPlain w)
             end
    | None => (Ok VNull, w)
    end.
Proof.
  unfold V2.loadDemoState, getProperty, storedScript. unfold_monad.
  destruct (userProps w !! "savedProvisionResult") as [text |]; [| reflexivity].
  destruct (String.eqb text ""); [reflexivity |].
  destruct (JSON_parse E text) as [pr | e]; [| reflexivity].
  destruct (userProps w !! "savedDemoScript") as [script |].
  - destruct (String.eqb script "").
    + destruct (getProp pr "password"); reflexivity.
    + destruct (JSON_parse E script); [| reflexivity].
      destruct (getProp pr "password"); reflexivity.
  - destruct (getProp pr "password"); reflexivity.
Qed.

Lemma V3_load_cases (E : env) (w : world) :
  V3.loadDemoState E w
  = match userProps w !! "savedProvisionResult" with
    | Some text =>
        if String.eqb text "" then (Ok VNull, w)
        else match JSON_parse E text with
             | Ok pr =>
                 match storedScript E (userProps w !! "savedDemoScript") with
                 | Ok ds =>
                     match getProp pr "password" with
                     | Ok password => (Ok (loaded (stripPassword pr password) ds), w)
                     | Throw e => (Throw e, w)
                     end
                 | Throw e => (Throw e, w)
                 end
             | Throw e => (Throw e, w)
             end
    | None => (Ok VNull, w)
    end.
Proof.
  unfold V3.loadDemoState, getProperty, storedScript. unfold_monad.
  destruct (userProps w !! "savedProvisionResult") as [text |]; [| reflexivity].
  destruct (String.eqb text ""); [reflexivity |].
  destruct (JSON_parse E text) as [pr | e]; [| reflexivity].
  destruct (userProps w !! "savedDemoScript") as [script |].
  - destruct (String.eqb script "").
    + destruct (getProp pr "password"); reflexivity.
    + destruct (JSON_parse E script); [| reflexivity].
      destruct (getProp pr "password"); reflexivity.
  - destruct (getProp pr "password"); reflexivity.
Qed.

Lemma assoc_get_del (k : string) (fs : list (string * jsval)) :
  assoc_get k (assoc_del k fs) = None.
Proof.
  induction fs as [| [k' v] r IH]; [reflexivity |].
  simpl. destruct (String.eqb k k') eqn:Hk; [exact IH |].
  simpl. rewrite Hk. exact IH.
Qed.

Lemma deleted_field_is_absent (v : jsval) (k : string) :
  hasField (deleteProp v k) k = false.
Proof.
  destruct v; try reflexivity. simpl. rewrite assoc_get_del. reflexivity.
Qed.

(** C8, for the revisions whose [loadDemoState] has a handler (lines
    336-355 and 813-836): a stored provision result that does not parse makes
    [loadDemoState] return [null], as it does when nothing is stored, remove
    both persisted records and raise nothing. *)
Theorem corrupted_record_loads_as_no_state
    (E : env) (w : world) (text : string) (e : exn) :
  text <> "" ->
  JSON_parse E text = Throw e ->
  (userProps w !! V1.getNamespacedKey_ E "savedProvisionResult" = Some text ->
   V1.loadDemoState E w = (Ok VNull, cleared E w))
  /\ (userProps w !! V1.getNamespacedKey_ E "savedProvisionResult" = None ->
      V1.loadDemoState E w = (Ok VNull, w))
  /\ (userProps w !! "savedProvisionResult" = Some text ->
      V2.loadDemoState E w = (Ok VNull, clearedPlain w))
  /\ (userProps w !! "savedProvisionResult" = None ->
      V2.loadDemoState E w = (Ok VNull, w)).
Proof.
  intros Hne Hparse.
  assert (Hneq : String.eqb text "" = false) by (apply String.eqb_neq; exact Hne).
  split; [| split; [| split]].
  - intros Hs. rewrite V1_load_cases, Hs, Hneq, Hparse. reflexivity.
  - intros Hs. rewrite V1_load_cases, Hs. reflexivity.
  - intros Hs. rewrite V2_load_cases, Hs, Hneq, Hparse. reflexivity.
  - intros Hs. rewrite V2_load_cases, Hs. reflexivity.
Qed.

Lemma corrupted_record_witness :
  "{bad" <> ""
  /\ Json.parse "{bad" = Throw (Exn "Unexpected token in JSON")
  /\ V1.loadDemoState offlineEnv corruptedV1 = (Ok VNull, emptyWorld)
  /\ V2.loadDemoState offlineEnv corruptedPlain = (Ok VNull, emptyWorld).
Proof.
  destruct (corrupted_record_loads_as_no_state offlineEnv corruptedV1 "{bad"
              (Exn "Unexpected token in JSON") ltac:(discriminate) eq_refl)
    as (H1 & _ & _).
  destruct (corrupted_record_loads_as_no_state offlineEnv corruptedPlain "{bad"
              (Exn "Unexpected token in JSON") ltac:(discriminate) eq_refl)
    as (_ & _ & H2 & _).
  split; [discriminate |]. split; [reflexivity |].
  split.
  - rewrite (H1 eq_refl). vm_compute. reflexivity.
  - rewrite (H2 eq_refl). vm_compute. reflexivity.
Defined.

(** C8 does not hold for the [loadDemoState] of lines 1295-1312, which has
    no handler: loading a corrupted record raises the parse error and clears
    nothing. *)
Lemma V3_corrupted_record_raises :
  V3.loadDemoState offlineEnv corruptedPlain
  = (Throw (Exn "Unexpected token in JSON"), corruptedPlain)
  /\ userProps corruptedPlain !! "savedProvisionResult" = Some "{bad".
Proof. split; vm_compute; reflexivity. Qed.

(** C1, for the revisions whose [loadDemoState] tests the password (lines
    813-836 and 1295-1312): a stored provision result whose password is
    truthy is returned without its password field; one whose password is
    [null] or empty is returned as stored. *)
Theorem loaded_password_is_stripped_when_truthy
    (E : env) (w : world) (text : string) (pr password ds : jsval) :
  text <> "" ->
  JSON_parse E text = Ok pr ->
  getProp pr "password" = Ok password ->
  userProps w !! "savedProvisionResult" = Some text ->
  storedScript E (userProps w !! "savedDemoScript") = Ok ds ->
  (truthy password = true ->
   V2.loadDemoState E w = (Ok (loaded (deleteProp pr "password") ds), w)
   /\ V3.loadDemoState E w = (Ok (loaded (deleteProp pr "password") ds), w)
   /\ hasField (deleteProp pr "password") "password" = false)
  /\ (truthy password = false ->
      V2.loadDemoState E w = (Ok (loaded pr ds), w)
      /\ V3.loadDemoState E w = (Ok (loaded pr ds), w)).
Proof.
  intros Hne Hparse Hpw Hs Hds.
  assert (Hneq : String.eqb text "" = false) by (apply String.eqb_neq; exact Hne).
  rewrite V2_load_cases, V3_load_cases, Hs, Hneq, Hparse, Hds, Hpw.
  unfold stripPassword. split; intros Ht; rewrite Ht.
  - repeat split; try reflexivity. apply deleted_field_is_absent.
  - split; reflexivity.
Qed.

Lemma loaded_password_witness :
  Json.stringify (janeRecord (VStr "X")) <> ""
  /\ Json.parse (Json.stringify (janeRecord (VStr "X"))) = Ok (janeRecord (VStr "X"))
  /\ getProp (janeRecord (VStr "X")) "password" = Ok (VStr "X")
  /\ truthy (VStr "X") = true
  /\ V3.saveDemoState offlineEnv (janeRecord (VStr "X")) VNull emptyWorld
     = (Ok tt, storedPlain (janeRecord (VStr "X")))
  /\ V3.loadDemoState offlineEnv (storedPlain (janeRecord (VStr "X")))
     = (Ok (loaded (VObj [("email", VStr "janedoe@cymbal.se");
                           ("firstName", VStr "Jane"); ("lastName", VStr "Doe")])
                   VNull),
        storedPlain (janeRecord (VStr "X"))).
Proof.
  destruct (loaded_password_is_stripped_when_truthy offlineEnv
              (storedPlain (janeRecord (VStr "X")))
              (Json.stringify (janeRecord (VStr "X")))
              (janeRecord (VStr "X")) (VStr "X") VNull
              ltac:(vm_compute; discriminate) ltac:(vm_compute; reflexivity) eq_refl
              ltac:(vm_compute; reflexivity) ltac:(vm_compute; reflexivity))
    as [Hstrip _].
  destruct (Hstrip eq_refl) as (_ & H3 & _).
  split; [vm_compute; discriminate |].
  split; [vm_compute; reflexivity |].
  split; [reflexivity |]. split; [reflexivity |].
  split; [vm_compute; reflexivity |]. exact H3.
Defined.

(** C1 does not hold for the [loadDemoState] of lines 336-355: after saving
    a provision result with the password [X], it returns the record with
    that password.  Nor does it hold at lines 1295-1312 for a [null]
    password, whose field stays in the loaded record. *)
Lemma V1_load_returns_stored_password :
  (exists w1,
      V1.saveDemoState offlineEnv (janeRecord (VStr "X")) VNull emptyWorld = (Ok tt, w1)
      /\ V1.loadDemoState offlineEnv w1
         = (Ok (loaded (janeRecord (VStr "X")) VNull), w1)
      /\ getProp (janeRecord (VStr "X")) "password" = Ok (VStr "X"))
  /\ (exists w1,
         V3.saveDemoState offlineEnv (janeRecord VNull) VNull emptyWorld = (Ok tt, w1)
         /\ V3.loadDemoState offlineEnv w1 = (Ok (loaded (janeRecord VNull) VNull), w1)
         /\ hasField (janeRecord VNull) "password" = true).
Proof.
  split; eexists; (split; [vm_compute; reflexivity |]);
    (split; [vm_compute; reflexivity | reflexivity]).
Qed.

(* ===================================================================== *)
(** ** C7: an account found by the lookup *)
(* ===================================================================== *)

Lemma V1_saveDemoState_total (E : env) (pr ds : jsval) (w : world) :
  exists w', V1.saveDemoState E pr ds w = (Ok tt, w')
             /\ requests w' = requests w /\ sheetRows w' = sheetRows w.
Proof.
  unfold V1.saveDemoState, setProperty. unfold_monad.
  destruct (truthy pr), (truthy ds); eexists; split; try reflexivity; split; reflexivity.
Qed.

Lemma V1_loadDemoState_total (E : env) (w : world) :
  exists v w',
    V1.loadDemoState E w = (Ok v, w')
    /\ (v = VNull \/ exists pr ds, v = loaded pr ds).
Proof.
  rewrite V1_load_cases.
  destruct (userProps w !! _) as [text |]; [| eauto].
  destruct (String.eqb text ""); [eauto |].
  destruct (JSON_parse E text); [| eauto].
  destruct (storedScript E _); eauto 8.
Qed.

(** The script that [getInitialAppState] reads back (lines 94-99). *)
Lemma loaded_script_total (E : env) (w : world) :
  exists demoScript w',
    (savedState ← V1.loadDemoState E;
     if truthy savedState then lift (getProp savedState "demoScript")
     else mret VNull) w = (Ok demoScript, w').
Proof.
  destruct (V1_loadDemoState_total E w) as (v & w' & Hl & Hv).
  unfold_monad. rewrite Hl.
  destruct Hv as [-> | (pr & ds & ->)]; simpl; eauto.
Qed.

(** C7. When the lookup is answered 200, both paths of revision 1 build
    the provision result from the found record: [getInitialAppState] returns
    it with the record's names and the password [null], and so do
    [createDemoUserInRoot] and [createUser]; when the names cannot be read
    from the answer the operation fails and returns no provision result at
    all.  No password is ever part of the result. *)
Theorem found_account_reveals_no_password
    (E : env) (token : string) (nameFields : list (string * jsval))
    (firstName lastName : jsval) (w : world) (body : string) :
  activeUserEmail E <> "" ->
  token <> "" ->
  token_acquired E token ->
  let primaryEmail :=
    spec_demo_address (V1.getPrimaryDomain E) (activeUserEmail E) in
  remote E (requests w) (lookupRequest primaryEmail token) = Response 200 body ->
  match foundNames E body with
  | Ok (givenName, familyName) =>
      (exists demoScript w',
          V1.getInitialAppState E w
          = (Ok (VObj [("success", VBool true);
                       ("provisionResult",
                        VObj [("email", VStr primaryEmail);
                              ("password", VNull);
                              ("firstName", givenName);
                              ("lastName", familyName)]);
                       ("demoScript", demoScript)]), w'))
      /\ V1.createDemoUserInRoot E (activeUserEmail E) firstName lastName w
         = (Ok (VObj [("success", VBool true);
                      ("email", VStr primaryEmail);
                      ("password", VNull);
                      ("firstName", givenName);
                      ("lastName", familyName)]),
            sent (lookupRequest primaryEmail token) w)
      /\ (exists w',
             V1.createUser E (VObj nameFields) w
             = (Ok (VObj [("success", VBool true);
                          ("email", VStr primaryEmail);
                          ("password", VNull);
                          ("firstName", givenName);
                          ("lastName", familyName)]), w'))
  | Throw e =>
      V1.getInitialAppState E w
      = (Ok (failure ("A network exception occurred during the initial check: "
                      +:+ message e)), sent (lookupRequest primaryEmail token) w)
      /\ V1.createUser E (VObj nameFields) w
         = (Ok (failure ("A network exception occurred: " +:+ message e)),
            sent (lookupRequest primaryEmail token) w)
  end.
Proof.
  intros Huser Hne Htok primaryEmail Hresp.
  assert (Hu : String.eqb (activeUserEmail E) "" = false)
    by (apply String.eqb_neq; exact Huser).
  assert (Ht : String.eqb token "" = false) by (apply String.eqb_neq; exact Hne).
  unfold V1.getInitialAppState, V1.createUser, Shared.createUser,
    V1.createDemoUserInRoot, Shared.createDemoUserInRoot.
  rewrite Hu. unfold_monad. mstep.
  rewrite !V1_derivePrimaryEmail_eq. fold primaryEmail.
  rewrite (Htok w). js_step. rewrite Ht. js_step.
  rewrite !V1_derivePrimaryEmail_eq. fold primaryEmail. mstep.
  unfold fetch.
  change (Request "GET" (usersUrl +:+ "/" +:+ primaryEmail)
            (authHeader (VStr token)) None) with (lookupRequest primaryEmail token).
  rewrite Hresp. change (200 =? 200) with true. mstep.
  fold (sent (lookupRequest primaryEmail token) w).
  unfold foundNames.
  destruct (JSON_parse E body) as [existingUser | e]; [| split; reflexivity].
  destruct (getProp existingUser "name") as [name | e]; [| split; reflexivity].
  destruct (getProp name "givenName") as [givenName | e] eqn:Hg.
  2:{ destruct (getProp name "familyName"); split; reflexivity. }
  destruct (getProp name "familyName") as [familyName | e]; [| split; reflexivity].
  js_step.
  split; [| split; [reflexivity |]].
  - set (pr := VObj [("email", VStr primaryEmail); ("password", VNull);
                     ("firstName", givenName); ("lastName", familyName)]).
    destruct (V1_saveDemoState_total E pr VNull (sent (lookupRequest primaryEmail token) w))
      as (w1 & Hsave & _).
    rewrite Hsave. mstep.
    destruct (loaded_script_total E w1) as (demoScript & w2 & Hload).
    unfold_monad.
    destruct (V1.loadDemoState E w1) as [[savedState | e] w1'] eqn:Hl;
      [| discriminate].
    destruct (truthy savedState).
    + destruct (getProp savedState "demoScript"); [| discriminate].
      eexists _, _. reflexivity.
    + eexists _, _. reflexivity.
  - set (r := VObj [("success", VBool true); ("email", VStr primaryEmail);
                    ("password", VNull); ("firstName", givenName);
                    ("lastName", familyName)]).
    js_step. rewrite V1_clearDemoState. mstep.
    destruct (V1_saveDemoState_total E r VNull
                (cleared E (sent (lookupRequest primaryEmail token) w)))
      as (w1 & Hsave & _).
    rewrite Hsave. eexists. reflexivity.
Qed.

Lemma found_account_witness :
  activeUserEmail foundEnv <> ""
  /\ "token-1" <> ""
  /\ token_acquired foundEnv "token-1"
  /\ remote foundEnv (requests emptyWorld)
        (lookupRequest "janedoe@cymbal.se" "token-1")
      = Response 200 janeDirectoryRecord
  /\ (exists demoScript w',
         V1.getInitialAppState foundEnv emptyWorld
         = (Ok (VObj [("success", VBool true);
                      ("provisionResult", janeRecord VNull);
                      ("demoScript", demoScript)]), w'))
  /\ V1.createDemoUserInRoot foundEnv "jane.doe@example.com"
        (VStr "J") (VStr "D") emptyWorld
      = (Ok (VObj [("success", VBool true);
                   ("email", VStr "janedoe@cymbal.se");
                   ("password", VNull);
                   ("firstName", VStr "Jane");
                   ("lastName", VStr "Doe")]),
         sent (lookupRequest "janedoe@cymbal.se" "token-1") emptyWorld).
Proof.
  assert (Hacq : token_acquired foundEnv "token-1") by (intros w; reflexivity).
  pose proof (found_account_reveals_no_password foundEnv "token-1" []
                (VStr "J") (VStr "D") emptyWorld janeDirectoryRecord
                ltac:(discriminate) ltac:(discriminate) Hacq eq_refl) as H.
  assert (Hf : foundNames foundEnv janeDirectoryRecord
               = Ok (VStr "Jane", VStr "Doe")) by (vm_compute; reflexivity).
  rewrite Hf in H. destruct H as (Hinit & Hroot & _).
  split; [discriminate |]. split; [discriminate |]. split; [exact Hacq |].
  split; [reflexivity |]. split; [exact Hinit | exact Hroot].
Defined.

(** The end-to-end scenario: the lookup misses, the account is created with
    a generated password, and the next initial load finds the account and
    returns it without a password. *)
Example created_account_scenario :
  fst (V1.createUser createEnv
         (VObj [("firstName", VStr "Jane"); ("lastName", VStr "Doe")]) emptyWorld)
  = Ok (VObj [("success", VBool true); ("email", VStr "janedoe@cymbal.se");
              ("password", VStr "Af&54OcA5ArOrc");
              ("firstName", VStr "Jane"); ("lastName", VStr "Doe")])
  /\ fst (V1.getInitialAppState foundEnv emptyWorld)
     = Ok (VObj [("success", VBool true);
                 ("provisionResult", janeRecord VNull);
                 ("demoScript", VNull)]).
Proof. split; vm_compute; reflexivity. Qed.

(* ===================================================================== *)
(** ** C5: the shape test on the model's answer *)
(* ===================================================================== *)

Lemma logPromptAndOutput_total (E : env) (prompt output : string) (w : world) :
  exists w', Shared.logPromptAndOutput E prompt output w = (Ok tt, w')
             /\ userProps w' = userProps w /\ requests w' = requests w.
Proof.
  unfold Shared.logPromptAndOutput, appendRow. unfold_monad.
  destruct (sheetOpens E); eexists; repeat split.
Qed.

Lemma V1_parseAndStoreScript_cases (E : env) (pr : jsval) (prompt : string)
    (text : jsval) (w : world) :
  match shapeChecked E text with
  | Some o =>
      exists w', V1.parseAndStoreScript E pr prompt text w = (Ok (accepted o), w')
  | None =>
      exists w', V1.parseAndStoreScript E pr prompt text w = (Ok malformed, w')
                 /\ userProps w' = userProps w
  end.
Proof.
  unfold V1.parseAndStoreScript, shapeChecked. unfold_monad.
  destruct (logPromptAndOutput_total E prompt
              ("Malformed AI response: " +:+ toStr text) w) as (wl & Hlog & Hprops & _).
  destruct (JSON_parse E (toStr text)) as [o | e].
  2:{ rewrite Hlog. eexists. split; [reflexivity | exact Hprops]. }
  destruct (getProp o "title") as [title | e].
  2:{ rewrite Hlog. eexists. split; [reflexivity | exact Hprops]. }
  destruct (getProp o "steps") as [steps | e].
  2:{ rewrite Hlog. eexists. split; [reflexivity | exact Hprops]. }
  destruct (Shared.scriptShapeOk title steps) eqn:Hshape; simpl.
  2:{ rewrite Hlog. eexists. split; [reflexivity | exact Hprops]. }
  destruct (V1_saveDemoState_total E pr o w) as (w1 & Hsave & _).
  rewrite Hsave.
  destruct (logPromptAndOutput_total E prompt (JSON_stringify E o) w1)
    as (w2 & Hlog2 & _).
  rewrite Hlog2. eexists. reflexivity.
Qed.







(* ===================================================================== *)
(** ** C4: a failed generation and the stored script *)
(* ===================================================================== *)

Lemma V1_callGeminiAPI_total (E : env) (prompt modelName : string) (w : world) :
  exists r w',
    V1.callGeminiAPI E prompt modelName w = (Ok r, w')
    /\ userProps w' = userProps w
    /\ (isFailure r
        \/ exists text, r = VObj [("success", VBool true); ("text", text)]
                        /\ truthy text = true).
Proof.
  unfold V1.callGeminiAPI, Shared.callGeminiAPI, Shared.getScriptProperty_, fetch.
  unfold_monad.
  assert (Hfail : forall msg w0, userProps w0 = userProps w ->
            exists r w', (Ok (failure msg), w0) = (Ok r, w')
                         /\ userProps w' = userProps w
                         /\ (isFailure r
                             \/ exists text,
                                  r = VObj [("success", VBool true); ("text", text)]
                                  /\ truthy text = true)).
  { intros msg w0 H0. exists (failure msg), w0.
    split; [reflexivity |]. split; [exact H0 |]. left. exists msg. reflexivity. }
  destruct (scriptProps E !! "GEMINI_API_KEY") as [key |]; [| apply Hfail; reflexivity].
  destruct (String.eqb key ""); [apply Hfail; reflexivity |].
  simpl. destruct (remote E (requests w) _) as [status body | reason];
    [| apply Hfail; reflexivity].
  destruct (status =? 200); [| apply Hfail; reflexivity].
  destruct (JSON_parse E body) as [jsonResponse | e]; [| apply Hfail; reflexivity].
  simpl. destruct (getProp jsonResponse "candidates") as [candidates | e];
    [| apply Hfail; reflexivity].
  simpl.
  destruct (truthy (optProp (optIndex0 (optProp (optProp (optIndex0 candidates)
                                                    "content") "parts")) "text"))
    eqn:Htext; [| apply Hfail; reflexivity].
  eexists _, _. split; [reflexivity |]. split; [reflexivity |].
  right. eexists. split; [reflexivity | exact Htext].
Qed.

Lemma V1_load_readable (E : env) (w : world) :
  recordReadable E w ->
  exists v, V1.loadDemoState E w = (Ok v, w)
            /\ (v = VNull \/ exists pr ds, v = loaded pr ds).
Proof.
  intros Hread. rewrite V1_load_cases. unfold recordReadable in Hread.
  destruct (userProps w !! V1.getNamespacedKey_ E "savedProvisionResult")
    as [text |]; [| eauto].
  destruct (String.eqb text "") eqn:Hempty; [eauto |].
  apply String.eqb_neq in Hempty.
  destruct (Hread text eq_refl Hempty) as ((pr & Hpr) & (ds & Hds)).
  rewrite Hpr, Hds. eauto 8.
Qed.

Lemma truthy_not_nullish (v : jsval) (k : string) :
  truthy v = true -> exists x, getProp v k = Ok x.
Proof. destruct v; simpl; intros H; try discriminate; eauto. Qed.

(** C4, as the code has it.  When the persisted records can be read (or
    there are none), [generateDemoScript] of revision 1 always returns, and
    whenever it returns a failure - no persisted user, a failed model call,
    an answer that does not parse or has the wrong shape - the user
    properties are what they were before the call. *)
Theorem failed_generation_keeps_stored_script
    (E : env) (demoContext : jsval) (w : world) :
  recordReadable E w ->
  exists r w',
    V1.generateDemoScript E demoContext w = (Ok r, w')
    /\ (isFailure r \/ exists scriptObject, r = accepted scriptObject)
    /\ (isFailure r -> userProps w' = userProps w).
Proof.
  intros Hread.
  assert (Hfail : forall msg w0, userProps w0 = userProps w ->
            exists r w', (Ok (failure msg), w0) = (Ok r, w')
                         /\ (isFailure r \/ exists scriptObject, r = accepted scriptObject)
                         /\ (isFailure r -> userProps w' = userProps w)).
  { intros msg w0 H0. exists (failure msg), w0.
    split; [reflexivity |]. split; [left; exists msg; reflexivity |].
    intros _; exact H0. }
  destruct (V1_load_readable E w Hread) as (savedState & Hload & Hshape).
  unfold V1.generateDemoScript. unfold_monad. rewrite Hload.
  destruct Hshape as [-> | (pr & ds & ->)]; [apply Hfail; reflexivity |].
  simpl. destruct (truthy pr) eqn:Hpr; [| apply Hfail; reflexivity].
  simpl.
  destruct (truthy_not_nullish pr "email" Hpr) as (email & ->).
  destruct (truthy_not_nullish pr "firstName" Hpr) as (firstName & ->).
  destruct (truthy_not_nullish pr "lastName" Hpr) as (lastName & ->).
  set (prompt := V1.constructDemoScriptPrompt_ demoContext firstName lastName email).
  destruct (V1_callGeminiAPI_total E prompt (V1.getGeminiModel E) w)
    as (r & w1 & Hcall & Hprops & Hr).
  rewrite Hcall.
  destruct Hr as [(msg & ->) | (text & -> & Htext)]; simpl.
  - destruct (logPromptAndOutput_total E prompt
                ("Script generation failed: " +:+ msg) w1) as (w2 & Hlog & Hp2 & _).
    rewrite Hlog. apply Hfail. congruence.
  - rewrite Htext. simpl.
    pose proof (V1_parseAndStoreScript_cases E pr prompt text w1) as Hblock.
    destruct (shapeChecked E text) as [o |].
    + destruct Hblock as (w2 & ->). exists (accepted o), w2.
      split; [reflexivity |]. split; [right; eauto |].
      intros (msg & Hmsg). discriminate.
    + destruct Hblock as (w2 & -> & Hp2). apply Hfail. congruence.
Qed.

Lemma failed_generation_witness :
  recordReadable offlineEnv
    (janeState (Json.stringify (janeRecord VNull)) (Json.stringify minimalScript))
  /\ exists w',
       V1.generateDemoScript offlineEnv (VStr "sales demo of shared drives")
         (janeState (Json.stringify (janeRecord VNull)) (Json.stringify minimalScript))
       = (Ok (failure "Demo script generation failed: Exception during AI API call: down"), w')
       /\ userProps w'
          = userProps (janeState (Json.stringify (janeRecord VNull))
                                 (Json.stringify minimalScript)).
Proof.
  assert (Hread : recordReadable offlineEnv
            (janeState (Json.stringify (janeRecord VNull))
                       (Json.stringify minimalScript))).
  { intros text Hs _. vm_compute in Hs. injection Hs as <-.
    split; eexists; vm_compute; reflexivity. }
  split; [exact Hread |].
  destruct (failed_generation_keeps_stored_script offlineEnv
              (VStr "sales demo of shared drives") _ Hread)
    as (r & w' & Hrun & _ & Hkeep).
  assert (Hr : r = failure "Demo script generation failed: Exception during AI API call: down").
  { assert (Hc : fst (V1.generateDemoScript offlineEnv (VStr "sales demo of shared drives")
              (janeState (Json.stringify (janeRecord VNull))
                         (Json.stringify minimalScript)))
           = Ok (failure "Demo script generation failed: Exception during AI API call: down"))
      by (vm_compute; reflexivity).
    rewrite Hrun in Hc. simpl in Hc. congruence. }
  subst r. exists w'. split; [exact Hrun |]. apply Hkeep. eexists. reflexivity.
Defined.

(** C4 does not hold when the stored provision result is corrupted:
    [generateDemoScript] reports that no demo user was found, and the valid
    script stored before the call is gone after it. *)
Lemma failed_generation_clears_corrupted_state :
  V1.generateDemoScript offlineEnv (VStr "sales demo of shared drives") corruptedV1
  = (Ok (failure "No demo user found. Please create a demo account first."),
     emptyWorld)
  /\ userProps corruptedV1 !! "savedDemoScript_jane.doe@example.com"
     = Some (Json.stringify minimalScript)
  /\ Json.parse (Json.stringify minimalScript) = Ok minimalScript
  /\ userProps emptyWorld !! "savedDemoScript_jane.doe@example.com" = None.
Proof. repeat split; vm_compute; reflexivity. Qed.

(* ===================================================================== *)
(** ** C2: a failed token acquisition *)
(* ===================================================================== *)





(* ===================================================================== *)
(** ** More on the derived address *)
(* ===================================================================== *)

Lemma filter_satisfies (p : ascii -> bool) (l : list ascii) :
  forallb p (List.filter p l) = true.
Proof.
  induction l as [| c r IH]; [reflexivity |].
  simpl. destruct (p c) eqn:Hc; [| exact IH].
  simpl. rewrite Hc. exact IH.
Qed.

(** The local part of every derived address is made of the characters
    [a-z0-9] only (it may be empty), whatever the requester's address is;
    revision 1 follows it with [@] and the configured domain. *)
Theorem derived_prefix_is_alphanumeric (E : env) (requester : string) (w : world) :
  exists prefix,
    requestingUserPrefix requester = Ok prefix
    /\ forallb is_az09 (list_ascii_of_string prefix) = true
    /\ V1.derivePrimaryEmail E requester w
       = (Ok (prefix +:+ "@" +:+ V1.getPrimaryDomain E), w).
Proof.
  eexists. split; [apply requestingUserPrefix_spec |].
  split.
  - rewrite list_ascii_of_string_of_list_ascii. apply filter_satisfies.
  - unfold V1.derivePrimaryEmail. unfold_monad.
    rewrite requestingUserPrefix_spec. reflexivity.
Qed.

Lemma localpart_skips_punctuation (a rest : string) (c : ascii) :
  c <> "@"%char ->
  is_az09 (lower_char c) = false ->
  List.filter is_az09
    (map lower_char (list_ascii_of_string (spec_localpart (a +:+ String c rest))))
  = List.filter is_az09
      (map lower_char (list_ascii_of_string (spec_localpart (a +:+ rest)))).
Proof.
  intros Hat Hc. induction a as [| x a IH].
  - change ("" +:+ String c rest) with (String c rest).
    change ("" +:+ rest) with rest.
    simpl. destruct (Ascii.eqb c "@") eqn:He.
    + apply Ascii.eqb_eq in He. contradiction.
    + simpl. rewrite Hc. reflexivity.
  - rewrite !string_app_cons. simpl.
    destruct (Ascii.eqb x "@"); [reflexivity |].
    simpl. rewrite IH. reflexivity.
Qed.

Lemma localpart_ignores_domain (localpart domain : string) :
  spec_localpart (spec_localpart localpart +:+ String "@" domain)
  = spec_localpart localpart.
Proof.
  induction localpart as [| x a IH]; [reflexivity |].
  simpl. destruct (Ascii.eqb x "@") eqn:He; [reflexivity |].
  rewrite string_app_cons. simpl. rewrite He, IH. reflexivity.
Qed.

(** Two requesters get the same demo address when their addresses differ by
    one character that is not [@] and is neither a letter nor a digit
    (a dot, a plus sign), and also when they have the same local part in
    different domains. *)
Theorem requesters_collide_on_punctuation_and_domain
    (E : env) (a rest : string) (c : ascii) (localpart domain1 domain2 : string)
    (w : world) :
  c <> "@"%char ->
  is_az09 (lower_char c) = false ->
  V1.derivePrimaryEmail E (a +:+ String c rest) w
    = V1.derivePrimaryEmail E (a +:+ rest) w
  /\ V1.derivePrimaryEmail E (spec_localpart localpart +:+ String "@" domain1) w
     = V1.derivePrimaryEmail E (spec_localpart localpart +:+ String "@" domain2) w.
Proof.
  intros Hat Hc. unfold V1.derivePrimaryEmail.
  rewrite !requestingUserPrefix_spec.
  rewrite (localpart_skips_punctuation a rest c Hat Hc).
  rewrite !localpart_ignores_domain. split; reflexivity.
Qed.

Lemma requesters_collide_witness :
  "."%char <> "@"%char
  /\ is_az09 (lower_char ".") = false
  /\ V1.derivePrimaryEmail offlineEnv "jane.doe@example.com" emptyWorld
     = V1.derivePrimaryEmail offlineEnv "janedoe@example.com" emptyWorld
  /\ V1.derivePrimaryEmail offlineEnv "janedoe@example.com" emptyWorld
     = V1.derivePrimaryEmail offlineEnv "janedoe@other.org" emptyWorld.
Proof.
  split; [discriminate |]. split; [reflexivity |].
  split.
  - exact (proj1 (requesters_collide_on_punctuation_and_domain offlineEnv
                    "jane" "doe@example.com" "." "" "" "" emptyWorld
                    ltac:(discriminate) eq_refl)).
  - exact (proj2 (requesters_collide_on_punctuation_and_domain offlineEnv
                    "" "" "." "janedoe" "example.com" "other.org" emptyWorld
                    ltac:(discriminate) eq_refl)).
Defined.

(* ===================================================================== *)
(** ** More on the generated password *)
(* ===================================================================== *)

Lemma advance_zero (w : world) : advance 0 w = w.
Proof. destruct w; reflexivity. Qed.

Lemma pick_total (E : env) (chars : string) (w : world) :
  exists c, Shared.pick E chars w = (Ok c, advance 1 w).
Proof. eexists. reflexivity. Qed.

Lemma fill_total (E : env) (n : nat) (password : string) (w : world) :
  exists p, Shared.fill E n password w = (Ok p, advance n w).
Proof.
  revert password w. induction n as [| n IH]; intros password w.
  - exists password. simpl. unfold_monad. rewrite advance_zero. reflexivity.
  - destruct (pick_total E allChars w) as (c & Hc).
    destruct (IH (password +:+ c) (advance 1 w)) as (p & Hp).
    exists p. simpl. unfold_monad. rewrite Hc, Hp, advance_advance.
    do 2 f_equal. lia.
Qed.

Lemma insertBy_shuffle (E : env) (x : ascii) (l : list ascii) (w : world) :
  exists l' k,
    Shared.insertBy (Shared.shuffleCompare E) x l w = (Ok l', advance k w)
    /\ Permutation (x :: l) l'.
Proof.
  revert w. induction l as [| y r IH]; intros w.
  - exists [x], 0%nat. rewrite advance_zero. split; [reflexivity | apply Permutation_refl].
  - simpl. unfold_monad.
    change (Shared.shuffleCompare E w)
      with (Ok ((1 # 2) - random E (draws w))%Q, advance 1 w).
    mstep. destruct (Qle_bool _ 0).
    + destruct (IH (advance 1 w)) as (r' & k & Hr & Hp). rewrite Hr.
      exists (y :: r'), (k + 1)%nat. rewrite advance_advance.
      split; [reflexivity |].
      eapply Permutation_trans; [apply perm_swap | apply perm_skip; exact Hp].
    + exists (x :: y :: r), 1%nat. split; [reflexivity | apply Permutation_refl].
Qed.

Lemma sortBy_shuffle (E : env) (l : list ascii) (w : world) :
  exists l' k,
    Shared.sortBy (Shared.shuffleCompare E) l w = (Ok l', advance k w)
    /\ Permutation l l'.
Proof.
  revert w. induction l as [| x r IH]; intros w.
  - exists [], 0%nat. rewrite advance_zero. split; [reflexivity | apply Permutation_refl].
  - destruct (IH w) as (s & k & Hs & Hp).
    destruct (insertBy_shuffle E x s (advance k w)) as (l' & j & Hi & Hp').
    exists l', (j + k)%nat. split.
    + simpl. unfold_monad. rewrite Hs, Hi, advance_advance. reflexivity.
    + eapply Permutation_trans; [apply perm_skip; exact Hp | exact Hp'].
Qed.

(** The generator always returns, and changes nothing but the number of
    draws consumed. *)
Lemma generateRandomPassword_total (E : env) (n : Z) (w : world) :
  exists password k,
    Shared.generateRandomPassword_ E n w = (Ok password, advance k w).
Proof.
  unfold Shared.generateRandomPassword_. unfold_monad.
  destruct (pick_total E upperChars w) as (c1 & ->).
  destruct (pick_total E lowerChars (advance 1 w)) as (c2 & ->).
  destruct (pick_total E digitChars (advance 1 (advance 1 w))) as (c3 & ->).
  destruct (pick_total E symbolChars (advance 1 (advance 1 (advance 1 w))))
    as (c4 & ->).
  destruct (fill_total E (Z.to_nat (n - 4)) (c1 +:+ c2 +:+ c3 +:+ c4)
              (advance 1 (advance 1 (advance 1 (advance 1 w))))) as (p & ->).
  destruct (sortBy_shuffle E (list_ascii_of_string p)
              (advance (Z.to_nat (n - 4))
                 (advance 1 (advance 1 (advance 1 (advance 1 w))))))
    as (l' & k & -> & _).
  rewrite !advance_advance. eexists _, _. reflexivity.
Qed.

Lemma password_general (E : env) (n : Z) (w : world) :
  unit_draws E ->
  exists password k,
    Shared.generateRandomPassword_ E n w = (Ok password, advance k w)
    /\ String.length password = (4 + Z.to_nat (n - 4))%nat
    /\ has_class is_upper password = true
    /\ has_class is_lower password = true
    /\ has_class is_digit password = true
    /\ has_class is_symbol password = true.
Proof.
  intros Hd.
  destruct (pick_in E Hd upperChars w) as (c1 & H1 & I1); [discriminate |].
  destruct (pick_in E Hd lowerChars (advance 1 w)) as (c2 & H2 & I2); [discriminate |].
  destruct (pick_in E Hd digitChars (advance 1 (advance 1 w)))
    as (c3 & H3 & I3); [discriminate |].
  destruct (pick_in E Hd symbolChars (advance 1 (advance 1 (advance 1 w))))
    as (c4 & H4 & I4); [discriminate |].
  apply (class_of_member is_upper upperChars c1 eq_refl) in I1.
  apply (class_of_member is_lower lowerChars c2 eq_refl) in I2.
  apply (class_of_member is_digit digitChars c3 eq_refl) in I3.
  apply (class_of_member is_symbol symbolChars c4 eq_refl) in I4.
  set (w4 := advance 1 (advance 1 (advance 1 (advance 1 w)))) in *.
  set (first4 := String c1 "" +:+ String c2 "" +:+ String c3 "" +:+ String c4 "").
  destruct (fill_spec E Hd (Z.to_nat (n - 4)) first4 w4) as (extra & Hf & Hlen).
  destruct (sortBy_shuffle E (list_ascii_of_string (first4 +:+ extra))
              (advance (Z.to_nat (n - 4)) w4)) as (shuffled & k & Hs & Hperm).
  change (list_ascii_of_string (first4 +:+ extra))
    with (c1 :: c2 :: c3 :: c4 :: list_ascii_of_string extra) in Hperm.
  exists (string_of_list_ascii shuffled). eexists.
  split.
  { unfold Shared.generateRandomPassword_. unfold_monad.
    rewrite H1, H2, H3, H4. fold first4. fold w4. rewrite Hf, Hs.
    unfold w4. rewrite !advance_advance. reflexivity. }
  assert (Hmem : forall p c, In c [c1; c2; c3; c4] -> p c = true ->
                 has_class p (string_of_list_ascii shuffled) = true).
  { intros p c Hin Hp. unfold has_class.
    rewrite list_ascii_of_string_of_list_ascii.
    eapply has_class_perm; [exact Hperm |].
    apply existsb_exists. exists c. split; [| exact Hp].
    simpl in Hin. simpl. tauto. }
  split.
  { rewrite <- length_list_ascii, list_ascii_of_string_of_list_ascii.
    rewrite <- (Permutation_length Hperm). simpl.
    rewrite length_list_ascii, Hlen. reflexivity. }
  split; [apply (Hmem _ c1); [simpl; auto | exact I1] |].
  split; [apply (Hmem _ c2); [simpl; auto | exact I2] |].
  split; [apply (Hmem _ c3); [simpl; auto | exact I3] |].
  apply (Hmem _ c4); [simpl; auto | exact I4].
Qed.

(** For every requested length [n], with draws in the unit interval, the
    generator returns a password of [max(4, n)] characters: a request for
    fewer than four characters still gets one character of each class. *)
Theorem password_has_at_least_four_characters (E : env) (n : Z) (w : world) :
  unit_draws E ->
  exists password w',
    Shared.generateRandomPassword_ E n w = (Ok password, w')
    /\ Z.of_nat (String.length password) = Z.max 4 n
    /\ has_class is_upper password = true
    /\ has_class is_lower password = true
    /\ has_class is_digit password = true
    /\ has_class is_symbol password = true.
Proof.
  intros Hd.
  destruct (password_general E n w Hd) as (password & k & Hrun & Hlen & Hc).
  exists password, (advance k w). split; [exact Hrun |]. split; [lia | exact Hc].
Qed.

Lemma password_has_at_least_four_characters_witness :
  unit_draws offlineEnv
  /\ exists password w',
       Shared.generateRandomPassword_ offlineEnv 2 emptyWorld = (Ok password, w')
       /\ Z.of_nat (String.length password) = 4.
Proof.
  assert (Hd : unit_draws offlineEnv) by (intros n; apply fifths_in_unit_interval).
  split; [exact Hd |].
  destruct (password_has_at_least_four_characters offlineEnv 2 emptyWorld Hd)
    as (password & w' & Hrun & Hlen & _).
  exists password, w'. split; assumption.
Defined.

(* ===================================================================== *)
(** ** The state store *)
(* ===================================================================== *)

Lemma key_marks_record (suffix : string) :
  String.get 5 ("savedProvisionResult" +:+ suffix) = Some "P"%char
  /\ String.get 5 ("savedDemoScript" +:+ suffix) = Some "D"%char.
Proof. split; reflexivity. Qed.

Lemma namespaced_key_cases (E : env) (key : string) :
  exists suffix, V1.getNamespacedKey_ E key = key +:+ suffix.
Proof.
  unfold V1.getNamespacedKey_. destruct (String.eqb (activeUserEmail E) "").
  - exists "". rewrite string_app_nil_r. reflexivity.
  - eexists. reflexivity.
Qed.

(** The provision result and the script never share a key, not even
    between two requesters. *)
Lemma keys_of_records_differ (E1 E2 : env) : provisionKey E1 <> scriptKey E2.
Proof.
  destruct (namespaced_key_cases E1 "savedProvisionResult") as (s1 & ->).
  destruct (namespaced_key_cases E2 "savedDemoScript") as (s2 & ->).
  intros H. apply (f_equal (String.get 5)) in H.
  rewrite (proj1 (key_marks_record s1)), (proj2 (key_marks_record s2)) in H.
  discriminate.
Qed.

Lemma string_app_nonempty_neq (a b : string) : b <> "" -> a <> a +:+ b.
Proof.
  intros Hb H. apply (f_equal String.length) in H.
  rewrite string_length_app in H. destruct b; [congruence | simpl in H; lia].
Qed.

(** Two requesters never share a key. *)
Lemma keys_of_requesters_differ (E : env) (user key : string) :
  user <> activeUserEmail E ->
  V1.getNamespacedKey_ (asUser user E) key <> V1.getNamespacedKey_ E key.
Proof.
  intros Hne. unfold V1.getNamespacedKey_, asUser. cbn [activeUserEmail].
  destruct (String.eqb user "") eqn:Hu, (String.eqb (activeUserEmail E) "") eqn:Ha.
  - apply String.eqb_eq in Hu, Ha. congruence.
  - apply string_app_nonempty_neq. discriminate.
  - intros H. symmetry in H. revert H. apply string_app_nonempty_neq. discriminate.
  - intros H. apply String.app_inj in H. apply String.app_inj in H. contradiction.
Qed.

Lemma V1_saveDemoState_eq (E : env) (pr ds : jsval) (w : world) :
  V1.saveDemoState E pr ds w = (Ok tt, with_userProps (savedProps E pr ds) w).
Proof.
  unfold V1.saveDemoState, savedProps, setProperty. unfold_monad.
  destruct (truthy pr), (truthy ds); destruct w; reflexivity.
Qed.

(** [saveDemoState] is an upsert.  A truthy argument replaces the stored
    text of its record by its serialisation; an argument that is [null] (or
    otherwise falsy) leaves the stored record as it is; no other user
    property, no request and no sheet row is touched. *)
Theorem saveDemoState_is_an_upsert (E : env) (pr ds : jsval) (w : world) :
  exists w',
    V1.saveDemoState E pr ds w = (Ok tt, w')
    /\ userProps w' !! provisionKey E
       = (if truthy pr then Some (JSON_stringify E pr)
          else userProps w !! provisionKey E)
    /\ userProps w' !! scriptKey E
       = (if truthy ds then Some (JSON_stringify E ds)
          else userProps w !! scriptKey E)
    /\ (forall k, k <> provisionKey E -> k <> scriptKey E ->
        userProps w' !! k = userProps w !! k)
    /\ requests w' = requests w /\ sheetRows w' = sheetRows w.
Proof.
  pose proof (keys_of_records_differ E E) as Hk.
  exists (with_userProps (savedProps E pr ds) w).
  split; [apply V1_saveDemoState_eq |].
  unfold with_userProps, savedProps. cbn [userProps requests sheetRows].
  split; [| split; [| split; [| split; reflexivity]]].
  - destruct (truthy pr), (truthy ds);
      rewrite ?lookup_insert_ne by congruence;
      rewrite ?lookup_insert_eq; reflexivity.
  - destruct (truthy pr), (truthy ds);
      rewrite ?lookup_insert_eq; try reflexivity;
      rewrite ?lookup_insert_ne by congruence; reflexivity.
  - intros k H1 H2.
    destruct (truthy pr), (truthy ds);
      rewrite ?lookup_insert_ne by congruence; reflexivity.
Qed.

(** What is saved is what is loaded: when both arguments are truthy and
    survive [JSON.parse] after [JSON.stringify], [loadDemoState] right after
    [saveDemoState] returns exactly them; when only the provision result is
    given, the script that was stored before is loaded with it. *)
Theorem load_after_save_round_trip (E : env) (pr ds : jsval) (w : world) :
  truthy pr = true ->
  roundTrips E pr ->
  (truthy ds = true -> roundTrips E ds ->
   exists w1, V1.saveDemoState E pr ds w = (Ok tt, w1)
              /\ V1.loadDemoState E w1 = (Ok (loaded pr ds), w1))
  /\ (forall ds0,
        storedScript E (userProps w !! scriptKey E) = Ok ds0 ->
        exists w1, V1.saveDemoState E pr VNull w = (Ok tt, w1)
                   /\ V1.loadDemoState E w1 = (Ok (loaded pr ds0), w1)).
Proof.
  intros Hpr [Hparse Hne].
  pose proof (keys_of_records_differ E E) as Hk.
  assert (Hneq : String.eqb (JSON_stringify E pr) "" = false)
    by (apply String.eqb_neq; exact Hne).
  split.
  - intros Hds [Hparse' Hne'].
    assert (Hneq' : String.eqb (JSON_stringify E ds) "" = false)
      by (apply String.eqb_neq; exact Hne').
    eexists. split; [apply V1_saveDemoState_eq |].
    rewrite V1_load_cases. unfold with_userProps, savedProps, storedScript.
    cbn [userProps]. rewrite Hpr, Hds.
    rewrite lookup_insert_ne by congruence. rewrite !lookup_insert_eq.
    rewrite Hneq, Hneq', Hparse, Hparse'. reflexivity.
  - intros ds0 Hds0.
    eexists. split; [apply V1_saveDemoState_eq |].
    rewrite V1_load_cases. unfold with_userProps, savedProps.
    cbn [userProps]. rewrite Hpr. rewrite truthy_null.
    rewrite lookup_insert_eq, Hneq, Hparse.
    rewrite lookup_insert_ne by congruence. rewrite Hds0. reflexivity.
Qed.

Lemma load_after_save_witness :
  truthy (janeRecord (VStr "X")) = true
  /\ roundTrips offlineEnv (janeRecord (VStr "X"))
  /\ truthy minimalScript = true
  /\ roundTrips offlineEnv minimalScript
  /\ exists w1,
       V1.saveDemoState offlineEnv (janeRecord (VStr "X")) minimalScript emptyWorld
       = (Ok tt, w1)
       /\ V1.loadDemoState offlineEnv w1
          = (Ok (loaded (janeRecord (VStr "X")) minimalScript), w1).
Proof.
  assert (H1 : roundTrips offlineEnv (janeRecord (VStr "X")))
    by (split; [vm_compute; reflexivity | vm_compute; discriminate]).
  assert (H2 : roundTrips offlineEnv minimalScript)
    by (split; [vm_compute; reflexivity | vm_compute; discriminate]).
  split; [reflexivity |]. split; [exact H1 |]. split; [reflexivity |].
  split; [exact H2 |].
  exact (proj1 (load_after_save_round_trip offlineEnv (janeRecord (VStr "X"))
                  minimalScript emptyWorld eq_refl H1) eq_refl H2).
Defined.

Lemma load_reads_own_keys (E : env) (w w' : world) :
  userProps w' !! provisionKey E = userProps w !! provisionKey E ->
  userProps w' !! scriptKey E = userProps w !! scriptKey E ->
  fst (V1.loadDemoState E w') = fst (V1.loadDemoState E w).
Proof.
  intros H1 H2. rewrite !V1_load_cases, H1, H2.
  destruct (userProps w !! provisionKey E) as [text |]; [| reflexivity].
  destruct (String.eqb text ""); [reflexivity |].
  destruct (JSON_parse E text); [| reflexivity].
  destruct (storedScript E _); reflexivity.
Qed.

Lemma savedProps_other (E : env) (pr ds : jsval) (m : gmap string string)
    (k : string) :
  k <> provisionKey E -> k <> scriptKey E -> savedProps E pr ds m !! k = m !! k.
Proof.
  intros H1 H2. unfold savedProps.
  destruct (truthy pr), (truthy ds);
    rewrite ?lookup_insert_ne by congruence; reflexivity.
Qed.

(** The records of one requester are out of reach of another: whatever one
    requester saves or clears, [loadDemoState] run for a requester with a
    different address returns what it returned before. *)
Theorem requesters_do_not_see_each_other
    (E : env) (other : string) (pr ds : jsval) (w : world) :
  other <> activeUserEmail E ->
  exists w1 w2,
    V1.saveDemoState E pr ds w = (Ok tt, w1)
    /\ fst (V1.loadDemoState (asUser other E) w1)
       = fst (V1.loadDemoState (asUser other E) w)
    /\ V1.clearDemoState E w = (Ok tt, w2)
    /\ fst (V1.loadDemoState (asUser other E) w2)
       = fst (V1.loadDemoState (asUser other E) w).
Proof.
  intros Hne.
  pose proof (keys_of_requesters_differ E other "savedProvisionResult" Hne) as Kpp.
  pose proof (keys_of_requesters_differ E other "savedDemoScript" Hne) as Kss.
  pose proof (keys_of_records_differ (asUser other E) E) as Kps.
  pose proof (keys_of_records_differ E (asUser other E)) as Ksp.
  exists (with_userProps (savedProps E pr ds) w), (cleared E w).
  split; [apply V1_saveDemoState_eq |]. split; [| split; [apply V1_clearDemoState |]].
  - apply load_reads_own_keys; unfold with_userProps; cbn [userProps];
      apply savedProps_other; congruence.
  - apply load_reads_own_keys; unfold cleared, with_userProps; cbn [userProps];
      rewrite !lookup_delete_ne by congruence; reflexivity.
Qed.

Lemma requesters_do_not_see_each_other_witness :
  "john@example.com" <> activeUserEmail offlineEnv
  /\ exists w1,
       V1.saveDemoState offlineEnv (janeRecord (VStr "X")) minimalScript emptyWorld
       = (Ok tt, w1)
       /\ fst (V1.loadDemoState (asUser "john@example.com" offlineEnv) w1)
          = fst (V1.loadDemoState (asUser "john@example.com" offlineEnv) emptyWorld).
Proof.
  split; [discriminate |].
  destruct (requesters_do_not_see_each_other offlineEnv "john@example.com"
              (janeRecord (VStr "X")) minimalScript emptyWorld ltac:(discriminate))
    as (w1 & _ & Hsave & Hload & _).
  exists w1. split; assumption.
Defined.




(* ===================================================================== *)
(** ** Provisioning *)
(* ===================================================================== *)

Lemma eqb_false_of_neq (a b : Z) : a <> b -> (a =? b) = false.
Proof. intros H. apply Z.eqb_neq. exact H. Qed.

(** [createDemoUserInRoot] of revision 1 up to the answer to the lookup. *)
Lemma root_after_lookup (E : env) (token requester : string)
    (firstName lastName : jsval) (w : world) :
  token <> "" ->
  token_acquired E token ->
  let primaryEmail := spec_demo_address (V1.getPrimaryDomain E) requester in
  V1.createDemoUserInRoot E requester firstName lastName w
  = match remote E (requests w) (lookupRequest primaryEmail token) with
    | FetchFails reason =>
        (Ok (failure ("A network exception occurred: " +:+ reason)),
         sent (lookupRequest primaryEmail token) w)
    | Response status body =>
        try_catch
          (if status =? 200 then
             existingUser ← lift (JSON_parse E body);
             name ← lift (getProp existingUser "name");
             givenName ← lift (getProp name "givenName");
             familyName ← lift (getProp name "familyName");
             mret (provisioned primaryEmail VNull givenName familyName)
           else if status =? 404 then
             password ← Shared.generateRandomPassword_ E 14;
             '(createCode, _) ←
                fetch E (createRequest E primaryEmail password firstName lastName token);
             if ((createCode =? 200) || (createCode =? 201))%bool
             then mret (provisioned primaryEmail (VStr password) firstName lastName)
             else mret (failure ("Failed to create user. Admin API responded with code "
                                 +:+ pretty createCode +:+ "."))
           else mret (failure ("An unexpected error occurred. Code: "
                               +:+ pretty status)))
          (fun e => mret (failure ("A network exception occurred: " +:+ message e)))
          (sent (lookupRequest primaryEmail token) w)
    end.
Proof.
  intros Hne Htok primaryEmail.
  assert (Ht : String.eqb token "" = false) by (apply String.eqb_neq; exact Hne).
  unfold V1.createDemoUserInRoot, Shared.createDemoUserInRoot.
  unfold mbind at 1. unfold M_bind at 1. rewrite (Htok w). mstep.
  rewrite truthy_str, Ht. cbn [negb]. mstep.
  unfold mbind at 1. unfold M_bind at 1.
  rewrite V1_derivePrimaryEmail_eq. fold primaryEmail. mstep.
  unfold try_catch at 1. unfold mbind at 1. unfold M_bind at 1. unfold fetch at 1.
  change (Request "GET" (usersUrl +:+ "/" +:+ primaryEmail)
            (authHeader (VStr token)) None) with (lookupRequest primaryEmail token).
  fold (sent (lookupRequest primaryEmail token) w).
  destruct (remote E (requests w) (lookupRequest primaryEmail token))
    as [status body | reason]; [| reflexivity].
  mstep. unfold try_catch. reflexivity.
Qed.

(** A lookup that is answered with a status other than 200 and 404, or
    not answered at all, ends the provisioning with a failure that names the
    cause: one request has been sent, no password is generated, no account is
    created and nothing is stored. *)
Theorem unexpected_lookup_answer_stops_provisioning
    (E : env) (token requester : string) (firstName lastName : jsval) (w : world) :
  token <> "" ->
  token_acquired E token ->
  let req := lookupRequest (spec_demo_address (V1.getPrimaryDomain E) requester) token in
  (forall status body,
      remote E (requests w) req = Response status body ->
      status <> 200 -> status <> 404 ->
      V1.createDemoUserInRoot E requester firstName lastName w
      = (Ok (failure ("An unexpected error occurred. Code: " +:+ pretty status)),
         sent req w))
  /\ (forall reason,
        remote E (requests w) req = FetchFails reason ->
        V1.createDemoUserInRoot E requester firstName lastName w
        = (Ok (failure ("A network exception occurred: " +:+ reason)), sent req w)).
Proof.
  intros Hne Htok req.
  pose proof (root_after_lookup E token requester firstName lastName w Hne Htok) as H.
  cbv zeta in H. fold req in H. split.
  - intros status body Hresp H200 H404. rewrite H, Hresp.
    rewrite (eqb_false_of_neq _ _ H200), (eqb_false_of_neq _ _ H404). reflexivity.
  - intros reason Hresp. rewrite H, Hresp. reflexivity.
Qed.

Lemma unexpected_lookup_answer_witness :
  "token-1" <> ""
  /\ token_acquired (directoryEnv 503 "busy") "token-1"
  /\ V1.createDemoUserInRoot (directoryEnv 503 "busy") "jane.doe@example.com"
       (VStr "Jane") (VStr "Doe") emptyWorld
     = (Ok (failure "An unexpected error occurred. Code: 503"),
        sent (lookupRequest "janedoe@cymbal.se" "token-1") emptyWorld).
Proof.
  assert (Hacq : token_acquired (directoryEnv 503 "busy") "token-1")
    by (intros w; reflexivity).
  split; [discriminate |]. split; [exact Hacq |].
  exact (proj1 (unexpected_lookup_answer_stops_provisioning (directoryEnv 503 "busy")
                  "token-1" "jane.doe@example.com" (VStr "Jane") (VStr "Doe")
                  emptyWorld ltac:(discriminate) Hacq)
               503 "busy" eq_refl ltac:(discriminate) ltac:(discriminate)).
Defined.

(** After a lookup answered 404 the account is created with a freshly
    generated password of 14 characters with all four classes.  The password
    in the creation request is the one in the result, which is returned only
    when the creation is answered 200 or 201; any other answer gives a
    failure that names the status.  Two requests are sent, never a third. *)
Theorem created_account_carries_the_generated_password
    (E : env) (token requester : string) (firstName lastName : jsval) (w : world)
    (status : Z) (body0 body : string) :
  token <> "" ->
  token_acquired E token ->
  unit_draws E ->
  let primaryEmail := spec_demo_address (V1.getPrimaryDomain E) requester in
  remote E (requests w) (lookupRequest primaryEmail token) = Response 404 body0 ->
  (forall req,
      remote E (requests w ++ [lookupRequest primaryEmail token]) req
      = Response status body) ->
  exists password k,
    String.length password = 14%nat
    /\ has_class is_upper password = true
    /\ has_class is_lower password = true
    /\ has_class is_digit password = true
    /\ has_class is_symbol password = true
    /\ V1.createDemoUserInRoot E requester firstName lastName w
       = (Ok (if ((status =? 200) || (status =? 201))%bool
              then provisioned primaryEmail (VStr password) firstName lastName
              else failure ("Failed to create user. Admin API responded with code "
                            +:+ pretty status +:+ ".")),
          sent (createRequest E primaryEmail password firstName lastName token)
               (advance k (sent (lookupRequest primaryEmail token) w))).
Proof.
  intros Hne Htok Hd primaryEmail Hmiss Hcreate.
  pose proof (root_after_lookup E token requester firstName lastName w Hne Htok) as H.
  cbv zeta in H. fold primaryEmail in H.
  destruct (password_general E 14 (sent (lookupRequest primaryEmail token) w) Hd)
    as (password & k & Hgen & Hlen & Hclasses).
  exists password, k. split; [exact Hlen |].
  destruct Hclasses as (Hu & Hl & Hdg & Hs).
  do 4 (split; [assumption |]).
  rewrite H, Hmiss. change (404 =? 200) with false. change (404 =? 404) with true.
  mstep. unfold_monad. rewrite Hgen. mstep. unfold fetch.
  change (requests (advance k (sent (lookupRequest primaryEmail token) w)))
    with (requests w ++ [lookupRequest primaryEmail token])%list.
  rewrite Hcreate. mstep.
  destruct ((status =? 200) || (status =? 201))%bool; reflexivity.
Qed.

Lemma created_account_witness :
  "token-1" <> ""
  /\ token_acquired createEnv "token-1"
  /\ unit_draws createEnv
  /\ remote createEnv (requests emptyWorld) (lookupRequest "janedoe@cymbal.se" "token-1")
     = Response 404 "{}"
  /\ exists password k,
       String.length password = 14%nat
       /\ V1.createDemoUserInRoot createEnv "jane.doe@example.com"
            (VStr "Jane") (VStr "Doe") emptyWorld
          = (Ok (provisioned "janedoe@cymbal.se" (VStr password) (VStr "Jane") (VStr "Doe")),
             sent (createRequest createEnv "janedoe@cymbal.se" password
                     (VStr "Jane") (VStr "Doe") "token-1")
                  (advance k (sent (lookupRequest "janedoe@cymbal.se" "token-1")
                                   emptyWorld))).
Proof.
  assert (Hacq : token_acquired createEnv "token-1") by (intros w; reflexivity).
  assert (Hd : unit_draws createEnv) by (intros n; apply fifths_in_unit_interval).
  split; [discriminate |]. split; [exact Hacq |]. split; [exact Hd |].
  split; [reflexivity |].
  destruct (created_account_carries_the_generated_password createEnv "token-1"
              "jane.doe@example.com" (VStr "Jane") (VStr "Doe") emptyWorld
              201 "{}" "{}" ltac:(discriminate) Hacq Hd eq_refl
              ltac:(intros req; reflexivity))
    as (password & k & Hlen & _ & _ & _ & _ & Hrun).
  exists password, k. split; [exact Hlen | exact Hrun].
Defined.

Lemma V1_token_cases (E : env) :
  (exists e, forall w, V1.getAdminAccessToken E w = (Throw e, w))
  \/ (exists token, token_acquired E token).
Proof.
  unfold token_acquired, V1.getAdminAccessToken, V1.getService_,
    V1.getOAuthService_, Shared.getScriptProperty_. unfold_monad.
  repeat match goal with
         | |- context [scriptProps E !! ?k] =>
             destruct (scriptProps E !! k) as [? |];
             [| left; eexists; intros w; reflexivity]
         | |- context [String.eqb ?v ""] =>
             destruct (String.eqb v ""); [left; eexists; intros w; reflexivity |]
         end.
  destruct (oauthAccess E) as [token |].
  - right. exists token. intros w. reflexivity.
  - left. eexists. intros w. reflexivity.
Qed.

(** Whatever happens, [createDemoUserInRoot] leaves the user properties and
    the sheet alone, and what it returns is a failure or a provision
    result. *)
Lemma root_outcome (E : env) (requester : string) (firstName lastName : jsval)
    (w : world) :
  exists out w1,
    V1.createDemoUserInRoot E requester firstName lastName w = (out, w1)
    /\ userProps w1 = userProps w
    /\ match out with
       | Throw _ => True
       | Ok r => isFailure r
                 \/ exists email password first last,
                      r = provisioned email password first last
       end.
Proof.
  assert (Hfail : forall msg w1, userProps w1 = userProps w ->
            exists out w2, (Ok (failure msg), w1) = (out, w2)
              /\ userProps w2 = userProps w
              /\ match out with
                 | Throw _ => True
                 | Ok r => isFailure r
                           \/ exists email password first last,
                                r = provisioned email password first last
                 end).
  { intros msg w1 H1. exists (Ok (failure msg)), w1.
    split; [reflexivity |]. split; [exact H1 |]. left. exists msg. reflexivity. }
  assert (Hok : forall email password first last w1, userProps w1 = userProps w ->
            exists out w2,
              (Ok (provisioned email password first last), w1) = (out, w2)
              /\ userProps w2 = userProps w
              /\ match out with
                 | Throw _ => True
                 | Ok r => isFailure r
                           \/ exists email password first last,
                                r = provisioned email password first last
                 end).
  { intros email password first last w1 H1. eexists _, w1.
    split; [reflexivity |]. split; [exact H1 |]. right. eauto 8. }
  destruct (V1_token_cases E) as [(e & Hthrow) | (token & Htok)].
  - exists (Throw e), w.
    unfold V1.createDemoUserInRoot, Shared.createDemoUserInRoot.
    unfold mbind at 1. unfold M_bind at 1. rewrite Hthrow. auto.
  - destruct (String.eqb token "") eqn:Ht.
    + unfold V1.createDemoUserInRoot, Shared.createDemoUserInRoot.
      unfold mbind at 1. unfold M_bind at 1. rewrite (Htok w). mstep.
      rewrite truthy_str, Ht. cbn [negb]. mstep. apply Hfail. reflexivity.
    + apply String.eqb_neq in Ht.
      pose proof (root_after_lookup E token requester firstName lastName w Ht Htok) as H.
      cbv zeta in H. rewrite H. clear H.
      set (req := lookupRequest _ token).
      destruct (remote E (requests w) req) as [status body | reason];
        [| apply Hfail; reflexivity].
      unfold try_catch.
      destruct (status =? 200).
      * unfold_monad.
        destruct (JSON_parse E body) as [u | e]; [| apply Hfail; reflexivity].
        mstep. destruct (getProp u "name") as [n | e]; [| apply Hfail; reflexivity].
        mstep. destruct (getProp n "givenName") as [g | e]; [| apply Hfail; reflexivity].
        mstep. destruct (getProp n "familyName") as [f | e]; [| apply Hfail; reflexivity].
        mstep. apply Hok. reflexivity.
      * destruct (status =? 404); [| apply Hfail; reflexivity].
        unfold_monad.
        destruct (generateRandomPassword_total E 14 (sent req w)) as (p & k & ->).
        mstep. unfold fetch.
        match goal with
        | |- context [remote E ?rs ?rq] =>
            destruct (remote E rs rq) as [code body' | reason]
        end; [| apply Hfail; reflexivity].
        mstep. destruct ((code =? 200) || (code =? 201))%bool;
          [apply Hok | apply Hfail]; reflexivity.
Qed.

(** What [createUser] leaves behind.  When it returns a failure the user
    properties are untouched.  When it returns a provision result - for a
    created account as for one that was found - the script stored before is
    gone and the whole result, password included, is stored as the provision
    result. *)
Theorem createUser_stores_its_result
    (E : env) (nameInfo r : jsval) (w w' : world) :
  V1.createUser E nameInfo w = (Ok r, w') ->
  (isFailure r /\ userProps w' = userProps w)
  \/ ((exists email password first last, r = provisioned email password first last)
      /\ userProps w' !! provisionKey E = Some (JSON_stringify E r)
      /\ userProps w' !! scriptKey E = None
      /\ forall k, k <> provisionKey E -> k <> scriptKey E ->
                   userProps w' !! k = userProps w !! k).
Proof.
  unfold V1.createUser, Shared.createUser.
  change (Shared.createDemoUserInRoot E (V1.getAdminAccessToken E)
            (V1.derivePrimaryEmail E)) with (V1.createDemoUserInRoot E).
  unfold_monad.
  destruct (getProp nameInfo "firstName") as [firstName | e]; [| discriminate].
  destruct (getProp nameInfo "lastName") as [lastName | e]; [| discriminate].
  mstep. destruct (String.eqb (activeUserEmail E) "").
  { intros H. injection H as <- <-. left. split; [eexists |]; reflexivity. }
  destruct (root_outcome E (activeUserEmail E) firstName lastName w)
    as (out & w1 & Hroot & Hprops & Hout).
  rewrite Hroot. destruct out as [r1 | e]; [| discriminate].
  mstep. destruct Hout as [(msg & ->) | (email & password & first & last & ->)].
  - unfold failure. js_step. intros H. injection H as <- <-.
    left. split; [exists msg; reflexivity | exact Hprops].
  - unfold provisioned at 1 2. js_step.
    rewrite V1_clearDemoState. mstep. rewrite V1_saveDemoState_eq. mstep.
    intros H. injection H as <- <-. right.
    pose proof (keys_of_records_differ E E) as Hk.
    split; [eauto 8 |].
    unfold savedProps, cleared. unfold with_userProps. cbn [userProps].
    rewrite truthy_null.
    rewrite !truthy_obj.
    split; [apply lookup_insert_eq |]. split.
    + rewrite lookup_insert_ne by congruence. apply lookup_delete_eq.
    + intros k H1 H2. rewrite lookup_insert_ne by congruence.
      rewrite !lookup_delete_ne by congruence. rewrite Hprops. reflexivity.
Qed.

Lemma createUser_stores_its_result_witness :
  exists r w',
    V1.createUser createEnv
      (VObj [("firstName", VStr "Jane"); ("lastName", VStr "Doe")])
      (janeState "{}" "old script") = (Ok r, w')
    /\ userProps w' !! "savedDemoScript_jane.doe@example.com" = None
    /\ userProps w' !! "savedProvisionResult_jane.doe@example.com"
       = Some (Json.stringify r).
Proof.
  set (run := V1.createUser createEnv
                (VObj [("firstName", VStr "Jane"); ("lastName", VStr "Doe")])
                (janeState "{}" "old script")).
  assert (Hrun : run = (Ok (provisioned "janedoe@cymbal.se" (VStr "Af&54OcA5ArOrc")
                              (VStr "Jane") (VStr "Doe")), snd run))
    by (vm_compute; reflexivity).
  exists (provisioned "janedoe@cymbal.se" (VStr "Af&54OcA5ArOrc")
            (VStr "Jane") (VStr "Doe")), (snd run).
  split; [exact Hrun |].
  destruct (createUser_stores_its_result createEnv _ _ _ _ Hrun)
    as [((msg & Hmsg) & _) | (_ & Hp & Hs & _)].
  - discriminate Hmsg.
  - split; [exact Hs | exact Hp].
Defined.

(* ===================================================================== *)
(** ** Resetting the password *)
(* ===================================================================== *)

(** Without a stored provision result [resetPasswordForDemoUser] fails at
    once: no token is asked for, no password drawn, no request sent. *)
Lemma reset_without_record (E : env) (w : world) :
  (forall text, userProps w !! provisionKey E = Some text -> text = "") ->
  V1.resetPasswordForDemoUser E w
  = (Ok (failure "No active demo user found in the session to reset the password for."),
     w).
Proof.
  intros Hnone.
  unfold V1.resetPasswordForDemoUser, Shared.resetPasswordForDemoUser.
  unfold mbind at 1. unfold M_bind at 1. rewrite V1_load_cases.
  destruct (userProps w !! provisionKey E) as [text |]; [| reflexivity].
  rewrite (Hnone text eq_refl). reflexivity.
Qed.

(** The password of a reset.  With a readable stored account, a token and a
    directory that answers the update with [status], the operation draws one
    password of 14 characters and sends it in a single PUT for the stored
    address.  On 200 the same password is returned and written into the
    stored provision result, whose other fields and the stored script stay;
    on any other status the answer is a failure that names the status and
    the user properties are what they were. *)
Theorem reset_password_is_sent_stored_and_returned
    (E : env) (token text : string) (pr ds email : jsval) (status : Z)
    (body : string) (w : world) :
  token <> "" ->
  token_acquired E token ->
  unit_draws E ->
  userProps w !! provisionKey E = Some text ->
  text <> "" ->
  JSON_parse E text = Ok pr ->
  storedScript E (userProps w !! scriptKey E) = Ok ds ->
  truthy pr = true ->
  getProp pr "email" = Ok email ->
  truthy email = true ->
  (forall req, remote E (requests w) req = Response status body) ->
  exists password k,
    String.length password = 14%nat
    /\ V1.resetPasswordForDemoUser E w
       = if status =? 200
         then (Ok (VObj [("success", VBool true); ("password", VStr password)]),
               with_userProps
                 (savedProps E (setProp pr "password" (VStr password)) ds)
                 (sent (resetRequest E email password token) (advance k w)))
         else (Ok (failure ("Failed to reset password. Admin API responded with code "
                            +:+ pretty status +:+ ".")),
               sent (resetRequest E email password token) (advance k w)).
Proof.
  intros Hne Htok Hd Hstored Htext Hparse Hscript Hpr Hemail Htruthy Hremote.
  assert (Ht : String.eqb token "" = false) by (apply String.eqb_neq; exact Hne).
  assert (Hx : String.eqb text "" = false) by (apply String.eqb_neq; exact Htext).
  destruct (password_general E 14 w Hd) as (password & k & Hgen & Hlen & _).
  exists password, k. split; [exact Hlen |].
  unfold V1.resetPasswordForDemoUser, Shared.resetPasswordForDemoUser.
  unfold mbind at 1. unfold M_bind at 1.
  rewrite V1_load_cases, Hstored, Hx, Hparse, Hscript. mstep.
  unfold loaded. js_step.
  unfold mbind at 1. unfold M_bind at 1. unfold lift at 1. mstep.
  rewrite Hpr. cbn [negb]. mstep.
  unfold mbind at 1. unfold M_bind at 1. unfold lift at 1. rewrite Hemail. mstep.
  rewrite Htruthy. cbn [negb]. mstep.
  unfold mbind at 1. unfold M_bind at 1. rewrite (Htok w). mstep.
  rewrite truthy_str, Ht. cbn [negb]. mstep.
  unfold mbind at 1. unfold M_bind at 1. rewrite Hgen. mstep.
  unfold try_catch. unfold mbind at 1. unfold M_bind at 1. unfold fetch.
  change (requests (advance k w)) with (requests w). rewrite Hremote. mstep.
  destruct (status =? 200).
  - unfold_monad. js_step. rewrite V1_saveDemoState_eq. mstep. reflexivity.
  - reflexivity.
Qed.

Lemma reset_password_witness :
  exists password k,
    String.length password = 14%nat
    /\ V1.resetPasswordForDemoUser (directoryEnv 200 "{}")
         (janeState (Json.stringify (janeRecord (VStr "old"))) "")
       = (Ok (VObj [("success", VBool true); ("password", VStr password)]),
          with_userProps
            (savedProps (directoryEnv 200 "{}")
               (janeRecord (VStr password)) VNull)
            (sent (resetRequest (directoryEnv 200 "{}") (VStr "janedoe@cymbal.se")
                     password "token-1")
               (advance k (janeState (Json.stringify (janeRecord (VStr "old"))) "")))).
Proof.
  destruct (reset_password_is_sent_stored_and_returned (directoryEnv 200 "{}")
              "token-1" (Json.stringify (janeRecord (VStr "old")))
              (janeRecord (VStr "old")) VNull (VStr "janedoe@cymbal.se") 200 "{}"
              (janeState (Json.stringify (janeRecord (VStr "old"))) "")
              ltac:(discriminate) ltac:(intros w; reflexivity)
              ltac:(intros n; apply fifths_in_unit_interval)
              ltac:(vm_compute; reflexivity) ltac:(discriminate)
              ltac:(vm_compute; reflexivity) ltac:(vm_compute; reflexivity)
              eq_refl eq_refl eq_refl ltac:(intros req; reflexivity))
    as (password & k & Hlen & Hrun).
  exists password, k. split; [exact Hlen | exact Hrun].
Defined.

(* ===================================================================== *)
(** ** The call to the model *)
(* ===================================================================== *)

(** [callGeminiAPI] of revision 1, path by path. *)
Lemma V1_callGeminiAPI_eq (E : env) (prompt modelName : string) (w : world) :
  V1.callGeminiAPI E prompt modelName w
  = match scriptProps E !! "GEMINI_API_KEY" with
    | Some key =>
        if String.eqb key ""
        then (Ok (failure ("Script property GEMINI_API_KEY" +:+
                " is missing. Please set it in Project Settings > Script Properties.")),
              w)
        else
          let req := geminiRequest E modelName key prompt in
          match remote E (requests w) req with
          | FetchFails reason =>
              (Ok (failure ("Exception during AI API call: " +:+ reason)), sent req w)
          | Response status body =>
              if status =? 200 then
                match JSON_parse E body with
                | Ok jsonResponse =>
                    match getProp jsonResponse "candidates" with
                    | Ok candidates =>
                        if truthy (answerText candidates)
                        then (Ok (VObj [("success", VBool true);
                                        ("text", answerText candidates)]),
                              sent req w)
                        else (Ok (failure
                                "AI content generation failed: No valid content received."),
                              sent req w)
                    | Throw e =>
                        (Ok (failure ("Exception during AI API call: " +:+ message e)),
                         sent req w)
                    end
                | Throw e =>
                    (Ok (failure ("Exception during AI API call: " +:+ message e)),
                     sent req w)
                end
              else
                (Ok (failure ("AI API request failed with status "
                              +:+ pretty status +:+ ". Response: "
                              +:+ substring0 500 body)),
                 sent req w)
          end
    | None =>
        (Ok (failure ("Script property GEMINI_API_KEY" +:+
           " is missing. Please set it in Project Settings > Script Properties.")),
         w)
    end.
Proof.
  unfold V1.callGeminiAPI, Shared.callGeminiAPI, Shared.getScriptProperty_.
  unfold mbind at 1. unfold M_bind at 1. unfold try_catch at 1.
  unfold mbind at 1. unfold M_bind at 1.
  destruct (scriptProps E !! "GEMINI_API_KEY") as [key |]; [| reflexivity].
  destruct (String.eqb key ""); [reflexivity |].
  unfold mret at 1. unfold M_ret at 1. mstep.
  unfold mret at 1. unfold M_ret at 1. mstep.
  unfold try_catch at 1. unfold mbind at 1. unfold M_bind at 1. unfold fetch at 1.
  fold (geminiRequest E modelName key prompt).
  set (req := geminiRequest E modelName key prompt).
  fold (sent req w).
  destruct (remote E (requests w) req) as [status body | reason]; [| reflexivity].
  mstep. destruct (status =? 200); [| reflexivity].
  unfold_monad.
  destruct (JSON_parse E body) as [jsonResponse | e]; [| reflexivity].
  mstep. destruct (getProp jsonResponse "candidates") as [candidates | e];
    [| reflexivity].
  mstep. fold (answerText candidates).
  destruct (truthy (answerText candidates)); reflexivity.
Qed.

Lemma substring0_length (n : nat) (s : string) :
  String.length (substring0 n s) = Nat.min n (String.length s).
Proof.
  revert s. induction n as [| n IH]; intros s; [reflexivity |].
  destruct s as [| c r]; [reflexivity |].
  cbn [substring0 String.length]. rewrite IH. reflexivity.
Qed.

Lemma substring0_prefix (n : nat) (s : string) :
  exists rest, s = substring0 n s +:+ rest.
Proof.
  revert s. induction n as [| n IH]; intros s.
  - exists s. destruct s; reflexivity.
  - destruct s as [| c r]; [exists ""; reflexivity |].
    destruct (IH r) as (rest & Hrest). exists rest.
    cbn [substring0]. rewrite string_app_cons. f_equal. exact Hrest.
Qed.

(** What [callGeminiAPI] does and never does.  It always returns an object,
    whatever the key, the network and the answer are; it leaves the user
    properties, the sheet and the random draws alone; it sends nothing when
    the API key is not set, and otherwise exactly one POST, whose address
    carries the key and whose body carries the prompt. *)
Theorem model_call_sends_at_most_one_request
    (E : env) (prompt modelName : string) (w : world) :
  exists r w',
    V1.callGeminiAPI E prompt modelName w = (Ok r, w')
    /\ userProps w' = userProps w
    /\ sheetRows w' = sheetRows w
    /\ draws w' = draws w
    /\ match scriptProps E !! "GEMINI_API_KEY" with
       | Some key =>
           if String.eqb key "" then isFailure r /\ requests w' = requests w
           else requests w' = (requests w ++ [geminiRequest E modelName key prompt])%list
       | None => isFailure r /\ requests w' = requests w
       end.
Proof.
  rewrite V1_callGeminiAPI_eq.
  destruct (scriptProps E !! "GEMINI_API_KEY") as [key |].
  2:{ eexists _, w. repeat split. eexists; reflexivity. }
  destruct (String.eqb key "").
  { eexists _, w. repeat split. eexists; reflexivity. }
  cbv zeta. set (req := geminiRequest E modelName key prompt).
  destruct (remote E (requests w) req) as [status body | reason].
  2:{ eexists _, _. repeat split. }
  destruct (status =? 200); [| eexists _, _; repeat split].
  destruct (JSON_parse E body) as [jsonResponse | e]; [| eexists _, _; repeat split].
  destruct (getProp jsonResponse "candidates") as [candidates | e];
    [| eexists _, _; repeat split].
  destruct (truthy (answerText candidates)); eexists _, _; repeat split.
Qed.

(** An answer of the model API other than 200 comes back as a failure whose
    message names the status and quotes the answer's body, cut after 500
    characters. *)
Theorem model_error_quotes_at_most_500_characters
    (E : env) (prompt modelName key : string) (status : Z) (body : string)
    (w : world) :
  scriptProps E !! "GEMINI_API_KEY" = Some key ->
  key <> "" ->
  remote E (requests w) (geminiRequest E modelName key prompt)
  = Response status body ->
  status <> 200 ->
  exists excerpt rest,
    fst (V1.callGeminiAPI E prompt modelName w)
    = Ok (failure ("AI API request failed with status " +:+ pretty status
                   +:+ ". Response: " +:+ excerpt))
    /\ body = excerpt +:+ rest
    /\ String.length excerpt = Nat.min 500 (String.length body).
Proof.
  intros Hkey Hne Hremote Hstatus.
  destruct (substring0_prefix 500 body) as (rest & Hrest).
  exists (substring0 500 body), rest.
  split; [| split; [exact Hrest | apply substring0_length]].
  rewrite V1_callGeminiAPI_eq, Hkey.
  assert (Hk : String.eqb key "" = false) by (apply String.eqb_neq; exact Hne).
  rewrite Hk. cbv zeta. rewrite Hremote, (eqb_false_of_neq _ _ Hstatus).
  reflexivity.
Qed.

Lemma model_error_witness :
  exists excerpt rest,
    fst (V1.callGeminiAPI (directoryEnv 429 "quota exceeded") "prompt" "models/m"
           emptyWorld)
    = Ok (failure ("AI API request failed with status 429. Response: " +:+ excerpt))
    /\ "quota exceeded" = excerpt +:+ rest
    /\ String.length excerpt = 14%nat.
Proof.
  exact (model_error_quotes_at_most_500_characters (directoryEnv 429 "quota exceeded")
           "prompt" "models/m" "api-key" 429 "quota exceeded" emptyWorld
           eq_refl ltac:(discriminate) eq_refl ltac:(discriminate)).
Defined.

(* ===================================================================== *)
(** ** Generating a script *)
(* ===================================================================== *)

Lemma logPromptAndOutput_eq (E : env) (prompt output : string) (w : world) :
  Shared.logPromptAndOutput E prompt output w = (Ok tt, logged E prompt output w).
Proof.
  unfold Shared.logPromptAndOutput, logged, appendRow. unfold_monad.
  destruct (sheetOpens E); reflexivity.
Qed.

(** Only an object passes the shape test. *)
Lemma shapeChecked_object (E : env) (text o : jsval) :
  shapeChecked E text = Some o ->
  JSON_parse E (toStr text) = Ok o /\ truthy o = true.
Proof.
  unfold shapeChecked.
  destruct (JSON_parse E (toStr text)) as [o' | e]; [| discriminate].
  destruct o'; cbn [getProp]; try discriminate;
    try (unfold Shared.scriptShapeOk; cbn [truthy andb]; discriminate).
  destruct (Shared.scriptShapeOk _ _); [| discriminate].
  intros H. injection H as <-. split; reflexivity.
Qed.

Lemma V1_parseAndStoreScript_accepts (E : env) (pr : jsval) (prompt : string)
    (text o : jsval) (w : world) :
  shapeChecked E text = Some o ->
  V1.parseAndStoreScript E pr prompt text w
  = (Ok (accepted o),
     logged E prompt (JSON_stringify E o) (with_userProps (savedProps E pr o) w)).
Proof.
  unfold V1.parseAndStoreScript, shapeChecked. unfold_monad.
  destruct (JSON_parse E (toStr text)) as [o' | e]; [| discriminate].
  destruct (getProp o' "title") as [title | e]; [| discriminate].
  destruct (getProp o' "steps") as [steps | e]; [| discriminate].
  destruct (Shared.scriptShapeOk title steps); [| discriminate].
  intros H. injection H as <-. cbn [negb]. mstep.
  rewrite V1_saveDemoState_eq. mstep. rewrite logPromptAndOutput_eq.
  reflexivity.
Qed.

Lemma assoc_get_second (k1 k2 : string) (a b : jsval) :
  String.eqb k2 k1 = false ->
  assoc_get k2 [(k1, a); (k2, b)] = Some b.
Proof.
  intros H. cbn [assoc_get]. rewrite H, String.eqb_refl. reflexivity.
Qed.

(** A successful generation.  With a readable stored account, an API key and
    a model answer of status 200 whose text passes the shape test, the
    script is returned, stored as the requester's script next to the
    unchanged provision result, and logged with the prompt that was built
    from the stored names; one request is sent. *)
Theorem generated_script_is_stored_and_logged
    (E : env) (demoContext : jsval) (text key body : string)
    (pr ds email first last answer candidates o : jsval) (w : world) :
  userProps w !! provisionKey E = Some text ->
  text <> "" ->
  JSON_parse E text = Ok pr ->
  storedScript E (userProps w !! scriptKey E) = Ok ds ->
  truthy pr = true ->
  getProp pr "email" = Ok email ->
  getProp pr "firstName" = Ok first ->
  getProp pr "lastName" = Ok last ->
  scriptProps E !! "GEMINI_API_KEY" = Some key ->
  key <> "" ->
  (forall req, remote E (requests w) req = Response 200 body) ->
  JSON_parse E body = Ok answer ->
  getProp answer "candidates" = Ok candidates ->
  truthy (answerText candidates) = true ->
  shapeChecked E (answerText candidates) = Some o ->
  let prompt := V1.constructDemoScriptPrompt_ demoContext first last email in
  let w' :=
    logged E prompt (JSON_stringify E o)
      (with_userProps (savedProps E pr o)
         (sent (geminiRequest E (V1.getGeminiModel E) key prompt) w)) in
  V1.generateDemoScript E demoContext w = (Ok (accepted o), w')
  /\ userProps w' !! scriptKey E = Some (JSON_stringify E o)
  /\ userProps w' !! provisionKey E = Some (JSON_stringify E pr).
Proof.
  intros Hstored Htext Hparse Hscript Hpr Hemail Hfirst Hlast Hkey Hne Hremote
    Hanswer Hcand Htruthy Hshape prompt w'.
  assert (Hx : String.eqb text "" = false) by (apply String.eqb_neq; exact Htext).
  assert (Hk : String.eqb key "" = false) by (apply String.eqb_neq; exact Hne).
  destruct (shapeChecked_object E _ _ Hshape) as (_ & Ho).
  split; [| split].
  - unfold V1.generateDemoScript.
    unfold mbind at 1. unfold M_bind at 1.
    rewrite V1_load_cases, Hstored, Hx, Hparse, Hscript. mstep.
    unfold loaded. js_step.
    unfold mbind at 1. unfold M_bind at 1. unfold lift at 1. mstep.
    rewrite Hpr. cbn [negb]. mstep.
    unfold mbind at 1. unfold M_bind at 1. unfold lift at 1. rewrite Hemail. mstep.
    unfold mbind at 1. unfold M_bind at 1. unfold lift at 1. rewrite Hfirst. mstep.
    unfold mbind at 1. unfold M_bind at 1. unfold lift at 1. rewrite Hlast. mstep.
    fold prompt.
    unfold mbind at 1. unfold M_bind at 1.
    rewrite V1_callGeminiAPI_eq, Hkey, Hk. cbv zeta. rewrite Hremote.
    change (200 =? 200) with true. mstep.
    rewrite Hanswer, Hcand, Htruthy. mstep.
    unfold mbind at 1. unfold M_bind at 1. unfold lift at 1. js_step.
    unfold mbind at 1. unfold M_bind at 1. unfold lift at 1.
    rewrite ?getProp_obj. rewrite assoc_get_second by reflexivity. mstep.
    rewrite Htruthy. js_step.
    apply V1_parseAndStoreScript_accepts. exact Hshape.
  - pose proof (keys_of_records_differ E E) as Hneq.
    unfold w', logged, with_userProps, savedProps.
    destruct (sheetOpens E); cbn [userProps]; rewrite Hpr, Ho;
      apply lookup_insert_eq.
  - pose proof (keys_of_records_differ E E) as Hneq.
    unfold w', logged, with_userProps, savedProps.
    destruct (sheetOpens E); cbn [userProps]; rewrite Hpr, Ho;
      (rewrite lookup_insert_ne by congruence); apply lookup_insert_eq.
Qed.

Lemma generated_script_witness :
  let E := directoryEnv 200 (geminiAnswer (Json.stringify minimalScript)) in
  let run :=
    V1.generateDemoScript E (VStr "a product tour")
      (janeState (Json.stringify (janeRecord VNull)) "") in
  fst run = Ok (accepted minimalScript)
  /\ userProps (snd run) !! scriptKey E = Some (Json.stringify minimalScript).
Proof.
  intros E run.
  destruct (generated_script_is_stored_and_logged E (VStr "a product tour")
              (Json.stringify (janeRecord VNull)) "api-key"
              (geminiAnswer (Json.stringify minimalScript))
              (janeRecord VNull) VNull (VStr "janedoe@cymbal.se") (VStr "Jane")
              (VStr "Doe")
              (VObj [("candidates",
                      VArr [VObj [("content",
                                   VObj [("parts",
                                          VArr [VObj [("text",
                                            VStr (Json.stringify minimalScript))]])])]])])
              (VArr [VObj [("content",
                            VObj [("parts",
                                   VArr [VObj [("text",
                                     VStr (Json.stringify minimalScript))]])])]])
              minimalScript
              (janeState (Json.stringify (janeRecord VNull)) "")
              ltac:(vm_compute; reflexivity) ltac:(vm_compute; discriminate)
              ltac:(vm_compute; reflexivity) ltac:(vm_compute; reflexivity)
              eq_refl eq_refl eq_refl eq_refl
              ltac:(vm_compute; reflexivity) ltac:(discriminate)
              ltac:(intros req; reflexivity)
              ltac:(vm_compute; reflexivity) eq_refl eq_refl
              ltac:(vm_compute; reflexivity))
    as (Hrun & Hs & _).
  unfold run. rewrite Hrun. split; [reflexivity | exact Hs].
Defined.

(* ===================================================================== *)
(** ** The initial load *)
(* ===================================================================== *)

(** [getInitialAppState] of revision 1 up to the answer to the lookup. *)
Lemma initial_after_lookup (E : env) (token : string) (w : world) :
  activeUserEmail E <> "" ->
  token <> "" ->
  token_acquired E token ->
  let primaryEmail :=
    spec_demo_address (V1.getPrimaryDomain E) (activeUserEmail E) in
  let req := lookupRequest primaryEmail token in
  V1.getInitialAppState E w
  = match remote E (requests w) req with
    | FetchFails reason =>
        (Ok (failure ("A network exception occurred during the initial check: "
                      +:+ reason)), sent req w)
    | Response status body =>
        if status =? 200 then
          try_catch
            (existingUser ← lift (JSON_parse E body);
             name ← lift (getProp existingUser "name");
             givenName ← lift (getProp name "givenName");
             familyName ← lift (getProp name "familyName");
             let provisionResult :=
               VObj [("email", VStr primaryEmail);
                     ("password", VNull);
                     ("firstName", givenName);
                     ("lastName", familyName)] in
             V1.saveDemoState E provisionResult VNull;;
             savedState ← V1.loadDemoState E;
             demoScript ←
               (if truthy savedState
                then lift (getProp savedState "demoScript")
                else mret VNull);
             mret (VObj [("success", VBool true);
                         ("provisionResult", provisionResult);
                         ("demoScript", demoScript)]))
            (fun e => mret (failure
               ("A network exception occurred during the initial check: "
                +:+ message e)))
            (sent req w)
        else (Ok (VObj [("success", VBool false)]), cleared E (sent req w))
    end.
Proof.
  intros Huser Hne Htok primaryEmail req.
  assert (Hu : String.eqb (activeUserEmail E) "" = false)
    by (apply String.eqb_neq; exact Huser).
  assert (Ht : String.eqb token "" = false) by (apply String.eqb_neq; exact Hne).
  unfold V1.getInitialAppState. rewrite Hu. mstep.
  unfold mbind at 1. unfold M_bind at 1.
  rewrite V1_derivePrimaryEmail_eq. fold primaryEmail. mstep.
  unfold mbind at 1. unfold M_bind at 1. rewrite (Htok w). mstep.
  rewrite truthy_str, Ht. cbn [negb]. mstep.
  unfold try_catch at 1. unfold mbind at 1. unfold M_bind at 1. unfold fetch at 1.
  change (Request "GET" (usersUrl +:+ "/" +:+ primaryEmail)
            (authHeader (VStr token)) None) with req.
  fold (sent req w).
  destruct (remote E (requests w) req) as [status body | reason]; [| reflexivity].
  mstep. destruct (status =? 200); [reflexivity |].
  unfold mbind at 1. unfold M_bind at 1. rewrite V1_clearDemoState. reflexivity.
Qed.

(** Any answer to the initial lookup other than 200 - a miss as much as a
    server error - is reported as [{success: false}] and removes both
    persisted records of the requester. *)
Theorem initial_lookup_miss_clears_the_state
    (E : env) (token : string) (status : Z) (body : string) (w : world) :
  activeUserEmail E <> "" ->
  token <> "" ->
  token_acquired E token ->
  let req :=
    lookupRequest (spec_demo_address (V1.getPrimaryDomain E) (activeUserEmail E))
      token in
  remote E (requests w) req = Response status body ->
  status <> 200 ->
  exists w',
    V1.getInitialAppState E w = (Ok (VObj [("success", VBool false)]), w')
    /\ userProps w' !! provisionKey E = None
    /\ userProps w' !! scriptKey E = None
    /\ (forall k, k <> provisionKey E -> k <> scriptKey E ->
                  userProps w' !! k = userProps w !! k)
    /\ requests w' = (requests w ++ [req])%list.
Proof.
  intros Huser Hne Htok req Hremote Hstatus.
  pose proof (initial_after_lookup E token w Huser Hne Htok) as H.
  cbv zeta in H. fold req in H. rewrite Hremote in H.
  rewrite (eqb_false_of_neq _ _ Hstatus) in H.
  pose proof (keys_of_records_differ E E) as Hk.
  exists (cleared E (sent req w)). split; [exact H |].
  unfold cleared, with_userProps, sent. cbn [userProps requests].
  split; [| split; [| split]].
  - rewrite lookup_delete_ne by congruence. apply lookup_delete_eq.
  - apply lookup_delete_eq.
  - intros k H1 H2. rewrite !lookup_delete_ne by congruence. reflexivity.
  - reflexivity.
Qed.

Lemma initial_lookup_miss_witness :
  exists w',
    V1.getInitialAppState (directoryEnv 503 "busy")
      (janeState (Json.stringify (janeRecord (VStr "pw")))
         (Json.stringify minimalScript))
    = (Ok (VObj [("success", VBool false)]), w')
    /\ userProps w' !! provisionKey (directoryEnv 503 "busy") = None
    /\ userProps w' !! scriptKey (directoryEnv 503 "busy") = None.
Proof.
  destruct (initial_lookup_miss_clears_the_state (directoryEnv 503 "busy") "token-1"
              503 "busy"
              (janeState (Json.stringify (janeRecord (VStr "pw")))
                 (Json.stringify minimalScript))
              ltac:(discriminate) ltac:(discriminate) ltac:(intros w; reflexivity)
              eq_refl ltac:(discriminate))
    as (w' & Hrun & Hp & Hs & _).
  exists w'. repeat split; assumption.
Defined.

(** The initial load of a found account rewrites the stored provision
    result: whatever was stored before - a password included - is replaced
    by the found account with the password [null], while the stored script
    stays and is returned. *)
Theorem initial_load_replaces_the_stored_account
    (E : env) (token body : string) (givenName familyName ds : jsval) (w : world) :
  activeUserEmail E <> "" ->
  token <> "" ->
  token_acquired E token ->
  let primaryEmail :=
    spec_demo_address (V1.getPrimaryDomain E) (activeUserEmail E) in
  let req := lookupRequest primaryEmail token in
  let found :=
    VObj [("email", VStr primaryEmail); ("password", VNull);
          ("firstName", givenName); ("lastName", familyName)] in
  remote E (requests w) req = Response 200 body ->
  foundNames E body = Ok (givenName, familyName) ->
  roundTrips E found ->
  storedScript E (userProps w !! scriptKey E) = Ok ds ->
  V1.getInitialAppState E w
  = (Ok (VObj [("success", VBool true); ("provisionResult", found);
               ("demoScript", ds)]),
     with_userProps (insert (provisionKey E) (JSON_stringify E found)) (sent req w)).
Proof.
  intros Huser Hne Htok primaryEmail req found Hremote Hnames [Hparse Hnonempty] Hds.
  pose proof (initial_after_lookup E token w Huser Hne Htok) as H.
  cbv zeta in H. fold primaryEmail in H. fold req in H.
  rewrite Hremote in H. change (200 =? 200) with true in H. rewrite H. clear H.
  unfold foundNames in Hnames.
  unfold try_catch. unfold mbind at 1. unfold M_bind at 1. unfold lift at 1.
  destruct (JSON_parse E body) as [existingUser | e]; [| discriminate].
  mstep. unfold mbind at 1. unfold M_bind at 1. unfold lift at 1.
  destruct (getProp existingUser "name") as [name | e]; [| discriminate].
  mstep. unfold mbind at 1. unfold M_bind at 1. unfold lift at 1.
  destruct (getProp name "givenName") as [g | e].
  2:{ destruct (getProp name "familyName"); discriminate. }
  mstep. unfold mbind at 1. unfold M_bind at 1. unfold lift at 1.
  destruct (getProp name "familyName") as [f | e]; [| discriminate].
  injection Hnames as -> ->. mstep. fold found.
  unfold mbind at 1. unfold M_bind at 1. rewrite V1_saveDemoState_eq. mstep.
  assert (Hsaved : savedProps E found VNull
                   = insert (provisionKey E) (JSON_stringify E found)).
  { unfold savedProps, found. rewrite truthy_obj, truthy_null. reflexivity. }
  rewrite Hsaved.
  pose proof (keys_of_records_differ E E) as Hk.
  assert (Hx : String.eqb (JSON_stringify E found) "" = false)
    by (apply String.eqb_neq; exact Hnonempty).
  unfold mbind at 1. unfold M_bind at 1. rewrite V1_load_cases.
  set (w1 := with_userProps (insert (provisionKey E) (JSON_stringify E found))
               (sent req w)).
  assert (Hp1 : userProps w1 !! provisionKey E = Some (JSON_stringify E found))
    by apply lookup_insert_eq.
  assert (Hs1 : userProps w1 !! scriptKey E = userProps w !! scriptKey E)
    by (unfold w1, with_userProps; cbn [userProps];
        rewrite lookup_insert_ne by congruence; reflexivity).
  rewrite Hp1, Hs1, Hx, Hparse, Hds. mstep.
  unfold loaded. js_step.
  unfold_monad. rewrite ?getProp_obj. rewrite assoc_get_second by reflexivity.
  reflexivity.
Qed.

Lemma initial_load_witness :
  let w := janeState (Json.stringify (janeRecord (VStr "pw")))
             (Json.stringify minimalScript) in
  exists w',
    V1.getInitialAppState foundEnv w
    = (Ok (VObj [("success", VBool true);
                 ("provisionResult", janeRecord VNull);
                 ("demoScript", minimalScript)]), w')
    /\ userProps w !! provisionKey foundEnv
       = Some (Json.stringify (janeRecord (VStr "pw")))
    /\ userProps w' !! provisionKey foundEnv
       = Some (Json.stringify (janeRecord VNull)).
Proof.
  intros w.
  pose proof (initial_load_replaces_the_stored_account foundEnv "token-1"
                janeDirectoryRecord (VStr "Jane") (VStr "Doe") minimalScript w
                ltac:(discriminate) ltac:(discriminate) ltac:(intros w0; reflexivity)
                eq_refl ltac:(vm_compute; reflexivity)
                ltac:(split; [vm_compute; reflexivity | vm_compute; discriminate])
                ltac:(vm_compute; reflexivity)) as Hrun.
  eexists. split; [exact Hrun |]. split; [vm_compute; reflexivity |].
  apply lookup_insert_eq.
Defined.

(* ===================================================================== *)
(** ** A directory that cannot be reached *)
(* ===================================================================== *)

(** When every request fails in transport, each of the four directory
    operations of revision 1 answers with a failure object - none raises -
    and none changes a user property: the initial load, the creation, the
    reset of a readable stored account and the deletion. *)
Theorem unreachable_directory_changes_nothing
    (E : env) (token reason : string) (nameFields : list (string * jsval))
    (userEmail : jsval) (w : world) :
  activeUserEmail E <> "" ->
  token <> "" ->
  token_acquired E token ->
  (forall history req, remote E history req = FetchFails reason) ->
  truthy userEmail = true ->
  recordReadable E w ->
  (exists w',
      V1.getInitialAppState E w
      = (Ok (failure ("A network exception occurred during the initial check: "
                      +:+ reason)), w')
      /\ userProps w' = userProps w)
  /\ (exists w',
        V1.createUser E (VObj nameFields) w
        = (Ok (failure ("A network exception occurred: " +:+ reason)), w')
        /\ userProps w' = userProps w)
  /\ (exists r w',
        V1.resetPasswordForDemoUser E w = (Ok r, w')
        /\ isFailure r /\ userProps w' = userProps w)
  /\ (exists w',
        V1.deleteDemoAccount E userEmail w
        = (Ok (failure "A network exception occurred during deletion."), w')
        /\ userProps w' = userProps w).
Proof.
  intros Huser Hne Htok Hremote Hemail Hread.
  assert (Hu : String.eqb (activeUserEmail E) "" = false)
    by (apply String.eqb_neq; exact Huser).
  assert (Ht : String.eqb token "" = false) by (apply String.eqb_neq; exact Hne).
  split; [| split; [| split]].
  - pose proof (initial_after_lookup E token w Huser Hne Htok) as H.
    cbv zeta in H. rewrite Hremote in H. eexists. split; [exact H | reflexivity].
  - unfold V1.createUser, Shared.createUser.
    change (Shared.createDemoUserInRoot E (V1.getAdminAccessToken E)
              (V1.derivePrimaryEmail E)) with (V1.createDemoUserInRoot E).
    unfold mbind at 1. unfold M_bind at 1. unfold lift at 1. mstep.
    unfold mbind at 1. unfold M_bind at 1. unfold lift at 1. mstep.
    rewrite Hu. mstep.
    unfold mbind at 1. unfold M_bind at 1.
    pose proof (root_after_lookup E token (activeUserEmail E)
                  (match assoc_get "firstName" nameFields with
                   | Some x => x | None => VUndefined end)
                  (match assoc_get "lastName" nameFields with
                   | Some x => x | None => VUndefined end) w Hne Htok) as H.
    cbv zeta in H. rewrite Hremote in H. rewrite ?getProp_obj. rewrite H. mstep.
    unfold failure at 1 2. js_step.
    unfold_monad. js_step. eexists. split; reflexivity.
  - assert (Hfail : forall msg w0, userProps w0 = userProps w ->
              exists r w', (Ok (failure msg), w0) = (Ok r, w')
                           /\ isFailure r /\ userProps w' = userProps w).
    { intros msg w0 H0. exists (failure msg), w0.
      split; [reflexivity |]. split; [exists msg; reflexivity | exact H0]. }
    destruct (V1_load_readable E w Hread) as (savedState & Hload & Hshape).
    unfold V1.resetPasswordForDemoUser, Shared.resetPasswordForDemoUser.
    unfold mbind at 1. unfold M_bind at 1. rewrite Hload. mstep.
    destruct Hshape as [-> | (pr & ds & ->)]; [apply Hfail; reflexivity |].
    unfold loaded. js_step.
    unfold mbind at 1. unfold M_bind at 1. unfold lift at 1. mstep.
    destruct (truthy pr) eqn:Hpr; cbn [negb]; mstep; [| apply Hfail; reflexivity].
    destruct (truthy_not_nullish pr "email" Hpr) as (email & Hem).
    unfold mbind at 1. unfold M_bind at 1. unfold lift at 1. rewrite Hem. mstep.
    destruct (truthy email); cbn [negb]; mstep; [| apply Hfail; reflexivity].
    unfold mbind at 1. unfold M_bind at 1. rewrite (Htok w). mstep.
    rewrite truthy_str, Ht. cbn [negb]. mstep.
    unfold mbind at 1. unfold M_bind at 1.
    destruct (generateRandomPassword_total E 14 w) as (p & k & ->). mstep.
    unfold try_catch. unfold mbind at 1. unfold M_bind at 1. unfold fetch.
    rewrite Hremote. mstep. apply Hfail. reflexivity.
  - unfold V1.deleteDemoAccount, Shared.deleteDemoAccount.
    rewrite Hemail. cbn [negb]. mstep.
    unfold mbind at 1. unfold M_bind at 1. rewrite (Htok w). mstep.
    rewrite truthy_str, Ht. cbn [negb]. mstep.
    unfold try_catch. unfold mbind at 1. unfold M_bind at 1. unfold fetch.
    rewrite Hremote. mstep. eexists. split; reflexivity.
Qed.

Lemma unreachable_directory_witness :
  (exists w',
      V1.createUser timeoutEnv
        (VObj [("firstName", VStr "Jane"); ("lastName", VStr "Doe")])
        (janeState (Json.stringify (janeRecord (VStr "pw"))) "")
      = (Ok (failure "A network exception occurred: timeout"), w')
      /\ userProps w'
         = userProps (janeState (Json.stringify (janeRecord (VStr "pw"))) ""))
  /\ (exists r w',
        V1.resetPasswordForDemoUser timeoutEnv
          (janeState (Json.stringify (janeRecord (VStr "pw"))) "") = (Ok r, w')
        /\ isFailure r
        /\ userProps w'
           = userProps (janeState (Json.stringify (janeRecord (VStr "pw"))) "")).
Proof.
  assert (Hread : recordReadable timeoutEnv
                    (janeState (Json.stringify (janeRecord (VStr "pw"))) "")).
  { intros text Htext _. vm_compute in Htext. injection Htext as <-.
    split; [exists (janeRecord (VStr "pw")) | exists VNull];
      vm_compute; reflexivity. }
  destruct (unreachable_directory_changes_nothing timeoutEnv "token-1" "timeout"
              [("firstName", VStr "Jane"); ("lastName", VStr "Doe")]
              (VStr "janedoe@cymbal.se")
              (janeState (Json.stringify (janeRecord (VStr "pw"))) "")
              ltac:(discriminate) ltac:(discriminate) ltac:(intros w0; reflexivity)
              ltac:(intros history req; reflexivity) eq_refl Hread)
    as (_ & Hcreate & Hreset & _).
  split; [exact Hcreate | exact Hreset].
Defined.

(* ===================================================================== *)
(** ** The alphabet of the password *)
(* ===================================================================== *)

Lemma fill_members (E : env) (p : ascii -> bool) (n : nat) (password : string)
    (w : world) :
  unit_draws E ->
  forallb p (list_ascii_of_string allChars) = true ->
  exists extra,
    Shared.fill E n password w = (Ok (password +:+ extra), advance n w)
    /\ forallb p (list_ascii_of_string extra) = true.
Proof.
  intros Hd Hall. revert password w. induction n as [| n IH]; intros password w.
  - exists "". split; [| reflexivity]. cbn [Shared.fill]. unfold_monad.
    rewrite string_app_nil_r, advance_zero. reflexivity.
  - destruct (pick_in E Hd allChars w) as (c & Hc & Hin); [discriminate |].
    destruct (IH (password +:+ String c "") (advance 1 w)) as (extra & He & Hp).
    exists (String c extra). split.
    + cbn [Shared.fill]. unfold mbind at 1. unfold M_bind at 1.
      rewrite Hc. mstep. rewrite He, advance_advance, string_app_assoc.
      rewrite string_app_cons. do 2 f_equal. unfold advance; f_equal; lia.
    + cbn [list_ascii_of_string forallb]. rewrite Hp.
      rewrite (class_of_member p allChars c Hall Hin). reflexivity.
Qed.

(** Every character of a generated password is an ASCII letter, a digit or
    one of the ten symbols, for every requested length: nothing else - no
    blank, no quote, no character outside the four classes - can appear. *)
Theorem password_stays_within_its_alphabet (E : env) (n : Z) (w : world) :
  unit_draws E ->
  exists password w',
    Shared.generateRandomPassword_ E n w = (Ok password, w')
    /\ forallb (fun c => is_upper c || is_lower c || is_digit c || is_symbol c)%bool
         (list_ascii_of_string password) = true.
Proof.
  intros Hd.
  set (ok := fun c => (is_upper c || is_lower c || is_digit c || is_symbol c)%bool).
  assert (Hall : forallb ok (list_ascii_of_string allChars) = true) by reflexivity.
  assert (Hsub : forall chars c,
            forallb ok (list_ascii_of_string chars) = true ->
            In c (list_ascii_of_string chars) -> ok c = true).
  { intros chars c H Hin. exact (class_of_member ok chars c H Hin). }
  destruct (pick_in E Hd upperChars w) as (c1 & H1 & I1); [discriminate |].
  destruct (pick_in E Hd lowerChars (advance 1 w)) as (c2 & H2 & I2); [discriminate |].
  destruct (pick_in E Hd digitChars (advance 1 (advance 1 w)))
    as (c3 & H3 & I3); [discriminate |].
  destruct (pick_in E Hd symbolChars (advance 1 (advance 1 (advance 1 w))))
    as (c4 & H4 & I4); [discriminate |].
  apply (Hsub upperChars c1 eq_refl) in I1.
  apply (Hsub lowerChars c2 eq_refl) in I2.
  apply (Hsub digitChars c3 eq_refl) in I3.
  apply (Hsub symbolChars c4 eq_refl) in I4.
  set (w4 := advance 1 (advance 1 (advance 1 (advance 1 w)))) in *.
  set (first4 := String c1 "" +:+ String c2 "" +:+ String c3 "" +:+ String c4 "").
  destruct (fill_members E ok (Z.to_nat (n - 4)) first4 w4 Hd Hall)
    as (extra & Hf & Hextra).
  destruct (sortBy_shuffle E (list_ascii_of_string (first4 +:+ extra))
              (advance (Z.to_nat (n - 4)) w4)) as (shuffled & k & Hs & Hperm).
  change (list_ascii_of_string (first4 +:+ extra))
    with (c1 :: c2 :: c3 :: c4 :: list_ascii_of_string extra) in Hperm.
  exists (string_of_list_ascii shuffled). eexists.
  split.
  { unfold Shared.generateRandomPassword_. unfold_monad.
    rewrite H1, H2, H3, H4. fold first4. fold w4. rewrite Hf, Hs. reflexivity. }
  rewrite list_ascii_of_string_of_list_ascii. apply forallb_forall.
  intros c Hin. apply (Permutation_in c (Permutation_sym Hperm)) in Hin.
  rewrite forallb_forall in Hextra.
  destruct Hin as [<- | [<- | [<- | [<- | Hin]]]]; auto.
Qed.

Lemma password_alphabet_witness :
  exists password w',
    Shared.generateRandomPassword_ offlineEnv 20 emptyWorld = (Ok password, w')
    /\ forallb (fun c => is_upper c || is_lower c || is_digit c || is_symbol c)%bool
         (list_ascii_of_string password) = true.
Proof.
  exact (password_stays_within_its_alphabet offlineEnv 20 emptyWorld
           ltac:(intros n; apply fifths_in_unit_interval)).
Defined.

(* ===================================================================== *)
(** ** Credentials and the requester *)
(* ===================================================================== *)

Lemma getScriptProperty_unset (E : env) (key : string) (w : world) :
  unset E key ->
  Shared.getScriptProperty_ E key w = (Throw (missingProperty key), w).
Proof.
  intros [H | H]; unfold Shared.getScriptProperty_; rewrite H; reflexivity.
Qed.

Lemma getScriptProperty_set (E : env) (key : string) (w : world) :
  ~ unset E key ->
  exists v, Shared.getScriptProperty_ E key w = (Ok v, w).
Proof.
  intros H. unfold Shared.getScriptProperty_, unset in *.
  destruct (scriptProps E !! key) as [v |]; [| tauto].
  destruct (String.eqb v "") eqn:Hv.
  - apply String.eqb_eq in Hv. subst v. tauto.
  - exists v. reflexivity.
Qed.

(** The token provider of revision 1 reads its three credentials from the
    script properties before it asks for access, in the order private key,
    client email, impersonated user.  The first one that is not set (or is
    empty) stops it with an exception that names that property, whatever the
    OAuth2 service would have answered; with all three set the outcome is
    the service's alone. *)
Theorem first_missing_credential_is_named (E : env) (w : world) :
  (unset E "PRIVATE_KEY" ->
   V1.getAdminAccessToken E w = (Throw (missingProperty "PRIVATE_KEY"), w))
  /\ (~ unset E "PRIVATE_KEY" -> unset E "CLIENT_EMAIL" ->
      V1.getAdminAccessToken E w = (Throw (missingProperty "CLIENT_EMAIL"), w))
  /\ (~ unset E "PRIVATE_KEY" -> ~ unset E "CLIENT_EMAIL" ->
      unset E "IMPERSONATED_USER" ->
      V1.getAdminAccessToken E w
      = (Throw (missingProperty "IMPERSONATED_USER"), w))
  /\ (~ unset E "PRIVATE_KEY" -> ~ unset E "CLIENT_EMAIL" ->
      ~ unset E "IMPERSONATED_USER" ->
      V1.getAdminAccessToken E w
      = match oauthAccess E with
        | Some token => (Ok (VStr token), w)
        | None =>
            (Throw (Exn "Could not get a valid OAuth2 service object. Check server logs for details."),
             w)
        end).
Proof.
  unfold V1.getAdminAccessToken, V1.getService_, V1.getOAuthService_.
  unfold_monad.
  split; [| split; [| split]].
  - intros H1. rewrite (getScriptProperty_unset E _ w H1). reflexivity.
  - intros H1 H2. destruct (getScriptProperty_set E _ w H1) as (v1 & ->).
    rewrite (getScriptProperty_unset E _ w H2). reflexivity.
  - intros H1 H2 H3. destruct (getScriptProperty_set E _ w H1) as (v1 & ->).
    destruct (getScriptProperty_set E _ w H2) as (v2 & ->).
    rewrite (getScriptProperty_unset E _ w H3). reflexivity.
  - intros H1 H2 H3. destruct (getScriptProperty_set E _ w H1) as (v1 & ->).
    destruct (getScriptProperty_set E _ w H2) as (v2 & ->).
    destruct (getScriptProperty_set E _ w H3) as (v3 & ->).
    destruct (oauthAccess E); reflexivity.
Qed.

Lemma first_missing_credential_witness :
  ~ unset noClientEmailEnv "PRIVATE_KEY"
  /\ unset noClientEmailEnv "CLIENT_EMAIL"
  /\ V1.getAdminAccessToken noClientEmailEnv emptyWorld
     = (Throw (missingProperty "CLIENT_EMAIL"), emptyWorld).
Proof.
  assert (H1 : ~ unset noClientEmailEnv "PRIVATE_KEY")
    by (intros [H | H]; vm_compute in H; discriminate).
  assert (H2 : unset noClientEmailEnv "CLIENT_EMAIL")
    by (left; vm_compute; reflexivity).
  split; [exact H1 |]. split; [exact H2 |].
  exact (proj1 (proj2 (first_missing_credential_is_named noClientEmailEnv emptyWorld))
           H1 H2).
Defined.

(** A requester that cannot be identified is turned away before anything is
    read, asked or sent: the initial load and the creation return the same
    failure and leave the world as it was.  The fields of [nameInfo] are
    taken first, so a [null] argument raises instead. *)
Theorem unidentified_requester_is_turned_away
    (E : env) (nameFields : list (string * jsval)) (w : world) :
  activeUserEmail E = "" ->
  V1.getInitialAppState E w
  = (Ok (failure "Could not identify the requesting user."), w)
  /\ V1.createUser E (VObj nameFields) w
     = (Ok (failure "Could not identify the requesting user."), w)
  /\ V3.createUser E (VObj nameFields) w
     = (Ok (failure "Could not identify the requesting user."), w)
  /\ (exists e, V1.createUser E VNull w = (Throw e, w)).
Proof.
  intros Huser.
  unfold V1.getInitialAppState, V1.createUser, V3.createUser, Shared.createUser.
  rewrite Huser. change (String.eqb "" "") with true.
  split; [reflexivity |]. split; [| split].
  - unfold mbind at 1. unfold M_bind at 1. unfold lift at 1. mstep.
    unfold mbind at 1. unfold M_bind at 1. unfold lift at 1. mstep.
    reflexivity.
  - unfold mbind at 1. unfold M_bind at 1. unfold lift at 1. mstep.
    unfold mbind at 1. unfold M_bind at 1. unfold lift at 1. mstep.
    reflexivity.
  - eexists. unfold mbind at 1. unfold M_bind at 1. unfold lift at 1.
    cbn [getProp]. reflexivity.
Qed.

Lemma unidentified_requester_witness :
  activeUserEmail (asUser "" createEnv) = ""
  /\ V1.getInitialAppState (asUser "" createEnv) emptyWorld
     = (Ok (failure "Could not identify the requesting user."), emptyWorld)
  /\ V1.createUser (asUser "" createEnv)
       (VObj [("firstName", VStr "Jane"); ("lastName", VStr "Doe")]) emptyWorld
     = (Ok (failure "Could not identify the requesting user."), emptyWorld).
Proof.
  destruct (unidentified_requester_is_turned_away (asUser "" createEnv)
              [("firstName", VStr "Jane"); ("lastName", VStr "Doe")] emptyWorld
              eq_refl) as (H1 & H2 & _).
  split; [reflexivity |]. split; [exact H1 | exact H2].
Defined.
